(** * MoonTVPlus: the private-library metadata scan and the detail endpoint

    A shallow embedding of

    - [performScan] of the OpenList refresh route (the background scan that
      lists the remote folders, looks unknown ones up in TMDB, merges the
      results into the metainfo document, persists it and reports to the
      scan-task registry), with the [POST] handler that starts it, and
    - [GET] of [src/app/api/detail/route.ts] (the detail endpoint with its
      special branch for the [openlist] source),

    followed by the properties of the two that the design document states.

    JavaScript objects used as dictionaries are finite maps of their own
    properties, and the test [object[name]] of the scan loop also sees the
    members every object inherits from [Object.prototype]; strings are byte
    strings holding the UTF-8 encoding of the source text; numbers that the
    code counts with or prints are integers of a size JavaScript prints in
    full (below [10^21]). *)

From Stdlib Require Import ZArith QArith Qcanon String Ascii List Bool Lia.
From stdpp Require Import base tactics option list gmap strings pretty numbers sorting.

Open Scope Z_scope.

(** ** Exceptions *)

(** A call either returns a value or throws an [Error] carrying a message. *)
Inductive Outcome (A : Type) : Type :=
| Ok (a : A)
| Throw (message : string).
Arguments Ok {A} a.
Arguments Throw {A} message.

(** ** The metainfo document *)

(** One entry of [MetaInfo.folders], with the fields [performScan] writes. *)
Record FolderEntry := mkFolderEntry {
  tmdb_id : Z;
  title : string;
  poster_path : option string;
  release_date : string;
  overview : string;
  vote_average : Qc;
  media_type : string;
  last_updated : Z;
  failed : bool
}.

(** [MetaInfo]. A document read back from the database may lack its
    [folders] member ([None]: the member is missing or [null]); depending on
    where the document came from, [performScan] then re-initialises it or
    fails on it. *)
Record MetaInfo := mkMetaInfo {
  folders : option (gmap string FolderEntry);
  last_refresh : Z
}.

(** The value kept under the database key ['video.metainfo'], up to what
    [JSON.parse] makes of it: the serialisation of a document, or text that
    [JSON.parse] rejects. [JSON.stringify] of a document [d] is [Json d]. *)
Inductive Blob :=
| Json (d : MetaInfo)
| Malformed.

(** ** The external collaborators' data *)

(** [searchTMDB]'s answer: a status code and at most one match. *)
Module TMDB.
Record result := mkResult {
  id : Z;
  title : option string;
  name : option string;
  poster_path : option string;
  release_date : option string;
  first_air_date : option string;
  overview : string;
  vote_average : Qc;
  media_type : string
}.
Record response := mkResponse {
  code : Z;
  result_ : option result
}.
End TMDB.

(** [OpenListClient.listDirectory]'s answer. *)
Module OpenList.
Record item := mkItem {
  name : string;
  is_dir : bool
}.
(** Modelled from the spec: the member [message], the gateway's error
    message of the spec's failure model, which the answer of the client
    (not among the sources) carries along with its status code. The members
    [performScan] reads are [code] and [content] (for [data.content]); it
    never reads [message]. *)
Record listResponse := mkListResponse {
  code : Z;
  message : string;
  content : list item
}.
End OpenList.

(** The part of the admin configuration the two routes touch. *)
Record OpenListConfig := mkOpenListConfig {
  URL : string;
  Token : string;
  RootPath : string;
  LastRefreshTime : Z;
  ResourceCount : Z
}.

Record AdminConfig := mkAdminConfig {
  OpenListConfig_ : option OpenListConfig;
  TMDBApiKey : string;
  TMDBProxy : option string
}.

(** The summary handed to [completeScanTask]. *)
Record ScanResult := mkScanResult {
  total : Z;
  new : Z;
  existing : Z;
  errors : Z
}.

(** ** Observable calls

    What a run does to the scan-task registry, the catalog, the timer, the
    database and the cache, in the order it does it. *)
Inductive Event :=
| EUpdateProgress (taskId : string) (processed total : Z) (currentFolder : option string)
| ECompleteTask (taskId : string) (result : ScanResult)
| EFailTask (taskId : string) (message : string)
| EListDirectory (path : string)
| ESearchTMDB (query : string)
| EDelay (ms : Z)
| EGetGlobalValue (key : string)
| ESetGlobalValue (key : string) (value : Blob)
| EInvalidateCache (rootPath : string)
| ESetCache (rootPath : string)
| ESaveAdminConfig (config : AdminConfig)
| EFetch (url : string).

(** ** Process state and environment *)

(** [heap] holds the [MetaInfo] objects of the process by reference, so that
    the object the cache hands out and the object [performScan] updates in
    place can be one and the same. *)
Record State := mkState {
  heap : gmap nat MetaInfo;
  cache : gmap string nat;
  metainfo_db : option Blob;
  admin_config : option AdminConfig;
  clock : nat
}.

#[global] Instance MetaInfo_inhabited : Inhabited MetaInfo :=
  populate (mkMetaInfo None 0).

(** The behaviour of everything outside the two routes during one run:
    [now k] is what the [k]-th reading of [Date.now()] returns, the gateways
    answer or throw, and each database call can fail with a message. *)
Record Env := mkEnv {
  now : nat -> Z;
  listDirectory : string -> Outcome OpenList.listResponse;
  searchTMDB : string -> string -> option string -> Outcome TMDB.response;
  getGlobalValue_error : option string;
  setGlobalValue_error : option string;
  getConfig : Outcome AdminConfig;
  saveAdminConfig_error : option string
}.

(** ** A state, trace and exception monad *)

Definition M (A : Type) : Type := State -> Outcome A * State * list Event.

Definition ret {A} (a : A) : M A := fun s => (Ok a, s, []).

Definition throw {A} (message : string) : M A := fun s => (Throw message, s, []).

Definition bind {A B} (m : M A) (k : A -> M B) : M B :=
  fun s =>
    match m s with
    | (Ok a, s1, t1) => let '(r, s2, t2) := k a s1 in (r, s2, t1 ++ t2)
    | (Throw e, s1, t1) => (Throw e, s1, t1)
    end.

(** [try { m } catch (e) { h e.message }] *)
Definition try_catch {A} (m : M A) (h : string -> M A) : M A :=
  fun s =>
    match m s with
    | (Ok a, s1, t1) => (Ok a, s1, t1)
    | (Throw e, s1, t1) => let '(r, s2, t2) := h e s1 in (r, s2, t1 ++ t2)
    end.

Notation "'do' x <- c1 ; c2" := (bind c1 (fun x => c2))
  (at level 10, x name, c1 at level 100, c2 at level 200).
Notation "'run' c1 ; c2" := (bind c1 (fun _ => c2))
  (at level 10, c1 at level 100, c2 at level 200).

Definition emit (e : Event) : M unit := fun s => (Ok tt, s, [e]).

Definition lift {A} (o : Outcome A) : M A := fun s => (o, s, []).

Definition get_state : M State := fun s => (Ok s, s, []).

(** [Date.now()] *)
Definition Date_now (env : Env) : M Z :=
  fun s =>
    (Ok (now env (clock s)),
     mkState (heap s) (cache s) (metainfo_db s) (admin_config s) (S (clock s)),
     []).

(** ** Objects *)

(** A new object gets the first free reference. *)
Definition fresh (h : gmap nat MetaInfo) : nat :=
  S (max_list (elements (dom h))).

Definition alloc (d : MetaInfo) : M nat :=
  fun s =>
    let l := fresh (heap s) in
    (Ok l,
     mkState (<[l := d]> (heap s)) (cache s) (metainfo_db s) (admin_config s) (clock s),
     []).

Definition deref (l : nat) : M MetaInfo :=
  fun s => (Ok (heap s !!! l), s, []).

Definition assign (l : nat) (d : MetaInfo) : M unit :=
  fun s =>
    (Ok tt,
     mkState (<[l := d]> (heap s)) (cache s) (metainfo_db s) (admin_config s) (clock s),
     []).

(** ** The metadata cache

    Modelled from the spec: [getCachedMetaInfo], [setCachedMetaInfo] and
    [invalidateMetaInfoCache] of [@/lib/openlist-cache], which is not among
    the sources. The spec's contract is [get(root) -> document | absent],
    [set] replacing the entry wholesale, [invalidate] removing it, and no
    expiry. The cache keeps the object it is given, not a copy. *)
Definition getCachedMetaInfo (rootPath : string) : M (option nat) :=
  fun s => (Ok (cache s !! rootPath), s, []).

Definition setCachedMetaInfo (rootPath : string) (l : nat) : M unit :=
  fun s =>
    (Ok tt,
     mkState (heap s) (<[rootPath := l]> (cache s)) (metainfo_db s) (admin_config s) (clock s),
     [ESetCache rootPath]).

Definition invalidateMetaInfoCache (rootPath : string) : M unit :=
  fun s =>
    (Ok tt,
     mkState (heap s) (delete rootPath (cache s)) (metainfo_db s) (admin_config s) (clock s),
     [EInvalidateCache rootPath]).

(** ** The database *)

Definition metainfo_key : string := "video.metainfo".

(** [db.getGlobalValue('video.metainfo')]; an empty or missing value is
    [None]. *)
Definition db_getGlobalValue (env : Env) : M (option Blob) :=
  fun s =>
    match getGlobalValue_error env with
    | Some e => (Throw e, s, [EGetGlobalValue metainfo_key])
    | None => (Ok (metainfo_db s), s, [EGetGlobalValue metainfo_key])
    end.

(** [db.setGlobalValue('video.metainfo', value)] *)
Definition db_setGlobalValue (env : Env) (value : Blob) : M unit :=
  fun s =>
    match setGlobalValue_error env with
    | Some e => (Throw e, s, [ESetGlobalValue metainfo_key value])
    | None =>
        (Ok tt,
         mkState (heap s) (cache s) (Some value) (admin_config s) (clock s),
         [ESetGlobalValue metainfo_key value])
    end.

(** [db.saveAdminConfig(config)] *)
Definition db_saveAdminConfig (env : Env) (config : AdminConfig) : M unit :=
  fun s =>
    match saveAdminConfig_error env with
    | Some e => (Throw e, s, [ESaveAdminConfig config])
    | None =>
        (Ok tt,
         mkState (heap s) (cache s) (metainfo_db s) (Some config) (clock s),
         [ESaveAdminConfig config])
    end.

(** [JSON.parse] *)
Definition JSON_parse (b : Blob) : M MetaInfo :=
  match b with
  | Json d => ret d
  | Malformed => throw "Unexpected token in JSON"
  end.

(** [JSON.stringify] *)
Definition JSON_stringify (d : MetaInfo) : Blob := Json d.

(** ** The scan engine: [performScan] *)

(** [a || b] for a string [a] that may be missing: a missing or empty [a]
    is falsy. *)
Definition or_string (a : option string) (b : string) : string :=
  match a with
  | Some (String c rest) => String c rest
  | _ => b
  end.

(** The entry written for a match (the object literal of the
    [searchResult.code === 200 && searchResult.result] branch). *)
Definition resolved_entry (r : TMDB.result) (folderName : string) (t : Z) : FolderEntry :=
  {| tmdb_id := TMDB.id r;
     title := or_string (TMDB.title r) (or_string (TMDB.name r) folderName);
     poster_path := TMDB.poster_path r;
     release_date := or_string (TMDB.release_date r) (or_string (TMDB.first_air_date r) EmptyString);
     overview := TMDB.overview r;
     vote_average := TMDB.vote_average r;
     media_type := TMDB.media_type r;
     last_updated := t;
     failed := false |}.

(** The entry written for a folder whose lookup gave no match or threw (the
    same object literal in the [else] branch and in the [catch] block). *)
Definition failed_entry (folderName : string) (t : Z) : FolderEntry :=
  {| tmdb_id := 0;
     title := folderName;
     poster_path := None;
     release_date := EmptyString;
     overview := EmptyString;
     vote_average := 0%Qc;
     media_type := "movie";
     last_updated := t;
     failed := true |}.

(** The variables the loop updates: the [folders] object of [metaInfo], the
    two counters, and the number of clock readings so far. *)
Record LoopState := mkLoopState {
  entries : gmap string FolderEntry;
  newCount : Z;
  errorCount : Z;
  readings : nat
}.

(** [searchResult.code === 200 && searchResult.result] *)
Definition matched (searchResult : TMDB.response) : option TMDB.result :=
  if TMDB.code searchResult =? 200 then TMDB.result_ searchResult else None.

(** The names of the members a plain object inherits from
    [Object.prototype]: for each of them [object[name]] is a function, or
    for [__proto__] the prototype itself, also when the object has no such
    property of its own. *)
Definition Object_prototype_members : list string :=
  ["constructor"; "__defineGetter__"; "__defineSetter__"; "hasOwnProperty";
   "__lookupGetter__"; "__lookupSetter__"; "isPrototypeOf"; "propertyIsEnumerable";
   "toString"; "valueOf"; "__proto__"; "toLocaleString"].

Definition inherited (name : string) : bool :=
  existsb (String.eqb name) Object_prototype_members.

(** [metaInfo.folders[folder.name]] as a condition: an entry of that name
    (an object, so truthy), or else a member inherited under that name. *)
Definition has_entry (es : gmap string FolderEntry) (name : string) : bool :=
  match es !! name with
  | Some _ => true
  | None => inherited name
  end.

(** One iteration of the [for] loop, for [folders[i]]: the state after it and
    the calls it made. A folder for which [metaInfo.folders[folder.name]] is
    truthy is skipped. A lookup that throws lands in the [catch] block, past
    the [setTimeout] of the [try] block. *)
Definition scanFolder (env : Env) (taskId tmdbApiKey : string) (tmdbProxy : option string)
    (total : Z) (i : Z) (folder : OpenList.item) (st : LoopState)
  : LoopState * list Event :=
  let fname := OpenList.name folder in
  let progress := EUpdateProgress taskId (i + 1) total (Some fname) in
  if has_entry (entries st) fname then (st, [progress])
  else
    let t := now env (readings st) in
    match searchTMDB env tmdbApiKey fname tmdbProxy with
    | Ok searchResult =>
        match matched searchResult with
        | Some r =>
            (mkLoopState (<[fname := resolved_entry r fname t]> (entries st))
               (newCount st + 1) (errorCount st) (S (readings st)),
             [progress; ESearchTMDB fname; EDelay 300])
        | None =>
            (mkLoopState (<[fname := failed_entry fname t]> (entries st))
               (newCount st) (errorCount st + 1) (S (readings st)),
             [progress; ESearchTMDB fname; EDelay 300])
        end
    | Throw _ =>
        (mkLoopState (<[fname := failed_entry fname t]> (entries st))
           (newCount st) (errorCount st + 1) (S (readings st)),
         [progress; ESearchTMDB fname])
    end.

(** [for (let i = ...; i < folders.length; i++)], from index [i] on. *)
Fixpoint scanLoop (env : Env) (taskId tmdbApiKey : string) (tmdbProxy : option string)
    (total : Z) (i : Z) (rest : list OpenList.item) (st : LoopState)
  : LoopState * list Event :=
  match rest with
  | [] => (st, [])
  | folder :: rest' =>
      let '(st1, t1) := scanFolder env taskId tmdbApiKey tmdbProxy total i folder st in
      let '(st2, t2) := scanLoop env taskId tmdbApiKey tmdbProxy total (i + 1) rest' st1 in
      (st2, t1 ++ t2)
  end.

(** The loop run on the object [metaInfo] refers to: its [folders] are
    updated in place; the counters are returned. *)
Definition scanFolders (env : Env) (taskId tmdbApiKey : string) (tmdbProxy : option string)
    (metaInfo : nat) (dirs : list OpenList.item) : M (Z * Z) :=
  fun s =>
    let d := heap s !!! metaInfo in
    let st0 := mkLoopState (default ∅ (folders d)) 0 0 (clock s) in
    let '(st, t) :=
      scanLoop env taskId tmdbApiKey tmdbProxy (Z.of_nat (length dirs)) 0 dirs st0 in
    (Ok (newCount st, errorCount st),
     mkState (<[metaInfo := mkMetaInfo (Some (entries st)) (last_refresh d)]> (heap s))
       (cache s) (metainfo_db s) (admin_config s) (readings st),
     t).

(** The message of the [TypeError] that [Object.keys(undefined)] throws. *)
Definition keys_of_undefined : string := "Cannot convert undefined or null to object".

(** Step 1: the existing document, from the cache or else from the database.
    A failing read or parse is logged and leaves [existingMetaInfo] null. On
    a cache hit the number of cached entries is logged,
    [Object.keys(existingMetaInfo.folders).length], outside the inner [try]:
    a cached object without [folders] makes this throw. *)
Definition readExisting (env : Env) (rootPath : string) : M (option nat) :=
  do cached <- getCachedMetaInfo rootPath;
  match cached with
  | Some l =>
      do d <- deref l;
      match folders d with
      | Some _ => ret (Some l)
      | None => throw keys_of_undefined
      end
  | None =>
      try_catch
        (do metainfoJson <- db_getGlobalValue env;
         match metainfoJson with
         | Some b =>
             do parsed <- JSON_parse b;
             do l <- alloc parsed;
             ret (Some l)
         | None => ret None
         end)
        (fun _ => ret None)
  end.

(** [Object.keys(metaInfo.folders).length] *)
Definition folder_count (d : MetaInfo) : Z :=
  Z.of_nat (size (default ∅ (folders d))).

Definition listing_failed : string := "OpenList 列表获取失败".

(** Step 1 of [performScan]: [metaInfo] is the existing object or a new one,
    and its [folders] are made an object if they are not. *)
Definition resolveMetaInfo (env : Env) (rootPath : string) : M nat :=
  do existingMetaInfo <- readExisting env rootPath;
  do metaInfo <-
    match existingMetaInfo with
    | Some l => ret l
    | None => do t <- Date_now env; alloc (mkMetaInfo (Some ∅) t)
    end;
  do d0 <- deref metaInfo;
  run match folders d0 with
      | Some _ => ret tt
      | None => assign metaInfo (mkMetaInfo (Some ∅) (last_refresh d0))
      end;
  ret metaInfo.

(** Step 2: the directories under the root; a status other than 200 throws. *)
Definition listFolders (env : Env) (rootPath : string) : M (list OpenList.item) :=
  run emit (EListDirectory rootPath);
  do listResponse <- lift (listDirectory env rootPath);
  run (if OpenList.code listResponse =? 200 then ret tt else throw listing_failed);
  ret (filter (fun item => OpenList.is_dir item = true) (OpenList.content listResponse)).

(** The read-back after the save; its result is only logged, and so is its
    failure. *)
Definition verifySaved (env : Env) : M unit :=
  try_catch
    (do verifyContent <- db_getGlobalValue env;
     match verifyContent with
     | Some b => run JSON_parse b; ret tt
     | None => ret tt
     end)
    (fun _ => ret tt).

(** Steps 4 to 6 and the completion of the task. *)
Definition saveAndComplete (env : Env) (taskId rootPath : string) (metaInfo : nat)
    (n : Z) (counts : Z * Z) : M unit :=
  (* 4. save *)
  do t <- Date_now env;
  do d1 <- deref metaInfo;
  run assign metaInfo (mkMetaInfo (folders d1) t);
  do d2 <- deref metaInfo;
  run db_setGlobalValue env (JSON_stringify d2);
  run verifySaved env;
  (* 5. the cache *)
  run invalidateMetaInfoCache rootPath;
  run setCachedMetaInfo rootPath metaInfo;
  (* 6. the configuration *)
  do config <- lift (getConfig env);
  do t' <- Date_now env;
  do d3 <- deref metaInfo;
  match OpenListConfig_ config with
  | None => throw "Cannot set properties of undefined (setting 'LastRefreshTime')"
  | Some c =>
      run db_saveAdminConfig env
            (mkAdminConfig
               (Some (mkOpenListConfig (URL c) (Token c) (RootPath c) t' (folder_count d3)))
               (TMDBApiKey config) (TMDBProxy config));
      emit (ECompleteTask taskId
              (mkScanResult n (fst counts) (folder_count d3 - fst counts) (snd counts)))
  end.

Definition performScan (env : Env) (taskId url token rootPath tmdbApiKey : string)
    (tmdbProxy username password : option string) : M unit :=
  run emit (EUpdateProgress taskId 0 0 None);
  try_catch
    (do metaInfo <- resolveMetaInfo env rootPath;
     do dirs <- listFolders env rootPath;
     let n := Z.of_nat (length dirs) in
     run emit (EUpdateProgress taskId 0 n None);
     do counts <- scanFolders env taskId tmdbApiKey tmdbProxy metaInfo dirs;
     saveAndComplete env taskId rootPath metaInfo n counts)
    (fun message => run emit (EFailTask taskId message); throw message).

(** ** The detail endpoint: [GET] of [src/app/api/detail/route.ts] *)

Record AuthInfo := mkAuthInfo {
  username : option string
}.

(** What the handler reads of the request: the two query parameters and
    three headers. *)
Record Request := mkRequest {
  param_id : option string;
  param_source : option string;
  header_proto : option string;
  header_host : option string;
  header_cookie : option string
}.

Record Episode := mkEpisode {
  fileName : string;
  episode_title : option string;
  episode : Z
}.

(** The body of [/api/openlist/detail]. *)
Record OpenListData := mkOpenListData {
  success : bool;
  error : option string;
  folder : string;
  episodes : list Episode
}.

Record FetchResponse := mkFetchResponse {
  ok : bool;
  json : Outcome OpenListData
}.

Record ApiSite := mkApiSite {
  key : string;
  api : string
}.

Module Detail.
Record result := mkResult {
  source : string;
  source_name : string;
  id : string;
  title : string;
  poster : string;
  year : string;
  douban_id : Z;
  desc : string;
  episodes : list string;
  episodes_titles : list string
}.
End Detail.

Inductive Body :=
| ErrorBody (error : string)
| DetailBody (result : Detail.result)
| ApiBody (payload : string).

Record Response := mkResponse {
  status_code : Z;
  body : Body;
  headers : list (string * string)
}.

(** The collaborators of the detail endpoint; [getDetailFromApi] returns the
    serialised detail of an ordinary source. *)
Record DetailEnv := mkDetailEnv {
  getAuthInfoFromCookie : Request -> option AuthInfo;
  fetch : string -> string -> Outcome FetchResponse;
  getTMDBImageUrl : string -> string;
  getAvailableApiSites : string -> Outcome (list ApiSite);
  getDetailFromApi : ApiSite -> string -> Outcome string;
  getCacheTime : Outcome Z
}.

(** JavaScript truthiness of a string that may be null. *)
Definition truthy (a : option string) : bool :=
  match a with
  | Some (String _ _) => true
  | _ => false
  end.

Definition char_code (c : ascii) : Z := Z.of_N (N_of_ascii c).

Definition in_range (lo hi : Z) (c : ascii) : bool :=
  (lo <=? char_code c) && (char_code c <=? hi).

(** [A-Z a-z 0-9] *)
Definition alphanumeric (c : ascii) : bool :=
  in_range 48 57 c || in_range 65 90 c || in_range 97 122 c.

(** The characters [encodeURIComponent] leaves alone:
    [A-Z a-z 0-9 - _ . ! ~ * ' ( )]. *)
Definition unreserved (c : ascii) : bool :=
  alphanumeric c
  || existsb (Z.eqb (char_code c)) [45; 95; 46; 33; 126; 42; 39; 40; 41].

Definition hex_digit (n : Z) : ascii :=
  ascii_of_N (Z.to_N (if n <? 10 then 48 + n else 55 + n)).

(** [encodeURIComponent]: every other byte of the UTF-8 text becomes [%XX]. *)
Fixpoint encodeURIComponent (s : string) : string :=
  match s with
  | EmptyString => EmptyString
  | String c rest =>
      if unreserved c then String c (encodeURIComponent rest)
      else String "%" (String (hex_digit (char_code c / 16))
             (String (hex_digit (char_code c mod 16)) (encodeURIComponent rest)))
  end.

(** [s.split('-')[0]] *)
Fixpoint before_dash (s : string) : string :=
  match s with
  | EmptyString => EmptyString
  | String c rest => if Ascii.eqb c "-" then EmptyString else String c (before_dash rest)
  end.

(** A character of the class [[\w-]]. *)
Definition word_or_dash (c : ascii) : bool :=
  alphanumeric c || (char_code c =? 95) || (char_code c =? 45).

Fixpoint all_chars (p : ascii -> bool) (s : string) : bool :=
  match s with
  | EmptyString => true
  | String c rest => p c && all_chars p rest
  end.

(** [/^[\w-]+$/.test(id)] *)
Definition valid_id (id : string) : bool :=
  match id with
  | EmptyString => false
  | _ => all_chars word_or_dash id
  end.

Definition json_response (status : Z) (b : Body) : Response := mkResponse status b [].

(** Step 1 of the [openlist] branch: the cached document, or else the stored
    one, which is then put in the cache; a failure leaves [metaInfo] null. *)
Definition readMetaInfo (env : Env) (rootPath : string) : M (option nat) :=
  try_catch
    (do cached <- getCachedMetaInfo rootPath;
     match cached with
     | Some l => ret (Some l)
     | None =>
         do metainfoJson <- db_getGlobalValue env;
         match metainfoJson with
         | Some b =>
             do parsed <- JSON_parse b;
             do l <- alloc parsed;
             run setCachedMetaInfo rootPath l;
             ret (Some l)
         | None => ret None
         end
     end)
    (fun _ => ret None).

(** [metaInfo?.folders?.[id]], as far as the fields read from it go: a member
    inherited under the name [id] has none of them, and so counts as no
    entry. *)
Definition folderMeta_of (metaInfo : option MetaInfo) (id : string) : option FolderEntry :=
  match metaInfo with
  | Some d =>
      match folders d with
      | Some entries => entries !! id
      | None => None
      end
  | None => None
  end.

Definition episode_url (folderName : string) (ep : Episode) : string :=
  "/api/openlist/play?folder=" +:+ encodeURIComponent folderName
    +:+ "&fileName=" +:+ encodeURIComponent (fileName ep).

(** [ep.title || `第${ep.episode}集`], for episode numbers that JavaScript
    prints in full. *)
Definition episode_label (ep : Episode) : string :=
  or_string (episode_title ep) ("第" +:+ pretty (episode ep) +:+ "集").

(** The object literal [result] of the [openlist] branch. *)
Definition assemble (denv : DetailEnv) (folderMeta : option FolderEntry)
    (openlistData : OpenListData) : Detail.result :=
  {| Detail.source := "openlist";
     Detail.source_name := "私人影库";
     Detail.id := folder openlistData;
     Detail.title := or_string (title <$> folderMeta) (folder openlistData);
     Detail.poster :=
       match folderMeta ≫= poster_path with
       | Some (String c rest) => getTMDBImageUrl denv (String c rest)
       | _ => EmptyString
       end;
     Detail.year :=
       match release_date <$> folderMeta with
       | Some (String c rest) => before_dash (String c rest)
       | _ => EmptyString
       end;
     Detail.douban_id := 0;
     Detail.desc := or_string (overview <$> folderMeta) EmptyString;
     Detail.episodes := map (episode_url (folder openlistData)) (episodes openlistData);
     Detail.episodes_titles := map episode_label (episodes openlistData) |}.

Definition detail_url (request : Request) (id : string) : string :=
  or_string (header_proto request) "http" +:+ "://"
    +:+ default "null" (header_host request)
    +:+ "/api/openlist/detail?folder=" +:+ encodeURIComponent id.

(** The [if (sourceCode === 'openlist')] block. *)
Definition openlistDetail (denv : DetailEnv) (env : Env) (request : Request) (id : string)
  : M Response :=
  try_catch
    (do config <- lift (getConfig env);
     do openListConfig <-
       match OpenListConfig_ config with
       | Some c =>
           if truthy (Some (URL c)) && truthy (Some (Token c)) then ret c
           else throw "OpenList 未配置"
       | None => throw "OpenList 未配置"
       end;
     let rootPath := or_string (Some (RootPath openListConfig)) "/" in
     do metaInfo <- readMetaInfo env rootPath;
     let url := detail_url request id in
     run emit (EFetch url);
     do openlistResponse <- lift (fetch denv url (or_string (header_cookie request) EmptyString));
     run (if ok openlistResponse then ret tt else throw "获取 OpenList 视频详情失败");
     do openlistData <- lift (json openlistResponse);
     run (if success openlistData then ret tt
          else throw (or_string (error openlistData) "获取视频详情失败"));
     do s <- get_state;
     let folderMeta := folderMeta_of (metaInfo ≫= (fun l => heap s !! l)) id in
     ret (json_response 200 (DetailBody (assemble denv folderMeta openlistData))))
    (fun message => ret (json_response 500 (ErrorBody message))).

(** The [headers] of the answer, for a cache time that JavaScript prints in
    full. *)
Definition cache_headers (cacheTime : Z) : list (string * string) :=
  [("Cache-Control", "public, max-age=" +:+ pretty cacheTime +:+ ", s-maxage=" +:+ pretty cacheTime);
   ("CDN-Cache-Control", "public, s-maxage=" +:+ pretty cacheTime);
   ("Vercel-CDN-Cache-Control", "public, s-maxage=" +:+ pretty cacheTime);
   ("Netlify-Vary", "query")].

(** The ordinary sources, after the id check. *)
Definition apiDetail (denv : DetailEnv) (user : string) (sourceCode id : string) : M Response :=
  try_catch
    (do apiSites <- lift (getAvailableApiSites denv user);
     match find (fun site => String.eqb (key site) sourceCode) apiSites with
     | None => ret (json_response 400 (ErrorBody "无效的API来源"))
     | Some apiSite =>
         do result <- lift (getDetailFromApi denv apiSite id);
         do cacheTime <- lift (getCacheTime denv);
         ret (mkResponse 200 (ApiBody result) (cache_headers cacheTime))
     end)
    (fun message => ret (json_response 500 (ErrorBody message))).

Definition invalid_id_format : string := "无效的视频ID格式".

Definition GET (denv : DetailEnv) (env : Env) (request : Request) : M Response :=
  match getAuthInfoFromCookie denv request ≫= username with
  | Some (String u0 u) =>
      match param_id request, param_source request with
      | Some (String i0 i), Some (String c0 c) =>
          let id := String i0 i in
          let sourceCode := String c0 c in
          if String.eqb sourceCode "openlist" then openlistDetail denv env request id
          else if negb (valid_id id) then ret (json_response 400 (ErrorBody invalid_id_format))
          else apiDetail denv (String u0 u) sourceCode id
      | _, _ => ret (json_response 400 (ErrorBody "缺少必要参数"))
      end
  | _ => ret (json_response 401 (ErrorBody "Unauthorized"))
  end.

(** ** The scan-task registry

    Modelled from the spec: [updateScanTaskProgress], [completeScanTask] and
    [failScanTask] of [@/lib/scan-task], which is not among the sources. By
    the spec a task is created [pending]; a progress update sets
    [processed], [total] and the current item and makes the task [running];
    [complete] and [fail] are terminal, and a call that arrives after a
    terminal state changes nothing. *)
Inductive TaskStatus := pending | running | completed | failed_.

Record ScanTask := mkScanTask {
  status : TaskStatus;
  processed : Z;
  task_total : Z;
  currentItem : option string;
  result : option ScanResult;
  errorMessage : option string
}.

Definition createScanTask : ScanTask := mkScanTask pending 0 0 None None None.

Definition terminal (t : ScanTask) : bool :=
  match status t with
  | completed | failed_ => true
  | _ => false
  end.

Definition registry_step (taskId : string) (t : ScanTask) (e : Event) : ScanTask :=
  if terminal t then t
  else
    match e with
    | EUpdateProgress id p n cur =>
        if String.eqb id taskId
        then mkScanTask running p n cur (result t) (errorMessage t)
        else t
    | ECompleteTask id r =>
        if String.eqb id taskId
        then mkScanTask completed (processed t) (task_total t) (currentItem t) (Some r) (errorMessage t)
        else t
    | EFailTask id m =>
        if String.eqb id taskId
        then mkScanTask failed_ (processed t) (task_total t) (currentItem t) (result t) (Some m)
        else t
    | _ => t
    end.

(** The record of task [taskId] after the calls of a trace. *)
Definition task_after (taskId : string) (trace : list Event) : ScanTask :=
  fold_left (registry_step taskId) trace createScanTask.

(** ** Reading a run *)

Definition outcome_of {A} (r : Outcome A * State * list Event) : Outcome A := fst (fst r).
Definition state_of {A} (r : Outcome A * State * list Event) : State := snd (fst r).
Definition trace_of {A} (r : Outcome A * State * list Event) : list Event := snd r.

(** The document in the database, and the one the cache holds for a root. *)
Definition stored_document (s : State) : option MetaInfo :=
  match metainfo_db s with
  | Some (Json d) => Some d
  | _ => None
  end.

Definition cached_document (s : State) (rootPath : string) : option MetaInfo :=
  match cache s !! rootPath with
  | Some l => heap s !! l
  | None => None
  end.

(** The [(processed, total)] arguments of the progress updates of a trace,
    in order. *)
Definition progress_updates (trace : list Event) : list (Z * Z) :=
  omap (fun e => match e with EUpdateProgress _ p n _ => Some (p, n) | _ => None end) trace.

Definition progress_values (trace : list Event) : list Z :=
  fst <$> progress_updates trace.

(** The summaries of the [completeScanTask] calls of a trace. *)
Definition completions (trace : list Event) : list ScanResult :=
  omap (fun e => match e with ECompleteTask _ r => Some r | _ => None end) trace.

(** The messages of the [failScanTask] calls of a trace. *)
Definition failures (trace : list Event) : list string :=
  omap (fun e => match e with EFailTask _ m => Some m | _ => None end) trace.

(** The catalog queries of a trace, in order. *)
Definition lookups (trace : list Event) : list string :=
  omap (fun e => match e with ESearchTMDB q => Some q | _ => None end) trace.

(** The delays of a trace. *)
Definition delays (trace : list Event) : list Z :=
  omap (fun e => match e with EDelay ms => Some ms | _ => None end) trace.

(** The values a trace hands to [db.setGlobalValue]. *)
Definition store_writes (trace : list Event) : list Blob :=
  omap (fun e => match e with ESetGlobalValue _ b => Some b | _ => None end) trace.

(** ** Vocabulary of the properties *)

(** [i + 1, i + 2, ..., i + len]: what a loop over [len] folders that starts
    at index [i] reports as [processed]. *)
Fixpoint count_from (i : Z) (len : nat) : list Z :=
  match len with
  | O => []
  | S len' => (i + 1) :: count_from (i + 1) len'
  end.

(** The lookup of a folder name fails: no match in the answer, or a throw. *)
Definition lookup_fails (env : Env) (tmdbApiKey : string) (tmdbProxy : option string)
    (folderName : string) : bool :=
  match searchTMDB env tmdbApiKey folderName tmdbProxy with
  | Ok searchResult =>
      match matched searchResult with
      | Some _ => false
      | None => true
      end
  | Throw _ => true
  end.

(** What step 2 of [performScan] ends with: the directories, or the error it
    throws. *)
Definition listing (env : Env) (rootPath : string) : Outcome (list OpenList.item) :=
  match listDirectory env rootPath with
  | Ok listResponse =>
      if OpenList.code listResponse =? 200
      then Ok (filter (fun item => OpenList.is_dir item = true) (OpenList.content listResponse))
      else Throw listing_failed
  | Throw message => Throw message
  end.

(** The entries [performScan] starts from: those of the cached object, or
    else of the stored document if it can be read, or else none. *)
Definition existing_folders (env : Env) (rootPath : string) (s : State)
  : gmap string FolderEntry :=
  match cache s !! rootPath with
  | Some l => default ∅ (folders (heap s !!! l))
  | None =>
      match getGlobalValue_error env, metainfo_db s with
      | None, Some (Json d) => default ∅ (folders d)
      | _, _ => ∅
      end
  end.

(** The cache holds an object for the root, and it has no [folders]: step 1
    of [performScan] throws. *)
Definition cached_without_folders (s : State) (rootPath : string) : bool :=
  match cache s !! rootPath with
  | Some l =>
      match folders (heap s !!! l) with
      | Some _ => false
      | None => true
      end
  | None => false
  end.

(** What steps 1 and 2 of [performScan] end with: the directories to scan, or
    the error thrown. *)
Definition scan_listing (env : Env) (rootPath : string) (s : State)
  : Outcome (list OpenList.item) :=
  if cached_without_folders s rootPath then Throw keys_of_undefined
  else listing env rootPath.

(** The number of clock readings made when the loop starts: those made before
    the run, and one more if step 1 had to make a new document. *)
Definition loop_clock (env : Env) (rootPath : string) (s : State) : nat :=
  match cache s !! rootPath with
  | Some _ => clock s
  | None =>
      match getGlobalValue_error env, metainfo_db s with
      | None, Some (Json _) => clock s
      | _, _ => S (clock s)
      end
  end.

(** The calls of step 1 of [performScan]: a cache miss reads the database. *)
Definition resolve_trace (s : State) (rootPath : string) : list Event :=
  match cache s !! rootPath with
  | Some _ => []
  | None => [EGetGlobalValue metainfo_key]
  end.

(** The error step 6 of [performScan] ends with, if any. *)
Definition config_error (env : Env) : option string :=
  match getConfig env with
  | Throw message => Some message
  | Ok config =>
      match OpenListConfig_ config with
      | None => Some "Cannot set properties of undefined (setting 'LastRefreshTime')"
      | Some _ => saveAdminConfig_error env
      end
  end.

(** The document the detail endpoint gets to see for a root: the cached
    object, or else the stored document if it can be read. *)
Definition visible_metainfo (env : Env) (rootPath : string) (s : State) : option MetaInfo :=
  match cache s !! rootPath with
  | Some l => heap s !! l
  | None =>
      match getGlobalValue_error env, metainfo_db s with
      | None, Some (Json d) => Some d
      | _, _ => None
      end
  end.


(** The entry of a folder in the stored document. *)
Definition stored_entry (s : State) (folderName : string) : option FolderEntry :=
  folderMeta_of (stored_document s) folderName.

(** How steps 4 to 6 of [performScan] end. *)
Definition persist_outcome (env : Env) : Outcome unit :=
  match setGlobalValue_error env with
  | Some message => Throw message
  | None =>
      match config_error env with
      | Some message => Throw message
      | None => Ok tt
      end
  end.

(** A stretch of a trace without registry calls, lookups or delays. *)
Definition silent (trace : list Event) : Prop :=
  progress_updates trace = [] ∧ completions trace = [] ∧ failures trace = []
  ∧ lookups trace = [] ∧ delays trace = [].

(** ** A worked scan: two folders, one match *)

Definition initial_state : State := mkState ∅ ∅ None None 0.

Definition inception : TMDB.result :=
  TMDB.mkResult 27205 (Some "盗梦空间") None (Some "/inception.jpg")
    (Some "2010-07-15") None "A thief who steals secrets." (Q2Qc (84 # 10)) "movie".

Definition some_config : AdminConfig :=
  mkAdminConfig (Some (mkOpenListConfig "http://openlist" "token" "/" 0 0)) "key" None.

Definition two_folders_env : Env :=
  {| now := fun k => 1000 + Z.of_nat k;
     listDirectory := fun _ =>
       Ok (OpenList.mkListResponse 200 "success"
             [OpenList.mkItem "Inception (2010)" true;
              OpenList.mkItem "Unknown Junk Folder" true]);
     searchTMDB := fun _ q _ =>
       if String.eqb q "Inception (2010)"
       then Ok (TMDB.mkResponse 200 (Some inception))
       else Ok (TMDB.mkResponse 404 None);
     getGlobalValue_error := None;
     setGlobalValue_error := None;
     getConfig := Ok some_config;
     saveAdminConfig_error := None |}.

Definition two_folders_run : Outcome unit * State * list Event :=
  performScan two_folders_env "task-1" "http://openlist" "token" "/" "key" None None None
    initial_state.

(** The same root scanned once more, right after [two_folders_run]. *)
Definition two_folders_rescan : Outcome unit * State * list Event :=
  performScan two_folders_env "task-2" "http://openlist" "token" "/" "key" None None None
    (state_of two_folders_run).

(** ** Further worked runs *)

(** The gateway answers with status 500 and a message of its own. *)
Definition gateway_down_response : OpenList.listResponse :=
  OpenList.mkListResponse 500 "storage not found" [].

Definition gateway_down_env : Env :=
  {| now := fun k => 2000 + Z.of_nat k;
     listDirectory := fun _ => Ok gateway_down_response;
     searchTMDB := fun _ _ _ => Ok (TMDB.mkResponse 404 None);
     getGlobalValue_error := None;
     setGlobalValue_error := None;
     getConfig := Ok some_config;
     saveAdminConfig_error := None |}.

Definition gateway_down_run : Outcome unit * State * list Event :=
  performScan gateway_down_env "task-3" "http://openlist" "token" "/" "key" None None None
    (state_of two_folders_run).

(** Saving the admin configuration throws. *)
Definition config_locked_env : Env :=
  {| now := now two_folders_env;
     listDirectory := listDirectory two_folders_env;
     searchTMDB := searchTMDB two_folders_env;
     getGlobalValue_error := None;
     setGlobalValue_error := None;
     getConfig := Ok some_config;
     saveAdminConfig_error := Some "database is locked" |}.

Definition config_locked_run : Outcome unit * State * list Event :=
  performScan config_locked_env "task-4" "http://openlist" "token" "/" "key" None None None
    initial_state.

(** One folder, and a lookup that throws. *)
Definition lookup_throws_env : Env :=
  {| now := fun k => 3000 + Z.of_nat k;
     listDirectory := fun _ =>
       Ok (OpenList.mkListResponse 200 "success" [OpenList.mkItem "Heat (1995)" true]);
     searchTMDB := fun _ _ _ => Throw "fetch failed";
     getGlobalValue_error := None;
     setGlobalValue_error := None;
     getConfig := Ok some_config;
     saveAdminConfig_error := None |}.

Definition lookup_throws_run : Outcome unit * State * list Event :=
  performScan lookup_throws_env "task-5" "http://openlist" "token" "/" "key" None None None
    initial_state.

(** A detail request for a folder that was never scanned, whose name is not
    of the form [[\w-]+]. *)
Definition holiday_request : Request :=
  {| param_id := Some "Holiday Videos/2024";
     param_source := Some "openlist";
     header_proto := Some "https";
     header_host := Some "tv.example";
     header_cookie := Some "auth=abc" |}.

Definition holiday_data : OpenListData :=
  {| success := true;
     error := None;
     folder := "Holiday Videos/2024";
     episodes := [mkEpisode "day 1.mp4" None 1; mkEpisode "day2.mp4" (Some "Beach") 2] |}.

Definition holiday_denv : DetailEnv :=
  {| getAuthInfoFromCookie := fun _ => Some (mkAuthInfo (Some "alice"));
     fetch := fun url _ =>
       if String.eqb url
            "https://tv.example/api/openlist/detail?folder=Holiday%20Videos%2F2024"
       then Ok (mkFetchResponse true (Ok holiday_data))
       else Throw "fetch failed";
     getTMDBImageUrl := fun path => "https://image.tmdb.org/t/p/w500" +:+ path;
     getAvailableApiSites := fun _ => Ok [];
     getDetailFromApi := fun _ _ => Throw "unreachable";
     getCacheTime := Ok 7200 |}.

Definition holiday_response : Outcome Response * State * list Event :=
  GET holiday_denv two_folders_env holiday_request (state_of two_folders_run).

(** ** The refresh endpoint: [POST] *)

(** The bodies [POST] answers with: [{ error }], [{ error, details }] and
    [{ success: true, taskId, message }]. *)
Inductive RefreshBody :=
| RefreshError (error : string)
| RefreshFailed (error details : string)
| RefreshStarted (taskId message : string).

Record RefreshResponse := mkRefreshResponse {
  refresh_status : Z;
  refresh_body : RefreshBody
}.

(** What [POST] calls: the two registry functions it uses itself, and the
    calls of the scan it starts. *)
Inductive RefreshCall :=
| CCleanupOldTasks
| CCreateScanTask (taskId : string)
| CBackground (e : Event).

(** What [POST] gets from outside besides [Env]: the result of
    [getAuthInfoFromCookie(request)], the id [createScanTask()] returns, and
    the [Username] and [Password] of the OpenList configuration, which are
    only handed on to the client. *)
Record RefreshEnv := mkRefreshEnv {
  authInfo : option AuthInfo;
  createScanTask_id : string;
  openlist_username : option string;
  openlist_password : option string
}.

(** [performScan(...).catch((error) => failScanTask(taskId, error.message))] *)
Definition startScan (env : Env) (taskId url token rootPath tmdbApiKey : string)
    (tmdbProxy user password : option string) : M unit :=
  try_catch
    (performScan env taskId url token rootPath tmdbApiKey tmdbProxy user password)
    (fun message => emit (EFailTask taskId message)).

(** [POST]. The scan is started and not awaited: the answer does not depend
    on it. The state returned is the one the scan leaves behind. *)
Definition POST (renv : RefreshEnv) (env : Env) (s : State)
  : RefreshResponse * State * list RefreshCall :=
  match authInfo renv ≫= username with
  | Some (String _ _) =>
      match getConfig env with
      | Throw message => (mkRefreshResponse 500 (RefreshFailed "启动失败" message), s, [])
      | Ok config =>
          match OpenListConfig_ config with
          | Some openListConfig =>
              if truthy (Some (URL openListConfig)) && truthy (Some (Token openListConfig))
              then
                if truthy (Some (TMDBApiKey config))
                then
                  let taskId := createScanTask_id renv in
                  let '(_, s', t) :=
                    startScan env taskId (URL openListConfig) (Token openListConfig)
                      (or_string (Some (RootPath openListConfig)) "/")
                      (TMDBApiKey config) (TMDBProxy config)
                      (openlist_username renv) (openlist_password renv) s in
                  (mkRefreshResponse 200 (RefreshStarted taskId "扫描任务已启动"), s',
                   CCleanupOldTasks :: CCreateScanTask taskId :: (CBackground <$> t))
                else (mkRefreshResponse 400 (RefreshError "TMDB API Key 未配置"), s, [])
              else (mkRefreshResponse 400 (RefreshError "OpenList 未配置"), s, [])
          | None => (mkRefreshResponse 400 (RefreshError "OpenList 未配置"), s, [])
          end
      end
  | _ => (mkRefreshResponse 401 (RefreshError "未授权"), s, [])
  end.

(** The calls of the scan [POST] started. *)
Definition background (calls : list RefreshCall) : list Event :=
  omap (fun c => match c with CBackground e => Some e | _ => None end) calls.

(** The task ids [POST] had created. *)
Definition created_tasks (calls : list RefreshCall) : list string :=
  omap (fun c => match c with CCreateScanTask id => Some id | _ => None end) calls.

(** ** Further vocabulary *)

(** The lookup of a folder name returns an answer (it does not throw). *)
Definition answered (env : Env) (tmdbApiKey : string) (tmdbProxy : option string)
    (folderName : string) : bool :=
  match searchTMDB env tmdbApiKey folderName tmdbProxy with
  | Ok _ => true
  | Throw _ => false
  end.

(** The entry the loop writes at time [t] for a folder without one. *)
Definition written_entry (env : Env) (tmdbApiKey : string) (tmdbProxy : option string)
    (folderName : string) (t : Z) : FolderEntry :=
  match searchTMDB env tmdbApiKey folderName tmdbProxy with
  | Ok searchResult =>
      match matched searchResult with
      | Some r => resolved_entry r folderName t
      | None => failed_entry folderName t
      end
  | Throw _ => failed_entry folderName t
  end.

Definition not_dash (c : ascii) : bool := negb (Ascii.eqb c "-").

(** A character [encodeURIComponent] may produce. *)
Definition url_safe (c : ascii) : bool := unreserved c || Ascii.eqb c "%".

(** The calls of a trace that read the database. *)
Definition store_reads (trace : list Event) : list string :=
  omap (fun e => match e with EGetGlobalValue k => Some k | _ => None end) trace.

(** The fetches of a trace. *)
Definition fetches (trace : list Event) : list string :=
  omap (fun e => match e with EFetch url => Some url | _ => None end) trace.

(** The task ids of the registry calls of a trace. *)
Definition task_ids (trace : list Event) : list string :=
  omap (fun e => match e with
                 | EUpdateProgress id _ _ _ | ECompleteTask id _ | EFailTask id _ => Some id
                 | _ => None
                 end) trace.

(** ** Worked requests *)

Definition admin_renv : RefreshEnv :=
  {| authInfo := Some (mkAuthInfo (Some "admin"));
     createScanTask_id := "task-9";
     openlist_username := None;
     openlist_password := None |}.

Definition anonymous_renv : RefreshEnv :=
  {| authInfo := None;
     createScanTask_id := "task-9";
     openlist_username := None;
     openlist_password := None |}.


(** The gateway itself throws. *)
Definition gateway_throws_env : Env :=
  {| now := now two_folders_env;
     listDirectory := fun _ => Throw "OpenList API 错误: 502";
     searchTMDB := searchTMDB two_folders_env;
     getGlobalValue_error := None;
     setGlobalValue_error := None;
     getConfig := Ok some_config;
     saveAdminConfig_error := None |}.

(** A state whose stored value does not parse. *)
Definition malformed_state : State := mkState ∅ ∅ (Some Malformed) None 0.


(** A state whose cached document for the root has no [folders], as has the
    stored one. *)
Definition folderless_cache_state : State :=
  mkState {[ 1%nat := mkMetaInfo None 0 ]} {[ "/" := 1%nat ]}
    (Some (Json (mkMetaInfo None 0))) None 0.

(** The same stored document, with nothing cached. *)
Definition folderless_store_state : State :=
  mkState ∅ ∅ (Some (Json (mkMetaInfo None 0))) None 0.

(** A listing with a folder named like a member of [Object.prototype]. *)
Definition constructor_env : Env :=
  {| now := now two_folders_env;
     listDirectory := fun _ =>
       Ok (OpenList.mkListResponse 200 "success"
             [OpenList.mkItem "constructor" true;
              OpenList.mkItem "Unknown Junk Folder" true]);
     searchTMDB := fun _ _ _ => Ok (TMDB.mkResponse 200 (Some inception));
     getGlobalValue_error := None;
     setGlobalValue_error := None;
     getConfig := Ok some_config;
     saveAdminConfig_error := None |}.

Definition constructor_run : Outcome unit * State * list Event :=
  performScan constructor_env "task-10" "http://openlist" "token" "/" "key" None None None
    initial_state.

(** A detail request for the folder that [two_folders_run] resolved. *)
Definition inception_request : Request :=
  {| param_id := Some "Inception (2010)";
     param_source := Some "openlist";
     header_proto := None;
     header_host := Some "tv.example";
     header_cookie := None |}.

Definition inception_data : OpenListData :=
  {| success := true;
     error := None;
     folder := "Inception (2010)";
     episodes := [mkEpisode "Inception.mkv" None 1] |}.

Definition inception_denv : DetailEnv :=
  {| getAuthInfoFromCookie := fun _ => Some (mkAuthInfo (Some "alice"));
     fetch := fun _ _ => Ok (mkFetchResponse true (Ok inception_data));
     getTMDBImageUrl := fun path => "https://image.tmdb.org/t/p/w500" +:+ path;
     getAvailableApiSites := fun _ => Ok [mkApiSite "dyttzy" "http://dyttzy.example/api"];
     getDetailFromApi := fun site id => Ok (api site +:+ "?ids=" +:+ id);
     getCacheTime := Ok 7200 |}.

(** The state after a restart: the database of [two_folders_run], nothing
    cached. *)
Definition restarted_state : State :=
  mkState ∅ ∅ (metainfo_db (state_of two_folders_run)) None 0.

(** * Properties *)

Set Warnings "-clear-no-such-hyp".

(** ** Reading traces *)

Lemma omap_cons_app {A B} (f : A → option B) x l :
  omap f (x :: l) = from_option (fun y => [y]) [] (f x) ++ omap f l.
Proof. simpl. by destruct (f x). Qed.

Local Ltac unfold_observers :=
  unfold silent, progress_values, progress_updates, completions, failures, lookups, delays,
    store_writes in *.

(** Push the observers of a trace through its concatenations. *)
Local Ltac observe :=
  unfold_observers; repeat (rewrite omap_app || rewrite omap_cons_app); simpl.

Lemma lookups_app t1 t2 : lookups (t1 ++ t2) = lookups t1 ++ lookups t2.
Proof. apply omap_app. Qed.

Lemma delays_app t1 t2 : delays (t1 ++ t2) = delays t1 ++ delays t2.
Proof. apply omap_app. Qed.



Lemma filter_split_length {A} (p : A → bool) (l : list A) :
  length l = (length (filter (fun q => p q = false) l)
              + length (filter (fun q => p q = true) l))%nat.
Proof.
  induction l as [|q l IH]; [done|]. rewrite !filter_cons.
  destruct (p q).
  - rewrite decide_False by done. rewrite decide_True by done. simpl. lia.
  - rewrite decide_True by done. rewrite decide_False by done. simpl. lia.
Qed.

(** ** The registry *)

Lemma registry_step_open taskId tr : ∀ t,
  completions tr = [] → failures tr = [] →
  terminal t = false → result t = None → errorMessage t = None →
  terminal (fold_left (registry_step taskId) tr t) = false
  ∧ result (fold_left (registry_step taskId) tr t) = None
  ∧ errorMessage (fold_left (registry_step taskId) tr t) = None.
Proof.
  induction tr as [|e tr IH]; intros t Hc Hf Ht Hr He; [done|].
  simpl. unfold completions, failures in *.
  rewrite omap_cons_app in Hc. rewrite omap_cons_app in Hf.
  apply app_eq_nil in Hc as [Hc1 Hc]. apply app_eq_nil in Hf as [Hf1 Hf].
  apply IH; try done; unfold registry_step; rewrite Ht;
    destruct e; try done; simpl; by destruct (String.eqb _ _).
Qed.

Lemma task_after_failed taskId tr m :
  completions tr = [] → failures tr = [] →
  status (task_after taskId (tr ++ [EFailTask taskId m])) = failed_
  ∧ errorMessage (task_after taskId (tr ++ [EFailTask taskId m])) = Some m
  ∧ result (task_after taskId (tr ++ [EFailTask taskId m])) = None.
Proof.
  intros Hc Hf. unfold task_after. rewrite fold_left_app. cbn [fold_left].
  destruct (registry_step_open taskId tr createScanTask Hc Hf) as (Ht & Hr & _); try done.
  set (t := fold_left (registry_step taskId) tr createScanTask) in *.
  unfold registry_step. rewrite Ht, String.eqb_refl. done.
Qed.

Lemma task_after_completed taskId tr r :
  completions tr = [] → failures tr = [] →
  status (task_after taskId (tr ++ [ECompleteTask taskId r])) = completed
  ∧ result (task_after taskId (tr ++ [ECompleteTask taskId r])) = Some r
  ∧ errorMessage (task_after taskId (tr ++ [ECompleteTask taskId r])) = None.
Proof.
  intros Hc Hf. unfold task_after. rewrite fold_left_app. cbn [fold_left].
  destruct (registry_step_open taskId tr createScanTask Hc Hf) as (Ht & _ & He); try done.
  set (t := fold_left (registry_step taskId) tr createScanTask) in *.
  unfold registry_step. rewrite Ht, String.eqb_refl. done.
Qed.

(** ** The already-exists test *)

Lemma has_entry_false es q :
  has_entry es q = false ↔ es !! q = None ∧ inherited q = false.
Proof. unfold has_entry. destruct (es !! q); naive_solver. Qed.

Lemma has_entry_true es q :
  has_entry es q = true ↔ is_Some (es !! q) ∨ inherited q = true.
Proof.
  unfold has_entry. destruct (es !! q) as [e|].
  - split; [intros _; left; by eexists | done].
  - split; [by right | by intros [[e He] | H]].
Qed.

Lemma has_entry_insert_ne es k e q :
  q ≠ k → has_entry (<[k := e]> es) q = has_entry es q.
Proof. intros Hne. unfold has_entry. by rewrite lookup_insert_ne. Qed.

Lemma has_entry_mono es es' q :
  (∀ e, es !! q = Some e → es' !! q = Some e) →
  has_entry es q = true → has_entry es' q = true.
Proof.
  intros Hmono [[e He] | Hi]%has_entry_true; apply has_entry_true; [left | by right].
  exists e. by apply Hmono.
Qed.

(** ** The loop *)

Section loop.
Context (env : Env) (taskId tmdbApiKey : string) (tmdbProxy : option string) (total : Z).

Abbreviation step := (scanFolder env taskId tmdbApiKey tmdbProxy total).
Abbreviation loop := (scanLoop env taskId tmdbApiKey tmdbProxy total).
Abbreviation fails := (lookup_fails env tmdbApiKey tmdbProxy).
Abbreviation answers := (answered env tmdbApiKey tmdbProxy).
Abbreviation written := (written_entry env tmdbApiKey tmdbProxy).

(** One iteration for a folder that passes the already-exists test. *)
Lemma scanFolder_known i f st :
  has_entry (entries st) (OpenList.name f) = true →
  step i f st = (st, [EUpdateProgress taskId (i + 1) total (Some (OpenList.name f))]).
Proof. intros He. unfold scanFolder. by rewrite He. Qed.

(** One iteration for a folder that does not. *)
Lemma scanFolder_unknown i f st :
  has_entry (entries st) (OpenList.name f) = false →
  step i f st =
    (mkLoopState
       (<[OpenList.name f := written (OpenList.name f) (now env (readings st))]> (entries st))
       (if fails (OpenList.name f) then newCount st else newCount st + 1)
       (if fails (OpenList.name f) then errorCount st + 1 else errorCount st)
       (S (readings st)),
     EUpdateProgress taskId (i + 1) total (Some (OpenList.name f))
       :: ESearchTMDB (OpenList.name f)
       :: (if answers (OpenList.name f) then [EDelay 300] else [])).
Proof.
  intros He. unfold scanFolder, lookup_fails, answered, written_entry. rewrite He.
  destruct (searchTMDB env tmdbApiKey (OpenList.name f) tmdbProxy) as [r|m]; [|done].
  by destruct (matched r).
Qed.

Lemma scanFolder_lookups i f st :
  lookups (step i f st).2
  = if has_entry (entries st) (OpenList.name f) then [] else [OpenList.name f].
Proof.
  destruct (has_entry (entries st) (OpenList.name f)) eqn:He.
  - by rewrite scanFolder_known.
  - rewrite scanFolder_unknown by done. cbn [snd].
    by destruct (answers (OpenList.name f)).
Qed.

Lemma scanFolder_progress i f st :
  progress_updates (step i f st).2 = [(i + 1, total)].
Proof.
  destruct (has_entry (entries st) (OpenList.name f)) eqn:He.
  - by rewrite scanFolder_known.
  - rewrite scanFolder_unknown by done. cbn [snd].
    by destruct (answers (OpenList.name f)).
Qed.

Lemma scanFolder_entries_mono i f st k e :
  entries st !! k = Some e → entries (step i f st).1 !! k = Some e.
Proof.
  intros Hk. destruct (has_entry (entries st) (OpenList.name f)) eqn:He.
  - by rewrite scanFolder_known.
  - rewrite scanFolder_unknown by done. cbn [fst entries].
    apply has_entry_false in He as [He _].
    rewrite lookup_insert_ne; [done | congruence].
Qed.

Lemma scanFolder_known_after i f st :
  has_entry (entries (step i f st).1) (OpenList.name f) = true.
Proof.
  destruct (has_entry (entries st) (OpenList.name f)) eqn:He.
  - by rewrite scanFolder_known.
  - rewrite scanFolder_unknown by done. cbn [fst entries].
    apply has_entry_true. left. rewrite lookup_insert_eq. by eexists.
Qed.

Lemma scanLoop_cons i f fs st :
  loop i (f :: fs) st =
    ((loop (i + 1) fs (step i f st).1).1,
     (step i f st).2 ++ (loop (i + 1) fs (step i f st).1).2).
Proof.
  simpl. destruct (step i f st) as [st1 t1]. simpl.
  by destruct (loop (i + 1) fs st1).
Qed.

Lemma scanLoop_progress fs : ∀ i st,
  progress_updates (loop i fs st).2 = (fun p => (p, total)) <$> count_from i (length fs).
Proof.
  induction fs as [|f fs IH]; intros i st; [done|].
  rewrite scanLoop_cons. simpl. unfold progress_updates in *.
  rewrite omap_app. fold (progress_updates (step i f st).2).
  by rewrite scanFolder_progress, IH.
Qed.

Lemma scanLoop_entries_mono fs : ∀ i st k e,
  entries st !! k = Some e → entries (loop i fs st).1 !! k = Some e.
Proof.
  induction fs as [|f fs IH]; intros i st k e Hk; [done|].
  rewrite scanLoop_cons. simpl. by apply IH, scanFolder_entries_mono.
Qed.

(** After the loop every listed folder passes the already-exists test. *)
Lemma scanLoop_known_after fs : ∀ i st f,
  f ∈ fs → has_entry (entries (loop i fs st).1) (OpenList.name f) = true.
Proof.
  induction fs as [|f' fs IH]; intros i st f Hf; [by apply elem_of_nil in Hf|].
  rewrite scanLoop_cons. cbn [fst]. apply elem_of_cons in Hf as [-> | Hf].
  - eapply has_entry_mono; [|apply (scanFolder_known_after i f' st)].
    intros e. apply scanLoop_entries_mono.
  - by apply IH.
Qed.

(** Folders that all pass the already-exists test are skipped: nothing is
    looked up and nothing changes. *)
Lemma scanLoop_all_known fs : ∀ i st,
  (∀ f, f ∈ fs → has_entry (entries st) (OpenList.name f) = true) →
  (loop i fs st).1 = st ∧ lookups (loop i fs st).2 = [] ∧ delays (loop i fs st).2 = [].
Proof.
  induction fs as [|f fs IH]; intros i st Hall; [done|].
  rewrite scanLoop_cons. simpl.
  rewrite scanFolder_known by (apply Hall; left). simpl.
  apply IH. intros g Hg. apply Hall. by right.
Qed.

(** The loop calls the registry only to report progress, and never writes
    to the database. *)
Lemma scanLoop_calls fs : ∀ i st,
  completions (loop i fs st).2 = [] ∧ failures (loop i fs st).2 = []
  ∧ store_writes (loop i fs st).2 = [].
Proof.
  induction fs as [|f fs IH]; intros i st; [done|].
  rewrite scanLoop_cons. simpl.
  unfold completions, failures, store_writes in *. rewrite !omap_app.
  destruct (IH (i + 1) (step i f st).1) as (-> & -> & ->). rewrite !app_nil_r.
  destruct (has_entry (entries st) (OpenList.name f)) eqn:He.
  - by rewrite scanFolder_known.
  - rewrite scanFolder_unknown by done. cbn [snd].
    by destruct (answers (OpenList.name f)).
Qed.

(** The names with an entry after the loop: those from before, and the
    listed names that are not names of inherited members. *)
Lemma scanLoop_dom fs : ∀ i st,
  dom (entries (loop i fs st).1)
  = dom (entries st)
    ∪ list_to_set (filter (fun q => inherited q = false) (OpenList.name <$> fs)).
Proof.
  induction fs as [|f fs IH]; intros i st.
  - simpl. set_solver.
  - rewrite scanLoop_cons. cbn [fst]. rewrite IH, fmap_cons, filter_cons.
    destruct (has_entry (entries st) (OpenList.name f)) eqn:He.
    + rewrite scanFolder_known by done. cbn [fst].
      apply has_entry_true in He as [[e He] | He].
      * apply (elem_of_dom_2 (entries st)) in He.
        destruct (decide (inherited (OpenList.name f) = false)); set_solver.
      * rewrite decide_False by (by rewrite He). done.
    + rewrite scanFolder_unknown by done. cbn [fst entries]. rewrite dom_insert_L.
      apply has_entry_false in He as [_ He]. rewrite decide_True by done. set_solver.
Qed.

(** The loop looks up exactly the listed names that do not pass the
    already-exists test, each once. *)
Lemma scanLoop_lookups fs : ∀ i st,
  NoDup (lookups (loop i fs st).2)
  ∧ ∀ q, q ∈ lookups (loop i fs st).2
         ↔ q ∈ OpenList.name <$> fs ∧ has_entry (entries st) q = false.
Proof.
  induction fs as [|f fs IH]; intros i st.
  - simpl. split; [constructor|]. intros q. split; [by intros ?%elem_of_nil|].
    by intros [?%elem_of_nil _].
  - rewrite scanLoop_cons. cbn [fst snd]. rewrite lookups_app, scanFolder_lookups.
    destruct (has_entry (entries st) (OpenList.name f)) eqn:He.
    + rewrite scanFolder_known by done. cbn [fst app].
      destruct (IH (i + 1) st) as [Hnd Hiff]. split; [done|].
      intros q. rewrite Hiff, fmap_cons, elem_of_cons. split; [naive_solver|].
      intros [[-> | Hq] Hnone]; [congruence | done].
    + rewrite scanFolder_unknown by done. cbn [fst app].
      set (st1 := mkLoopState _ _ _ _).
      destruct (IH (i + 1) st1) as [Hnd Hiff]. split.
      * constructor; [|done]. rewrite Hiff. intros [_ Hnone].
        subst st1. cbn [entries] in Hnone. apply has_entry_false in Hnone as [Hnone _].
        by rewrite lookup_insert_eq in Hnone.
      * intros q. rewrite elem_of_cons, Hiff, fmap_cons, elem_of_cons. subst st1.
        cbn [entries].
        destruct (decide (q = OpenList.name f)) as [-> | Hne].
        -- naive_solver.
        -- rewrite has_entry_insert_ne by done. naive_solver.
Qed.

(** The counters count the lookups: [newCount] those with a match,
    [errorCount] the others; every lookup adds one entry and reads the clock
    once. *)
Lemma scanLoop_counts fs : ∀ i st,
  newCount (loop i fs st).1
  = newCount st
    + Z.of_nat (length (filter (fun q => fails q = false) (lookups (loop i fs st).2)))
  ∧ errorCount (loop i fs st).1
    = errorCount st
      + Z.of_nat (length (filter (fun q => fails q = true) (lookups (loop i fs st).2)))
  ∧ size (entries (loop i fs st).1)
    = (size (entries st) + length (lookups (loop i fs st).2))%nat
  ∧ readings (loop i fs st).1
    = (readings st + length (lookups (loop i fs st).2))%nat.
Proof.
  induction fs as [|f fs IH]; intros i st.
  - simpl. repeat split; lia.
  - rewrite scanLoop_cons. cbn [fst snd]. rewrite lookups_app, scanFolder_lookups.
    destruct (has_entry (entries st) (OpenList.name f)) eqn:He.
    + rewrite scanFolder_known by done. cbn [fst app]. apply IH.
    + rewrite scanFolder_unknown by done. cbn [fst app].
      set (st1 := mkLoopState _ _ _ _).
      destruct (IH (i + 1) st1) as (Hn & He' & Hs & Hr). rewrite Hn, He', Hs, Hr.
      subst st1. cbn [newCount errorCount entries readings].
      apply has_entry_false in He as [He _].
      rewrite map_size_insert_None by done.
      rewrite !filter_cons. cbn [length].
      destruct (fails (OpenList.name f)) eqn:Hf.
      * rewrite decide_False by done. rewrite decide_True by done. cbn [length].
        repeat split; lia.
      * rewrite decide_True by done. rewrite decide_False by done. cbn [length].
        repeat split; lia.
Qed.

(** A delay of 300 ms follows each lookup that returns, and no other. *)
Lemma scanLoop_delays fs : ∀ i st,
  delays (loop i fs st).2
  = (fun _ => 300) <$> filter (fun q => answers q = true) (lookups (loop i fs st).2).
Proof.
  induction fs as [|f fs IH]; intros i st; [done|].
  rewrite scanLoop_cons. cbn [fst snd].
  rewrite delays_app, lookups_app, filter_app, fmap_app, IH. f_equal.
  rewrite scanFolder_lookups.
  destruct (has_entry (entries st) (OpenList.name f)) eqn:He.
  - by rewrite scanFolder_known.
  - rewrite scanFolder_unknown by done. cbn [snd].
    destruct (answers (OpenList.name f)) eqn:Ha.
    + rewrite filter_cons, decide_True by done. done.
    + rewrite filter_cons, decide_False by (by rewrite Ha). done.
Qed.

(** The entry of the [j]-th name looked up is the one its lookup gives,
    stamped with the [j]-th reading of the clock in the loop. *)
Lemma scanLoop_written_at fs : ∀ i st j q,
  lookups (loop i fs st).2 !! j = Some q →
  entries (loop i fs st).1 !! q = Some (written q (now env (readings st + j)%nat)).
Proof.
  induction fs as [|f fs IH]; intros i st j q; [done|].
  rewrite scanLoop_cons. cbn [fst snd]. rewrite lookups_app, scanFolder_lookups.
  destruct (has_entry (entries st) (OpenList.name f)) eqn:He.
  - rewrite scanFolder_known by done. cbn [fst app]. apply IH.
  - rewrite scanFolder_unknown by done. cbn [fst app].
    set (st1 := mkLoopState _ _ _ _).
    destruct j as [|j].
    + intros [= <-]. rewrite Nat.add_0_r. apply scanLoop_entries_mono.
      subst st1. cbn [entries]. by rewrite lookup_insert_eq.
    + intros Hj. rewrite (IH (i + 1) st1 j q Hj). subst st1. cbn [readings].
      do 3 f_equal. lia.
Qed.

(** What the loop leaves: the entries there were, unchanged, and one more for
    each name looked up. *)
Lemma scanLoop_merge fs i st :
  (∀ q e, entries st !! q = Some e → entries (loop i fs st).1 !! q = Some e)
  ∧ dom (entries (loop i fs st).1)
    = dom (entries st)
      ∪ list_to_set (filter (fun q => inherited q = false) (OpenList.name <$> fs))
  ∧ (∀ j q, lookups (loop i fs st).2 !! j = Some q →
        entries (loop i fs st).1 !! q
        = Some (written q (now env (readings st + j)%nat))).
Proof.
  split; [intros q e; apply scanLoop_entries_mono|].
  split; [apply scanLoop_dom|]. apply scanLoop_written_at.
Qed.

(** The loop reports to no task but its own. *)
Lemma scanLoop_task_ids fs : ∀ i st id,
  id ∈ task_ids (loop i fs st).2 → id = taskId.
Proof.
  induction fs as [|f fs IH]; intros i st id; [by intros ?%elem_of_nil|].
  rewrite scanLoop_cons. cbn [snd]. unfold task_ids in *. rewrite omap_app, elem_of_app.
  intros [Hid | Hid]; [|by eapply IH].
  destruct (has_entry (entries st) (OpenList.name f)) eqn:He.
  - rewrite scanFolder_known in Hid by done. simpl in Hid.
    by apply list_elem_of_singleton in Hid.
  - rewrite scanFolder_unknown in Hid by done. cbn [snd] in Hid.
    destruct (answers (OpenList.name f)); simpl in Hid;
      by apply list_elem_of_singleton in Hid.
Qed.
End loop.


(** ** The steps of [performScan] *)

Lemma listFolders_run env rootPath s :
  listFolders env rootPath s = (listing env rootPath, s, [EListDirectory rootPath]).
Proof.
  unfold listFolders, listing, bind, lift, emit. simpl.
  destruct (listDirectory env rootPath) as [r|m]; [|done].
  by destruct (OpenList.code r =? 200).
Qed.

Local Ltac resolved_with H :=
  rewrite ?lookup_total_insert_eq; simpl; rewrite ?H; simpl;
  eexists _, _; split; [reflexivity|]; simpl;
  rewrite ?lookup_total_insert_eq; simpl; rewrite ?H;
  repeat split; (done || congruence).

(** Step 1 on a cached object without [folders]: the [TypeError], at once. *)
Lemma resolveMetaInfo_throws env rootPath s :
  cached_without_folders s rootPath = true →
  resolveMetaInfo env rootPath s = (Throw keys_of_undefined, s, []).
Proof.
  unfold cached_without_folders, resolveMetaInfo, readExisting, bind, getCachedMetaInfo, deref.
  simpl. destruct (cache s !! rootPath) as [l|]; [|done]. simpl.
  by destruct (folders (heap s !!! l)).
Qed.

(** Otherwise step 1 does not throw, leaves the database and the cache as
    they are, and ends with an object whose entries are [existing_folders]. *)
Lemma resolveMetaInfo_spec env rootPath s :
  cached_without_folders s rootPath = false →
  ∃ l s1,
    resolveMetaInfo env rootPath s = (Ok l, s1, resolve_trace s rootPath)
    ∧ folders (heap s1 !!! l) = Some (existing_folders env rootPath s)
    ∧ metainfo_db s1 = metainfo_db s
    ∧ cache s1 = cache s
    ∧ clock s1 = loop_clock env rootPath s
    ∧ (∀ l', cache s !! rootPath = Some l' → l = l').
Proof.
  unfold cached_without_folders, resolveMetaInfo, readExisting, resolve_trace, existing_folders,
    loop_clock.
  unfold bind, getCachedMetaInfo. simpl.
  destruct (cache s !! rootPath) as [l|] eqn:Hc; simpl.
  - unfold deref. simpl.
    destruct (folders (heap s !!! l)) as [es|] eqn:Hf; [|done]. intros _. simpl. resolved_with Hf.
  - intros _. unfold try_catch, db_getGlobalValue.
    destruct (getGlobalValue_error env) as [e|]; simpl; [resolved_with Hc|].
    destruct (metainfo_db s) as [[d|]|] eqn:Hdb; simpl; try resolved_with Hc.
    rewrite lookup_total_insert_eq.
    destruct (folders d) as [es|] eqn:Hf; simpl; resolved_with Hf.
Qed.

Lemma verifySaved_run env s :
  verifySaved env s = (Ok tt, s, [EGetGlobalValue metainfo_key]).
Proof.
  unfold verifySaved, try_catch, bind, db_getGlobalValue.
  destruct (getGlobalValue_error env); simpl; [done|].
  by destruct (metainfo_db s) as [[d|]|].
Qed.

(** Steps 4 to 6: the object gets its new [last_refresh] in place; the
    database and the cache get the document unless the write throws; the
    task is completed only if nothing throws. *)
Lemma saveAndComplete_spec env taskId rootPath l n counts s :
  let doc := mkMetaInfo (folders (heap s !!! l)) (now env (clock s)) in
  ∃ s' t,
    saveAndComplete env taskId rootPath l n counts s = (persist_outcome env, s', t)
    ∧ heap s' = <[l := doc]> (heap s)
    ∧ (setGlobalValue_error env = None →
         metainfo_db s' = Some (Json doc) ∧ cache s' = <[rootPath := l]> (delete rootPath (cache s)))
    ∧ (∀ m, setGlobalValue_error env = Some m →
         metainfo_db s' = metainfo_db s ∧ cache s' = cache s)
    ∧ store_writes t = [Json doc]
    ∧ match persist_outcome env with
      | Ok _ =>
          ∃ t', t = t' ++ [ECompleteTask taskId
                             (mkScanResult n (fst counts) (folder_count doc - fst counts)
                                (snd counts))]
                ∧ silent t'
      | Throw _ => silent t
      end.
Proof.
  intros doc. unfold saveAndComplete, persist_outcome, config_error.
  unfold bind, Date_now, deref, assign, db_setGlobalValue. simpl.
  rewrite lookup_total_insert_eq. simpl. fold doc.
  destruct (setGlobalValue_error env) as [m|] eqn:Hset; simpl.
  { eexists _, _. split; [reflexivity|]. simpl. repeat split; done. }
  rewrite verifySaved_run.
  unfold invalidateMetaInfoCache, setCachedMetaInfo, lift, db_saveAdminConfig. simpl.
  destruct (getConfig env) as [config|m]; simpl.
  2: { eexists _, _. split; [reflexivity|]. simpl. repeat split; done. }
  destruct (OpenListConfig_ config) as [c|]; simpl.
  2: { eexists _, _. split; [reflexivity|]. simpl. repeat split; done. }
  destruct (saveAdminConfig_error env) as [m|]; simpl.
  { eexists _, _. split; [reflexivity|]. simpl. repeat split; done. }
  rewrite lookup_total_insert_eq.
  eexists _, _. split; [reflexivity|]. simpl. repeat split; try done.
  eexists [_; _; _; _; _]. split; [reflexivity|]. repeat split; done.
Qed.

Lemma persist_outcome_ok env :
  persist_outcome env = Ok tt → setGlobalValue_error env = None ∧ config_error env = None.
Proof.
  unfold persist_outcome.
  destruct (setGlobalValue_error env); [done|]. by destruct (config_error env).
Qed.

Lemma persist_outcome_ok_config env :
  persist_outcome env = Ok tt →
  ∃ config c,
    setGlobalValue_error env = None ∧ getConfig env = Ok config
    ∧ OpenListConfig_ config = Some c ∧ saveAdminConfig_error env = None.
Proof.
  intros H. destruct (persist_outcome_ok env H) as [Hset Hcfg].
  unfold config_error in Hcfg.
  destruct (getConfig env) as [config|]; [|done].
  destruct (OpenListConfig_ config) as [c|] eqn:Hc; [|done].
  by exists config, c.
Qed.

(** Steps 4 to 6 when nothing throws, call by call. *)
Lemma saveAndComplete_ok env taskId rootPath l n counts s config c :
  setGlobalValue_error env = None →
  getConfig env = Ok config →
  OpenListConfig_ config = Some c →
  saveAdminConfig_error env = None →
  let doc := mkMetaInfo (folders (heap s !!! l)) (now env (clock s)) in
  let config' :=
    mkAdminConfig
      (Some (mkOpenListConfig (URL c) (Token c) (RootPath c) (now env (S (clock s)))
               (folder_count doc)))
      (TMDBApiKey config) (TMDBProxy config) in
  saveAndComplete env taskId rootPath l n counts s
  = (Ok tt,
     mkState (<[l := doc]> (heap s)) (<[rootPath := l]> (delete rootPath (cache s)))
       (Some (Json doc)) (Some config') (S (S (clock s))),
     [ESetGlobalValue metainfo_key (Json doc); EGetGlobalValue metainfo_key;
      EInvalidateCache rootPath; ESetCache rootPath; ESaveAdminConfig config';
      ECompleteTask taskId
        (mkScanResult n (fst counts) (folder_count doc - fst counts) (snd counts))]).
Proof.
  intros Hset Hconfig Hc Hsave doc config'. subst doc config'.
  unfold saveAndComplete.
  unfold bind, Date_now, deref, assign, db_setGlobalValue. simpl.
  rewrite lookup_total_insert_eq, Hset. simpl. rewrite verifySaved_run.
  unfold invalidateMetaInfoCache, setCachedMetaInfo, lift, db_saveAdminConfig. simpl.
  rewrite Hconfig. simpl. rewrite Hc. simpl. rewrite Hsave. simpl.
  by rewrite lookup_total_insert_eq.
Qed.

(** ** [performScan] as a whole *)

Lemma scan_listing_ok env rootPath s dirs :
  cached_without_folders s rootPath = false →
  listing env rootPath = Ok dirs →
  scan_listing env rootPath s = Ok dirs.
Proof. intros Hc Hl. unfold scan_listing. by rewrite Hc. Qed.

Lemma scan_listing_ok_inv env rootPath s dirs :
  scan_listing env rootPath s = Ok dirs →
  cached_without_folders s rootPath = false ∧ listing env rootPath = Ok dirs.
Proof. unfold scan_listing. by destruct (cached_without_folders s rootPath). Qed.

Lemma cache_miss_usable s rootPath :
  cache s !! rootPath = None → cached_without_folders s rootPath = false.
Proof. intros H. unfold cached_without_folders. by rewrite H. Qed.

Lemma cached_folders_usable s rootPath l d es :
  cache s !! rootPath = Some l → heap s !! l = Some d → folders d = Some es →
  cached_without_folders s rootPath = false.
Proof.
  intros Hc Hh Hf. unfold cached_without_folders.
  by rewrite Hc, (lookup_total_correct _ _ _ Hh), Hf.
Qed.

Lemma resolve_trace_silent s rootPath :
  silent (resolve_trace s rootPath) ∧ store_writes (resolve_trace s rootPath) = [].
Proof. unfold resolve_trace, silent. by destruct (cache s !! rootPath). Qed.

Lemma opening_silent s rootPath :
  silent (resolve_trace s rootPath ++ [EListDirectory rootPath])
  ∧ store_writes (resolve_trace s rootPath ++ [EListDirectory rootPath]) = [].
Proof. unfold resolve_trace, silent. by destruct (cache s !! rootPath). Qed.

(** A run that fails in step 1 or 2 ends before the loop: the task is failed
    with the message thrown, and the database and the cache are as before. *)
Lemma performScan_fails_early env taskId url token rootPath tmdbApiKey tmdbProxy
    user password s m :
  scan_listing env rootPath s = Throw m →
  ∃ s1 pre,
    performScan env taskId url token rootPath tmdbApiKey tmdbProxy user password s
    = (Throw m, s1, (EUpdateProgress taskId 0 0 None :: pre) ++ [EFailTask taskId m])
    ∧ silent pre ∧ store_writes pre = []
    ∧ metainfo_db s1 = metainfo_db s
    ∧ cache s1 = cache s.
Proof.
  unfold scan_listing. destruct (cached_without_folders s rootPath) eqn:Hcw.
  - intros [= <-]. exists s, []. split; [|done].
    unfold performScan, bind, try_catch, emit, throw. simpl.
    by rewrite resolveMetaInfo_throws.
  - intros Hlist.
    destruct (resolveMetaInfo_spec env rootPath s Hcw) as (l & s1 & Hres & _ & Hdb & Hcache & _).
    destruct (opening_silent s rootPath) as [Hsilent Hwrites].
    exists s1, (resolve_trace s rootPath ++ [EListDirectory rootPath]).
    split; [|done].
    unfold performScan, bind, try_catch, emit, throw. simpl.
    rewrite Hres. simpl. rewrite listFolders_run, Hlist. by rewrite <- !app_assoc.
Qed.

(** A run that gets through steps 1 and 2 goes on with the loop over the
    directories, started from the existing entries, and with the closing
    steps. *)
Lemma performScan_listed env taskId url token rootPath tmdbApiKey tmdbProxy
    user password s dirs :
  scan_listing env rootPath s = Ok dirs →
  ∃ l st tl s3 t3,
    scanLoop env taskId tmdbApiKey tmdbProxy (Z.of_nat (length dirs)) 0 dirs
      (mkLoopState (existing_folders env rootPath s) 0 0 (loop_clock env rootPath s)) = (st, tl)
    ∧ (∀ l', cache s !! rootPath = Some l' → l = l')
    ∧ let doc := mkMetaInfo (Some (entries st)) (now env (readings st)) in
      let n := Z.of_nat (length dirs) in
      performScan env taskId url token rootPath tmdbApiKey tmdbProxy user password s
      = (persist_outcome env, s3,
         EUpdateProgress taskId 0 0 None
           :: resolve_trace s rootPath
           ++ [EListDirectory rootPath; EUpdateProgress taskId 0 n None]
           ++ tl ++ t3
           ++ match persist_outcome env with
              | Throw m => [EFailTask taskId m]
              | Ok _ => []
              end)
      ∧ heap s3 !! l = Some doc
      ∧ (setGlobalValue_error env = None →
           metainfo_db s3 = Some (Json doc) ∧ cache s3 !! rootPath = Some l)
      ∧ (∀ m, setGlobalValue_error env = Some m →
           metainfo_db s3 = metainfo_db s ∧ cache s3 = cache s)
      ∧ store_writes t3 = [Json doc]
      ∧ match persist_outcome env with
        | Ok _ =>
            ∃ t', t3 = t' ++ [ECompleteTask taskId
                                (mkScanResult n (newCount st)
                                   (Z.of_nat (size (entries st)) - newCount st)
                                   (errorCount st))]
                  ∧ silent t'
        | Throw _ => silent t3
        end.
Proof.
  intros [Hcw Hlist]%scan_listing_ok_inv.
  destruct (resolveMetaInfo_spec env rootPath s Hcw)
    as (l & s1 & Hres & Hfold & Hdb & Hcache & Hclock & Hl).
  destruct (scanLoop env taskId tmdbApiKey tmdbProxy (Z.of_nat (length dirs)) 0 dirs
              (mkLoopState (existing_folders env rootPath s) 0 0 (loop_clock env rootPath s)))
    as [st tl] eqn:Hloop.
  set (s2 := mkState
               (<[l := mkMetaInfo (Some (entries st)) (last_refresh (heap s1 !!! l))]> (heap s1))
               (cache s1) (metainfo_db s1) (admin_config s1) (readings st)).
  destruct (saveAndComplete_spec env taskId rootPath l (Z.of_nat (length dirs))
              (newCount st, errorCount st) s2)
    as (s3 & t3 & Hsave & Hheap & Hok & Hfail & Hwrites & Hpost).
  subst s2. simpl in Hsave, Hheap, Hok, Hfail, Hwrites, Hpost.
  rewrite lookup_total_insert_eq in Hheap, Hok, Hwrites, Hpost.
  simpl in Hheap, Hok, Hwrites, Hpost.
  exists l, st, tl, s3, t3. split; [done|]. split; [done|]. simpl.
  split.
  { unfold performScan, bind, try_catch, emit, throw. simpl.
    rewrite Hres. simpl. rewrite listFolders_run, Hlist. simpl.
    unfold scanFolders. rewrite Hfold, Hclock. simpl. rewrite Hloop. rewrite Hsave.
    destruct (persist_outcome env) as [[]|m]; simpl.
    - by rewrite app_nil_r.
    - by repeat (rewrite <- app_assoc; simpl). }
  split.
  { rewrite Hheap. apply lookup_insert_eq. }
  split.
  { intros Hnone. destruct (Hok Hnone) as [-> ->]. split; [done|]. apply lookup_insert_eq. }
  split.
  { intros m Hm. destruct (Hfail m Hm) as [-> ->]. by rewrite Hdb, Hcache. }
  split; [done|].
  unfold folder_count in Hpost. simpl in Hpost. done.
Qed.

Lemma count_from_sorted len : ∀ i, Sorted Z.lt (count_from i len) ∧ HdRel Z.lt i (count_from i len).
Proof.
  induction len as [|len IH]; intros i; simpl; [by split; constructor|].
  destruct (IH (i + 1)) as [Hs Hh]. split.
  - by constructor.
  - constructor. lia.
Qed.

Lemma count_from_last len : ∀ i,
  last (i :: count_from i len) = Some (i + Z.of_nat len).
Proof.
  induction len as [|len IH]; intros i.
  - simpl. f_equal. lia.
  - change (count_from i (S len)) with ((i + 1) :: count_from (i + 1) len).
    rewrite last_cons_cons, IH. f_equal. lia.
Qed.

Lemma Sorted_lt_le (l : list Z) : Sorted Z.lt l → Sorted Z.le l.
Proof.
  induction 1 as [|x l Hs IH Hh]; constructor; [done|].
  destruct Hh; constructor. lia.
Qed.

(** The progress updates of a run: one before step 1 and, if the run gets
    through steps 1 and 2, one after the listing and one per directory. *)
Lemma performScan_progress env taskId url token rootPath tmdbApiKey tmdbProxy
    user password s :
  progress_updates
    (trace_of (performScan env taskId url token rootPath tmdbApiKey tmdbProxy user password s))
  = (0, 0) ::
    match scan_listing env rootPath s with
    | Throw _ => []
    | Ok dirs =>
        (fun p => (p, Z.of_nat (length dirs))) <$> (0 :: count_from 0 (length dirs))
    end.
Proof.
  destruct (resolve_trace_silent s rootPath) as [(Hrt & _) _].
  destruct (scan_listing env rootPath s) as [dirs|m] eqn:Hlist.
  - destruct (performScan_listed env taskId url token rootPath tmdbApiKey tmdbProxy
                user password s dirs Hlist)
      as (l & st & tl & s3 & t3 & Hloop & _ & Hrun & _ & _ & _ & _ & Hpost).
    simpl in Hrun. rewrite Hrun. unfold trace_of. simpl.
    pose proof (scanLoop_progress env taskId tmdbApiKey tmdbProxy (Z.of_nat (length dirs))
                  dirs 0 (mkLoopState (existing_folders env rootPath s) 0 0
                            (loop_clock env rootPath s))) as Hprog.
    rewrite Hloop in Hprog. simpl in Hprog.
    assert (progress_updates t3 = []) as Ht3.
    { destruct (persist_outcome env).
      - destruct Hpost as (t' & -> & Ht' & _). unfold_observers.
        by rewrite omap_app, Ht'.
      - by destruct Hpost as (Ht3 & _). }
    observe. rewrite Hrt, Hprog, Ht3. simpl.
    destruct (persist_outcome env); simpl; by rewrite app_nil_r.
  - destruct (performScan_fails_early env taskId url token rootPath tmdbApiKey tmdbProxy
                user password s m Hlist) as (s1 & pre & -> & (Hpre & _) & _).
    unfold trace_of. simpl. observe. by rewrite Hpre.
Qed.

(** A run completes its task at most once, and only after it got through
    steps 1 and 2 and closing steps that did not throw. *)
Lemma performScan_completions env taskId url token rootPath tmdbApiKey tmdbProxy
    user password s r :
  r ∈ completions
        (trace_of (performScan env taskId url token rootPath tmdbApiKey tmdbProxy user password s)) →
  ∃ dirs, scan_listing env rootPath s = Ok dirs ∧ total r = Z.of_nat (length dirs)
          ∧ persist_outcome env = Ok tt.
Proof.
  destruct (resolve_trace_silent s rootPath) as [(_ & Hrt & _) _].
  destruct (scan_listing env rootPath s) as [dirs|m] eqn:Hlist.
  - destruct (performScan_listed env taskId url token rootPath tmdbApiKey tmdbProxy
                user password s dirs Hlist)
      as (l & st & tl & s3 & t3 & Hloop & _ & Hrun & _ & _ & _ & _ & Hpost).
    simpl in Hrun. rewrite Hrun. unfold trace_of. simpl.
    destruct (scanLoop_calls env taskId tmdbApiKey tmdbProxy (Z.of_nat (length dirs))
                dirs 0 (mkLoopState (existing_folders env rootPath s) 0 0
                          (loop_clock env rootPath s))) as (Hc & _).
    rewrite Hloop in Hc. simpl in Hc.
    destruct (persist_outcome env) as [[]|m].
    + destruct Hpost as (t' & -> & _ & Ht' & _). observe.
      rewrite Hrt, Hc, Ht'. simpl.
      intros ->%list_elem_of_singleton. by exists dirs.
    + destruct Hpost as (_ & Ht3 & _). observe.
      rewrite Hrt, Hc, Ht3. simpl. by intros ?%elem_of_nil.
  - destruct (performScan_fails_early env taskId url token rootPath tmdbApiKey tmdbProxy
                user password s m Hlist) as (s1 & pre & -> & (_ & Hpre & _) & _).
    unfold trace_of. simpl. observe. rewrite Hpre. simpl.
    by intros ?%elem_of_nil.
Qed.

(** A run whose steps 1 and 2 and closing steps succeed: what it leaves
    behind and what it reports, in terms of the loop it ran. *)
Lemma performScan_completes env taskId url token rootPath tmdbApiKey tmdbProxy
    user password s dirs :
  scan_listing env rootPath s = Ok dirs →
  persist_outcome env = Ok tt →
  ∃ st tl,
    scanLoop env taskId tmdbApiKey tmdbProxy (Z.of_nat (length dirs)) 0 dirs
      (mkLoopState (existing_folders env rootPath s) 0 0 (loop_clock env rootPath s)) = (st, tl)
    ∧ let scan :=
        performScan env taskId url token rootPath tmdbApiKey tmdbProxy user password s in
      let doc := mkMetaInfo (Some (entries st)) (now env (readings st)) in
      let r := mkScanResult (Z.of_nat (length dirs)) (newCount st)
                 (Z.of_nat (size (entries st)) - newCount st) (errorCount st) in
      outcome_of scan = Ok tt
      ∧ stored_document (state_of scan) = Some doc
      ∧ cached_document (state_of scan) rootPath = Some doc
      ∧ completions (trace_of scan) = [r]
      ∧ failures (trace_of scan) = []
      ∧ lookups (trace_of scan) = lookups tl
      ∧ delays (trace_of scan) = delays tl
      ∧ status (task_after taskId (trace_of scan)) = completed
      ∧ result (task_after taskId (trace_of scan)) = Some r.
Proof.
  intros Hlist Hout.
  destruct (performScan_listed env taskId url token rootPath tmdbApiKey tmdbProxy
              user password s dirs Hlist)
    as (l & st & tl & s3 & t3 & Hloop & _ & Hrun & Hheap & Hok & _ & Hwrites & Hpost).
  exists st, tl. split; [done|].
  rewrite Hout in Hrun, Hpost. cbn zeta in Hrun. cbn zeta. rewrite Hrun.
  destruct (persist_outcome_ok env Hout) as [Hset _].
  destruct (Hok Hset) as [Hdb Hcache].
  destruct (resolve_trace_silent s rootPath) as [(_ & Hrc & Hrf & Hrl & Hrd) _].
  destruct (scanLoop_calls env taskId tmdbApiKey tmdbProxy (Z.of_nat (length dirs))
              dirs 0 (mkLoopState (existing_folders env rootPath s) 0 0
                        (loop_clock env rootPath s))) as (Hlc & Hlf & _).
  rewrite Hloop in Hlc, Hlf. simpl in Hlc, Hlf.
  destruct Hpost as (t' & -> & _ & Htc & Htf & Htl & Htd).
  unfold outcome_of, state_of, trace_of. cbn [fst snd].
  rewrite app_nil_r, !app_assoc, app_comm_cons.
  destruct (task_after_completed taskId
              (EUpdateProgress taskId 0 0 None
                 :: (((resolve_trace s rootPath
                       ++ [EListDirectory rootPath;
                           EUpdateProgress taskId 0 (Z.of_nat (length dirs)) None])
                      ++ tl) ++ t')
              ) (mkScanResult (Z.of_nat (length dirs)) (newCount st)
                   (Z.of_nat (size (entries st)) - newCount st) (errorCount st)))
    as (Hstatus & Hresult & _).
  { observe. by rewrite Hrc, Hlc, Htc. }
  { observe. by rewrite Hrf, Hlf, Htf. }
  split; [done|].
  split. { unfold stored_document. by rewrite Hdb. }
  split. { unfold cached_document. by rewrite Hcache, Hheap. }
  split. { observe. by rewrite Hrc, Hlc, Htc. }
  split. { observe. by rewrite Hrf, Hlf, Htf. }
  split. { observe. by rewrite Hrl, Htl, !app_nil_r. }
  split. { observe. by rewrite Hrd, Htd, !app_nil_r. }
  done.
Qed.

(** A run that returns normally got through steps 1 and 2, and its closing
    steps succeeded. *)
Lemma performScan_ok_inv env taskId url token rootPath tmdbApiKey tmdbProxy user password s :
  outcome_of (performScan env taskId url token rootPath tmdbApiKey tmdbProxy user password s)
  = Ok tt →
  ∃ dirs, scan_listing env rootPath s = Ok dirs ∧ persist_outcome env = Ok tt.
Proof.
  destruct (scan_listing env rootPath s) as [dirs|m] eqn:Hlist.
  - destruct (performScan_listed env taskId url token rootPath tmdbApiKey tmdbProxy
                user password s dirs Hlist)
      as (l & st & tl & s3 & t3 & _ & _ & Hrun & _).
    cbn zeta in Hrun. rewrite Hrun. unfold outcome_of. simpl. intros ->. by exists dirs.
  - destruct (performScan_fails_early env taskId url token rootPath tmdbApiKey tmdbProxy
                user password s m Hlist) as (s1 & pre & -> & _).
    done.
Qed.

(** The lookups and delays of a run are those of its loop. *)
Lemma performScan_loop_calls env taskId url token rootPath tmdbApiKey tmdbProxy
    user password s dirs st tl :
  scan_listing env rootPath s = Ok dirs →
  scanLoop env taskId tmdbApiKey tmdbProxy (Z.of_nat (length dirs)) 0 dirs
    (mkLoopState (existing_folders env rootPath s) 0 0 (loop_clock env rootPath s)) = (st, tl) →
  let tr := trace_of
              (performScan env taskId url token rootPath tmdbApiKey tmdbProxy user password s) in
  lookups tr = lookups tl ∧ delays tr = delays tl.
Proof.
  intros Hlist Hloop tr. subst tr.
  destruct (resolve_trace_silent s rootPath) as [(_ & _ & _ & Hrl & Hrd) _].
  destruct (performScan_listed env taskId url token rootPath tmdbApiKey tmdbProxy
              user password s dirs Hlist)
    as (l & st' & tl' & s3 & t3 & Hloop' & _ & Hrun & _ & _ & _ & _ & Hpost).
  rewrite Hloop in Hloop'. injection Hloop' as <- <-.
  cbn zeta in Hrun. rewrite Hrun. unfold trace_of. cbn [snd].
  assert (lookups t3 = [] ∧ delays t3 = []) as [Ht3l Ht3d].
  { destruct (persist_outcome env).
    - destruct Hpost as (t' & -> & _ & _ & _ & Hl & Hd). observe. by rewrite Hl, Hd.
    - by destruct Hpost as (_ & _ & _ & Hl & Hd). }
  split; observe; rewrite ?Hrl, ?Hrd, ?Ht3l, ?Ht3d; simpl;
    destruct (persist_outcome env); simpl; by rewrite !app_nil_r.
Qed.

Lemma performScan_early_calls env taskId url token rootPath tmdbApiKey tmdbProxy
    user password s m :
  scan_listing env rootPath s = Throw m →
  let tr := trace_of
              (performScan env taskId url token rootPath tmdbApiKey tmdbProxy user password s) in
  lookups tr = [] ∧ delays tr = [].
Proof.
  intros Hlist tr. subst tr.
  destruct (performScan_fails_early env taskId url token rootPath tmdbApiKey tmdbProxy
              user password s m Hlist) as (s1 & pre & -> & (_ & _ & _ & Hl & Hd) & _).
  unfold trace_of. cbn [snd]. split; observe; by rewrite ?Hl, ?Hd.
Qed.

(** A completed run, call by call. *)
Lemma performScan_completed_exact env taskId url token rootPath tmdbApiKey tmdbProxy
    user password s dirs config c :
  scan_listing env rootPath s = Ok dirs →
  setGlobalValue_error env = None →
  getConfig env = Ok config →
  OpenListConfig_ config = Some c →
  saveAdminConfig_error env = None →
  ∃ l h st tl,
    scanLoop env taskId tmdbApiKey tmdbProxy (Z.of_nat (length dirs)) 0 dirs
      (mkLoopState (existing_folders env rootPath s) 0 0 (loop_clock env rootPath s)) = (st, tl)
    ∧ let doc := mkMetaInfo (Some (entries st)) (now env (readings st)) in
      let config' :=
        mkAdminConfig
          (Some (mkOpenListConfig (URL c) (Token c) (RootPath c) (now env (S (readings st)))
                   (Z.of_nat (size (entries st)))))
          (TMDBApiKey config) (TMDBProxy config) in
      performScan env taskId url token rootPath tmdbApiKey tmdbProxy user password s
      = (Ok tt,
         mkState (<[l := doc]> h) (<[rootPath := l]> (delete rootPath (cache s)))
           (Some (Json doc)) (Some config') (S (S (readings st))),
         (EUpdateProgress taskId 0 0 None
            :: resolve_trace s rootPath
            ++ [EListDirectory rootPath;
                EUpdateProgress taskId 0 (Z.of_nat (length dirs)) None]
            ++ tl)
         ++ [ESetGlobalValue metainfo_key (Json doc); EGetGlobalValue metainfo_key;
             EInvalidateCache rootPath; ESetCache rootPath; ESaveAdminConfig config';
             ECompleteTask taskId
               (mkScanResult (Z.of_nat (length dirs)) (newCount st)
                  (Z.of_nat (size (entries st)) - newCount st) (errorCount st))]).
Proof.
  intros [Hcw Hlist]%scan_listing_ok_inv Hset Hconfig Hc Hsave.
  destruct (resolveMetaInfo_spec env rootPath s Hcw)
    as (l & s1 & Hres & Hfold & Hdb & Hcache & Hclock & Hl).
  destruct (scanLoop env taskId tmdbApiKey tmdbProxy (Z.of_nat (length dirs)) 0 dirs
              (mkLoopState (existing_folders env rootPath s) 0 0 (loop_clock env rootPath s)))
    as [st tl] eqn:Hloop.
  exists l, (<[l := mkMetaInfo (Some (entries st)) (last_refresh (heap s1 !!! l))]> (heap s1)),
    st, tl.
  split; [done|]. cbn zeta.
  unfold performScan, bind, try_catch, emit, throw. simpl.
  rewrite Hres. simpl. rewrite listFolders_run, Hlist. simpl.
  unfold scanFolders. rewrite Hfold, Hclock. simpl. rewrite Hloop.
  rewrite (saveAndComplete_ok env taskId rootPath l _ _ _ config c Hset Hconfig Hc Hsave).
  simpl. rewrite lookup_total_insert_eq. unfold folder_count. simpl. rewrite Hcache.
  by rewrite <- !app_assoc.
Qed.

(** A scan of a root whose cached document has no [folders]: the first
    progress report, the failure, and nothing else. *)
Lemma performScan_on_folderless_cache env taskId url token rootPath tmdbApiKey tmdbProxy
    user password s :
  cached_without_folders s rootPath = true →
  performScan env taskId url token rootPath tmdbApiKey tmdbProxy user password s
  = (Throw keys_of_undefined, s,
     [EUpdateProgress taskId 0 0 None; EFailTask taskId keys_of_undefined]).
Proof.
  intros Hcw. unfold performScan, bind, try_catch, emit, throw. simpl.
  by rewrite resolveMetaInfo_throws.
Qed.

(** Every run ends with exactly one terminal call to the registry. *)
Lemma performScan_terminal env taskId url token rootPath tmdbApiKey tmdbProxy
    user password s :
  let scan := performScan env taskId url token rootPath tmdbApiKey tmdbProxy user password s in
  match outcome_of scan with
  | Ok _ => length (completions (trace_of scan)) = 1%nat ∧ failures (trace_of scan) = []
  | Throw m => failures (trace_of scan) = [m] ∧ completions (trace_of scan) = []
  end.
Proof.
  intros scan. subst scan.
  destruct (resolve_trace_silent s rootPath) as [(_ & Hrc & Hrf & _) _].
  destruct (scan_listing env rootPath s) as [dirs|m] eqn:Hlist.
  - destruct (performScan_listed env taskId url token rootPath tmdbApiKey tmdbProxy
                user password s dirs Hlist)
      as (l & st & tl & s3 & t3 & Hloop & _ & Hrun & _ & _ & _ & _ & Hpost).
    cbn zeta in Hrun. rewrite Hrun. unfold outcome_of, trace_of. cbn [fst snd].
    destruct (scanLoop_calls env taskId tmdbApiKey tmdbProxy (Z.of_nat (length dirs))
                dirs 0 (mkLoopState (existing_folders env rootPath s) 0 0
                          (loop_clock env rootPath s))) as (Hlc & Hlf & _).
    rewrite Hloop in Hlc, Hlf. cbn [snd] in Hlc, Hlf.
    destruct (persist_outcome env) as [[]|m].
    + destruct Hpost as (t' & -> & _ & Htc & Htf & _).
      split; observe; by rewrite ?Hrc, ?Hrf, ?Hlc, ?Hlf, ?Htc, ?Htf.
    + destruct Hpost as (_ & Htc & Htf & _).
      split; observe; by rewrite ?Hrc, ?Hrf, ?Hlc, ?Hlf, ?Htc, ?Htf.
  - destruct (performScan_fails_early env taskId url token rootPath tmdbApiKey tmdbProxy
                user password s m Hlist) as (s1 & pre & -> & (_ & Hpc & Hpf & _) & _).
    unfold outcome_of, trace_of. cbn [fst snd].
    split; observe; by rewrite ?Hpc, ?Hpf.
Qed.

(** ** Progress reports *)

Lemma fst_paired (n : Z) (l : list Z) : fst <$> ((fun p => (p, n)) <$> l) = l.
Proof. induction l as [|x l IH]; [done|]. simpl. by f_equal. Qed.

(** C5. Over any run the [processed] values handed to
    [updateScanTaskProgress] never decrease, and once the task is completed
    the last update reported [processed] equal to the number of folders, which
    is the [total] of that update and of the result. *)
Theorem progress_is_monotone env taskId url token rootPath tmdbApiKey tmdbProxy
    user password s :
  let tr := trace_of
              (performScan env taskId url token rootPath tmdbApiKey tmdbProxy user password s) in
  Sorted Z.le (progress_values tr)
  ∧ ∀ r, r ∈ completions tr → last (progress_updates tr) = Some (total r, total r).
Proof.
  intros tr. subst tr. split.
  - unfold progress_values. rewrite performScan_progress.
    destruct (scan_listing env rootPath s) as [dirs|m]; [|repeat constructor].
    rewrite fmap_cons, fst_paired. simpl.
    destruct (count_from_sorted (length dirs) 0) as [Hs Hh].
    constructor; [|constructor; lia].
    apply Sorted_lt_le. by constructor.
  - intros r Hr.
    destruct (performScan_completions _ _ _ _ _ _ _ _ _ _ _ Hr) as (dirs & Hlist & Htot & _).
    rewrite performScan_progress, Hlist, Htot.
    rewrite last_cons, fmap_last, count_from_last.
    simpl. do 2 f_equal.
Qed.

(** C6, as amended. From the second update on the [processed] values
    strictly increase. A run that gets to the loop (the cached document, if
    any, has its [folders], and the listing succeeds) reports 0, 0, 1, ..., N:
    its first two updates both report 0. A run that does not reports 0
    once. *)
Theorem progress_strict_after_first env taskId url token rootPath tmdbApiKey tmdbProxy
    user password s :
  let tr := trace_of
              (performScan env taskId url token rootPath tmdbApiKey tmdbProxy user password s) in
  Sorted Z.lt (tail (progress_values tr))
  ∧ (∀ dirs,
       cached_without_folders s rootPath = false →
       listing env rootPath = Ok dirs →
       progress_values tr = 0 :: 0 :: count_from 0 (length dirs))
  ∧ (cached_without_folders s rootPath = true ∨ (∃ m, listing env rootPath = Throw m) →
     progress_values tr = [0]).
Proof.
  intros tr. subst tr. unfold progress_values. rewrite performScan_progress.
  split; [|split].
  - destruct (scan_listing env rootPath s) as [dirs|m]; [|repeat constructor].
    rewrite fmap_cons, fst_paired. simpl.
    destruct (count_from_sorted (length dirs) 0) as [Hs Hh]. by constructor.
  - intros dirs Hcw Hlist. rewrite (scan_listing_ok _ _ _ _ Hcw Hlist).
    by rewrite fmap_cons, fst_paired.
  - intros H. assert (∃ m, scan_listing env rootPath s = Throw m) as [m ->]; [|done].
    unfold scan_listing. destruct H as [-> | [m Hm]]; [by eexists|].
    destruct (cached_without_folders s rootPath); [by eexists | by exists m].
Qed.

(** ** Listing failure *)

(** C7, as amended. When the listing gateway answers with a status other
    than 200 the run throws and the task ends [failed]; nothing is looked up
    and [db.setGlobalValue] is never called: the stored value is the one from
    before the run. The message the task fails with is the fixed text
    ['OpenList 列表获取失败'], whatever message the gateway sent; or, if the
    cached document of the root has no [folders], the message of the
    [TypeError] that ended the run before the gateway was asked. *)
Theorem listing_failure_is_fatal env taskId url token rootPath tmdbApiKey tmdbProxy
    user password s listResponse :
  listDirectory env rootPath = Ok listResponse →
  OpenList.code listResponse ≠ 200 →
  let scan := performScan env taskId url token rootPath tmdbApiKey tmdbProxy user password s in
  let thrown :=
    if cached_without_folders s rootPath then keys_of_undefined else listing_failed in
  outcome_of scan = Throw thrown
  ∧ status (task_after taskId (trace_of scan)) = failed_
  ∧ errorMessage (task_after taskId (trace_of scan)) = Some thrown
  ∧ result (task_after taskId (trace_of scan)) = None
  ∧ store_writes (trace_of scan) = []
  ∧ lookups (trace_of scan) = []
  ∧ metainfo_db (state_of scan) = metainfo_db s.
Proof.
  intros Hresp Hcode scan thrown. subst scan.
  assert (scan_listing env rootPath s = Throw thrown) as Hlist.
  { subst thrown. unfold scan_listing, listing. rewrite Hresp.
    destruct (cached_without_folders s rootPath); [done|].
    destruct (Z.eqb_spec (OpenList.code listResponse) 200); done. }
  destruct (performScan_fails_early env taskId url token rootPath tmdbApiKey tmdbProxy
              user password s _ Hlist) as (s1 & pre & -> & (_ & Hc & Hf & Hl & _) & Hw & Hdb & _).
  unfold outcome_of, state_of, trace_of. cbn [fst snd].
  destruct (task_after_failed taskId (EUpdateProgress taskId 0 0 None :: pre) thrown)
    as (Hstatus & Hmessage & Hresult).
  { observe. by rewrite Hc. }
  { observe. by rewrite Hf. }
  repeat split; try done.
  - observe. by rewrite Hw.
  - observe. by rewrite Hl.
Qed.

(** ** Failure after the store write *)

(** C9. When the run gets to the closing steps, the store write succeeds and
    step 6 (reading or saving the admin configuration) throws, the run throws
    and the task ends [failed] with that message, although the database and
    the cache both hold the document of this run: the entries there were,
    unchanged, and an entry for each listed directory that had none (those
    named like a member of [Object.prototype] apart), the one its lookup
    gave. *)
Theorem failure_after_store_write env taskId url token rootPath tmdbApiKey tmdbProxy
    user password s dirs m :
  cached_without_folders s rootPath = false →
  listing env rootPath = Ok dirs →
  setGlobalValue_error env = None →
  config_error env = Some m →
  let scan := performScan env taskId url token rootPath tmdbApiKey tmdbProxy user password s in
  outcome_of scan = Throw m
  ∧ status (task_after taskId (trace_of scan)) = failed_
  ∧ errorMessage (task_after taskId (trace_of scan)) = Some m
  ∧ ∃ doc es,
      store_writes (trace_of scan) = [Json doc]
      ∧ stored_document (state_of scan) = Some doc
      ∧ cached_document (state_of scan) rootPath = Some doc
      ∧ folders doc = Some es
      ∧ (∀ q e, existing_folders env rootPath s !! q = Some e → es !! q = Some e)
      ∧ dom es
        = dom (existing_folders env rootPath s)
          ∪ list_to_set (filter (fun q => inherited q = false) (OpenList.name <$> dirs))
      ∧ (∀ j q, lookups (trace_of scan) !! j = Some q →
           es !! q
           = Some (written_entry env tmdbApiKey tmdbProxy q
                     (now env (loop_clock env rootPath s + j)%nat))).
Proof.
  intros Hcw Hlist' Hset Hcfg scan. subst scan.
  pose proof (scan_listing_ok _ _ _ _ Hcw Hlist') as Hlist.
  destruct (performScan_listed env taskId url token rootPath tmdbApiKey tmdbProxy
              user password s dirs Hlist)
    as (l & st & tl & s3 & t3 & Hloop & _ & Hrun & Hheap & Hok & _ & Hwrites & Hpost).
  destruct (performScan_loop_calls env taskId url token rootPath tmdbApiKey tmdbProxy
              user password s dirs st tl Hlist Hloop) as [Hlook _].
  rewrite Hlook. clear Hlook.
  assert (persist_outcome env = Throw m) as Hout.
  { unfold persist_outcome. by rewrite Hset, Hcfg. }
  rewrite Hout in Hrun, Hpost. cbn zeta in Hrun. rewrite Hrun.
  destruct (Hok Hset) as [Hdb Hcache].
  destruct (resolve_trace_silent s rootPath) as [(_ & Hrc & Hrf & _) Hrw].
  destruct (scanLoop_calls env taskId tmdbApiKey tmdbProxy (Z.of_nat (length dirs))
              dirs 0 (mkLoopState (existing_folders env rootPath s) 0 0
                        (loop_clock env rootPath s))) as (Hlc & Hlf & Hlw).
  destruct (scanLoop_merge env taskId tmdbApiKey tmdbProxy (Z.of_nat (length dirs))
              dirs 0 (mkLoopState (existing_folders env rootPath s) 0 0
                        (loop_clock env rootPath s))) as (Hmono & Hdom & Hwritten).
  rewrite Hloop in Hlc, Hlf, Hlw, Hmono, Hdom, Hwritten.
  cbn [fst snd entries readings] in Hlc, Hlf, Hlw, Hmono, Hdom, Hwritten.
  destruct Hpost as (_ & Htc & Htf & _).
  unfold outcome_of, state_of, trace_of. cbn [fst snd].
  split; [done|].
  rewrite !app_assoc, app_comm_cons.
  destruct (task_after_failed taskId
              (EUpdateProgress taskId 0 0 None
                 :: (((resolve_trace s rootPath
                       ++ [EListDirectory rootPath;
                           EUpdateProgress taskId 0 (Z.of_nat (length dirs)) None])
                      ++ tl) ++ t3)) m)
    as (Hstatus & Hmessage & _).
  { observe. by rewrite Hrc, Hlc, Htc. }
  { observe. by rewrite Hrf, Hlf, Htf. }
  split; [done|]. split; [done|].
  eexists _, (entries st). split.
  { observe. rewrite Hrw, Hlw, Hwrites. done. }
  split. { unfold stored_document. by rewrite Hdb. }
  split. { unfold cached_document. by rewrite Hcache, Hheap. }
  done.
Qed.

(** ** Per-folder isolation *)


(** ** Scanning twice *)

(** C2, as amended. After a run that completed, a second run of the same
    root over the same listing looks nothing up; the entries of the stored
    and of the cached document are the same after it as after the first run;
    a result it reports has [new = 0] and [errors = 0] and counts every entry
    as existing. What does change is [last_refresh]: when the second run
    completes, the stored document carries a reading of its clock. *)
Theorem rescan_keeps_entries env1 env2 taskId1 taskId2 url1 url2 token1 token2 rootPath
    tmdbApiKey1 tmdbApiKey2 tmdbProxy1 tmdbProxy2 user1 user2 password1 password2 s :
  let scan1 :=
    performScan env1 taskId1 url1 token1 rootPath tmdbApiKey1 tmdbProxy1 user1 password1 s in
  let scan2 :=
    performScan env2 taskId2 url2 token2 rootPath tmdbApiKey2 tmdbProxy2 user2 password2
      (state_of scan1) in
  outcome_of scan1 = Ok tt →
  listing env2 rootPath = listing env1 rootPath →
  lookups (trace_of scan2) = []
  ∧ ∃ es,
      stored_document (state_of scan1) ≫= folders = Some es
      ∧ cached_document (state_of scan1) rootPath ≫= folders = Some es
      ∧ stored_document (state_of scan2) ≫= folders = Some es
      ∧ cached_document (state_of scan2) rootPath ≫= folders = Some es
      ∧ (∀ r, r ∈ completions (trace_of scan2) →
           new r = 0 ∧ errors r = 0 ∧ existing r = Z.of_nat (size es))
      ∧ (outcome_of scan2 = Ok tt →
           ∃ k, last_refresh <$> stored_document (state_of scan2) = Some (now env2 k)).
Proof.
  intros scan1 scan2 Hok1 Hsame.
  destruct (performScan_ok_inv env1 taskId1 url1 token1 rootPath tmdbApiKey1 tmdbProxy1
              user1 password1 s Hok1) as (dirs & Hlist1 & Hout1).
  destruct (persist_outcome_ok env1 Hout1) as [Hset1 _].
  destruct (performScan_listed env1 taskId1 url1 token1 rootPath tmdbApiKey1 tmdbProxy1
              user1 password1 s dirs Hlist1)
    as (l & st1 & tl1 & s3 & t3 & Hloop1 & _ & Hrun1 & Hheap1 & Hok & _).
  cbn zeta in Hrun1. destruct (Hok Hset1) as [Hdb1 Hcache1]. clear Hok.
  assert (state_of scan1 = s3) as Hs3 by (subst scan1; by rewrite Hrun1).
  subst scan2. rewrite Hs3. clear Hs3 Hok1 scan1 Hrun1.
  apply scan_listing_ok_inv in Hlist1 as [_ Hlist1].
  rewrite Hlist1 in Hsame.
  assert (scan_listing env2 rootPath s3 = Ok dirs) as Hlist2.
  { apply scan_listing_ok; [|done]. by eapply cached_folders_usable. }
  assert (existing_folders env2 rootPath s3 = entries st1) as Hexisting.
  { unfold existing_folders. rewrite Hcache1.
    by rewrite (lookup_total_correct _ _ _ Hheap1). }
  destruct (performScan_listed env2 taskId2 url2 token2 rootPath tmdbApiKey2 tmdbProxy2
              user2 password2 s3 dirs Hlist2)
    as (l2 & st2 & tl2 & s4 & t4 & Hloop2 & Hl2 & Hrun2 & Hheap2 & Hok2 & Hfail2
        & _ & Hpost2).
  cbn zeta in Hrun2. rewrite Hrun2.
  assert (l2 = l) as -> by apply Hl2, Hcache1. clear Hl2.
  rewrite Hexisting in Hloop2.
  destruct (scanLoop_all_known env2 taskId2 tmdbApiKey2 tmdbProxy2 (Z.of_nat (length dirs))
              dirs 0 (mkLoopState (entries st1) 0 0 (loop_clock env2 rootPath s3)))
    as (Hst2 & Hlook2 & _).
  { intros f Hf.
    pose proof (scanLoop_known_after env1 taskId1 tmdbApiKey1 tmdbProxy1
                  (Z.of_nat (length dirs)) dirs 0
                  (mkLoopState (existing_folders env1 rootPath s) 0 0
                     (loop_clock env1 rootPath s)) f Hf) as Hcov.
    by rewrite Hloop1 in Hcov. }
  rewrite Hloop2 in Hst2, Hlook2. simpl in Hst2, Hlook2. subst st2.
  simpl in Hrun2, Hheap2, Hok2, Hpost2.
  destruct (resolve_trace_silent s3 rootPath) as [(_ & Hrc & _ & Hrl & _) _].
  destruct (scanLoop_calls env2 taskId2 tmdbApiKey2 tmdbProxy2 (Z.of_nat (length dirs))
              dirs 0 (mkLoopState (entries st1) 0 0 (loop_clock env2 rootPath s3)))
    as (Hlc & _).
  rewrite Hloop2 in Hlc. simpl in Hlc.
  unfold outcome_of, state_of, trace_of. cbn [fst snd].
  split.
  { destruct (persist_outcome env2) as [[]|m].
    - destruct Hpost2 as (t' & -> & _ & _ & _ & Htl & _). observe. by rewrite Hrl, Hlook2, Htl.
    - destruct Hpost2 as (_ & _ & _ & Htl & _). observe. by rewrite Hrl, Hlook2, Htl. }
  exists (entries st1).
  split. { unfold stored_document. by rewrite Hdb1. }
  split. { unfold cached_document. by rewrite Hcache1, Hheap1. }
  assert (cache s4 !! rootPath = Some l) as Hcache2.
  { destruct (setGlobalValue_error env2) as [m|] eqn:Hset2.
    - destruct (Hfail2 m eq_refl) as [_ ->]. done.
    - by destruct (Hok2 eq_refl) as [_ ->]. }
  split.
  { unfold stored_document. destruct (setGlobalValue_error env2) as [m|] eqn:Hset2.
    - destruct (Hfail2 m eq_refl) as [-> _]. by rewrite Hdb1.
    - by destruct (Hok2 eq_refl) as [-> _]. }
  split. { unfold cached_document. by rewrite Hcache2, Hheap2. }
  split.
  { destruct (persist_outcome env2) as [[]|m].
    - destruct Hpost2 as (t' & -> & _ & Htc & _). observe. rewrite Hrc, Hlc, Htc. simpl.
      intros r ->%list_elem_of_singleton. simpl. repeat split. lia.
    - destruct Hpost2 as (_ & Htc & _). observe. rewrite Hrc, Hlc, Htc. simpl.
      by intros r ?%elem_of_nil. }
  intros Hout2. destruct (persist_outcome_ok env2 Hout2) as [Hset2 _].
  destruct (Hok2 Hset2) as [Hdb2 _]. exists (loop_clock env2 rootPath s3).
  unfold stored_document. by rewrite Hdb2.
Qed.

(** ** The two-folder scenario *)

(** C1, as amended. With no prior metadata, a listing of exactly the folders
    "Inception (2010)" and "Unknown Junk Folder", a match (id 27205, title
    "盗梦空间", media type movie) for the first and no match for the second,
    and closing steps that succeed, the stored and cached document has
    exactly these two entries: the first with [tmdb_id = 27205], that title
    and [failed = false], the second with [tmdb_id = 0], the folder name as
    title and [failed = true]. The task is completed with
    [{total: 2, new: 1, existing: 1, errors: 1}]: [existing] is the number of
    entries minus [new], and the entry of the folder that failed counts. *)
Theorem two_folder_scenario env taskId url token rootPath tmdbApiKey tmdbProxy
    user password s found searchResult :
  cache s !! rootPath = None →
  metainfo_db s = None →
  listing env rootPath =
    Ok [OpenList.mkItem "Inception (2010)" true; OpenList.mkItem "Unknown Junk Folder" true] →
  searchTMDB env tmdbApiKey "Inception (2010)" tmdbProxy = Ok (TMDB.mkResponse 200 (Some found)) →
  TMDB.id found = 27205 →
  TMDB.title found = Some "盗梦空间" →
  TMDB.media_type found = "movie" →
  searchTMDB env tmdbApiKey "Unknown Junk Folder" tmdbProxy = Ok searchResult →
  TMDB.result_ searchResult = None →
  persist_outcome env = Ok tt →
  let scan := performScan env taskId url token rootPath tmdbApiKey tmdbProxy user password s in
  let summary := mkScanResult 2 1 1 1 in
  outcome_of scan = Ok tt
  ∧ completions (trace_of scan) = [summary]
  ∧ status (task_after taskId (trace_of scan)) = completed
  ∧ result (task_after taskId (trace_of scan)) = Some summary
  ∧ ∃ doc es e1 e2,
      stored_document (state_of scan) = Some doc
      ∧ cached_document (state_of scan) rootPath = Some doc
      ∧ folders doc = Some es
      ∧ dom es = {["Inception (2010)"; "Unknown Junk Folder"]}
      ∧ es !! "Inception (2010)" = Some e1
      ∧ tmdb_id e1 = 27205 ∧ title e1 = "盗梦空间" ∧ media_type e1 = "movie"
      ∧ failed e1 = false
      ∧ es !! "Unknown Junk Folder" = Some e2
      ∧ tmdb_id e2 = 0 ∧ title e2 = "Unknown Junk Folder" ∧ failed e2 = true.
Proof.
  intros Hcache Hdb Hlist' Hfound Hid Htitle Hkind Hnone Hnomatch Hout scan summary.
  subst scan summary.
  pose proof (scan_listing_ok _ _ _ _ (cache_miss_usable s rootPath Hcache) Hlist') as Hlist.
  destruct (performScan_completes env taskId url token rootPath tmdbApiKey tmdbProxy
              user password s _ Hlist Hout)
    as (st & tl & Hloop & Hok & Hstored & Hcached & Hcompl & _ & _ & _ & Hstatus & Hresult).
  assert (existing_folders env rootPath s = ∅) as Hexisting.
  { unfold existing_folders. rewrite Hcache, Hdb. by destruct (getGlobalValue_error env). }
  rewrite Hexisting in Hloop.
  set (k := loop_clock env rootPath s) in *.
  assert (matched searchResult = None) as Hmatched.
  { unfold matched. rewrite Hnomatch. by destruct (_ =? _). }
  cbn [scanLoop] in Hloop. unfold scanFolder, has_entry in Hloop.
  cbn [entries OpenList.name newCount errorCount readings] in Hloop.
  rewrite lookup_empty in Hloop.
  change (inherited "Inception (2010)") with false in Hloop. cbn iota in Hloop.
  rewrite Hfound in Hloop. cbn in Hloop.
  rewrite lookup_insert_ne, lookup_empty in Hloop by done.
  change (inherited "Unknown Junk Folder") with false in Hloop. cbn iota in Hloop.
  rewrite Hnone, Hmatched in Hloop.
  injection Hloop as <- <-.
  cbn [entries newCount errorCount length] in *.
  assert (size (<["Unknown Junk Folder" := failed_entry "Unknown Junk Folder" (now env (S k))]>
                  (<["Inception (2010)" := resolved_entry found "Inception (2010)" (now env k)]>
                     (∅ : gmap string FolderEntry))) = 2%nat) as Hsize.
  { rewrite map_size_insert_None by (by rewrite lookup_insert_ne, lookup_empty).
    by rewrite map_size_insert_None, map_size_empty by apply lookup_empty. }
  rewrite Hsize in Hcompl, Hresult.
  repeat (split; [done|]).
  eexists _, _, (resolved_entry found "Inception (2010)" (now env k)),
    (failed_entry "Unknown Junk Folder" (now env (S k))).
  split; [exact Hstored|]. split; [exact Hcached|]. split; [reflexivity|].
  split. { rewrite !dom_insert_L, dom_empty_L. set_solver. }
  split. { by rewrite lookup_insert_ne, lookup_insert_eq. }
  unfold resolved_entry. simpl. rewrite Hid, Htitle, Hkind. simpl.
  repeat (split; [done|]). done.
Qed.

(** ** The inter-call delay *)

(** C4 at a lookup that throws. The run of [lookup_throws_env] looks its one
    folder up and records the failure, and no delay follows the lookup;
    where the lookup answers, as in [two_folders_run], each lookup is
    followed by a delay of 300 ms. *)
Theorem no_delay_after_thrown_lookup :
  lookups (trace_of lookup_throws_run) = ["Heat (1995)"]
  ∧ delays (trace_of lookup_throws_run) = []
  ∧ errors <$> completions (trace_of lookup_throws_run) = [1]
  ∧ lookups (trace_of two_folders_run) = ["Inception (2010)"; "Unknown Junk Folder"]
  ∧ delays (trace_of two_folders_run) = [300; 300].
Proof. vm_compute. done. Qed.

(** ** The detail endpoint *)

Lemma readMetaInfo_spec env rootPath s :
  ∃ o s' t,
    readMetaInfo env rootPath s = (Ok o, s', t)
    ∧ o ≫= (fun l => heap s' !! l) = visible_metainfo env rootPath s.
Proof.
  unfold readMetaInfo, visible_metainfo, try_catch, bind, getCachedMetaInfo. simpl.
  destruct (cache s !! rootPath) as [l|]; simpl; [by eexists _, _, _|].
  unfold db_getGlobalValue. destruct (getGlobalValue_error env); simpl; [by eexists _, _, _|].
  destruct (metainfo_db s) as [[d|]|]; simpl; eexists _, _, _; (split; [done|]); simpl; [|done..].
  apply lookup_insert_eq.
Qed.

(** The [openlist] branch always answers, with status 200 or 500. *)
Lemma openlistDetail_status denv env request id s :
  ∃ resp s' t,
    openlistDetail denv env request id s = (Ok resp, s', t)
    ∧ (status_code resp = 200 ∨ status_code resp = 500).
Proof.
  unfold openlistDetail, try_catch, bind, lift, emit, get_state, throw, ret. simpl.
  destruct (getConfig env) as [config|m]; simpl; [|by eexists _, _, _; split; [|right]].
  destruct (OpenListConfig_ config) as [c|]; simpl;
    [|by eexists _, _, _; split; [|right]].
  destruct (URL c) as [|u1 u2]; simpl; [by eexists _, _, _; split; [|right]|].
  destruct (Token c) as [|t1 t2]; simpl; [by eexists _, _, _; split; [|right]|].
  match goal with
  | |- context [readMetaInfo env ?r s] =>
      destruct (readMetaInfo_spec env r s) as (o & s' & t & -> & _)
  end. simpl.
  destruct (fetch denv _ _) as [fr|m]; simpl; [|by eexists _, _, _; split; [|right]].
  destruct (ok fr); simpl; [|by eexists _, _, _; split; [|right]].
  destruct (json fr) as [data|m]; simpl; [|by eexists _, _, _; split; [|right]].
  destruct (success data); simpl; eexists _, _, _; (split; [reflexivity|]); simpl; auto.
Qed.

(** C8. A detail request for source [openlist] that passes the checks on
    the request and the configuration, and whose folder listing is fetched
    successfully, is answered with status 200 even if the document the
    endpoint sees has no entry for the folder: the title of the record is the
    folder name [/api/openlist/detail] returned, which is also the record's
    id; poster, year and description are empty; the episodes are there. *)
Theorem detail_without_metadata denv env request s user id config c fr data :
  getAuthInfoFromCookie denv request = Some (mkAuthInfo (Some user)) →
  user ≠ EmptyString →
  param_id request = Some id →
  id ≠ EmptyString →
  param_source request = Some "openlist" →
  getConfig env = Ok config →
  OpenListConfig_ config = Some c →
  URL c ≠ EmptyString →
  Token c ≠ EmptyString →
  fetch denv (detail_url request id) (or_string (header_cookie request) EmptyString) = Ok fr →
  ok fr = true →
  json fr = Ok data →
  success data = true →
  folderMeta_of (visible_metainfo env (or_string (Some (RootPath c)) "/") s) id = None →
  ∃ r,
    outcome_of (GET denv env request s) = Ok (mkResponse 200 (DetailBody r) [])
    ∧ Detail.id r = folder data
    ∧ Detail.title r = folder data
    ∧ Detail.poster r = EmptyString
    ∧ Detail.year r = EmptyString
    ∧ Detail.desc r = EmptyString
    ∧ Detail.episodes r = map (episode_url (folder data)) (episodes data)
    ∧ length (Detail.episodes_titles r) = length (episodes data).
Proof.
  intros Hauth Huser Hid Hid' Hsource Hconfig Hc Hurl Htoken Hfetch Hok Hjson Hsuccess Hmeta.
  unfold GET. rewrite Hauth, Hid, Hsource. simpl.
  destruct user as [|u0 u]; [done|]. destruct id as [|i0 i]; [done|].
  unfold openlistDetail, try_catch, bind, lift, emit, get_state, throw, ret. simpl.
  rewrite Hconfig. simpl. rewrite Hc. simpl.
  destruct (URL c) as [|u1 u2]; [done|]. destruct (Token c) as [|t1 t2]; [done|]. simpl.
  simpl in Hmeta.
  match goal with
  | |- context [readMetaInfo env ?r s] =>
      destruct (readMetaInfo_spec env r s) as (o & s' & t & -> & Hvisible)
  end. simpl.
  rewrite Hfetch. simpl. rewrite Hok. simpl. rewrite Hjson. simpl. rewrite Hsuccess. simpl.
  rewrite Hvisible, Hmeta. unfold outcome_of. simpl.
  eexists. split; [reflexivity|]. simpl. repeat split. by rewrite length_map.
Qed.

(** C10. For source [openlist] the answer is never the 400 of the id-format
    check, so that answer can only come from other sources; and every
    request of an authenticated user with a non-empty id is handled by the
    [openlist] branch, whatever characters the id has. *)
Theorem openlist_skips_id_check denv env request s :
  param_source request = Some "openlist" →
  outcome_of (GET denv env request s) ≠ Ok (mkResponse 400 (ErrorBody invalid_id_format) [])
  ∧ ∀ user id,
      getAuthInfoFromCookie denv request ≫= username = Some user →
      user ≠ EmptyString →
      param_id request = Some id →
      id ≠ EmptyString →
      GET denv env request s = openlistDetail denv env request id s.
Proof.
  intros Hsource. split.
  - unfold GET. rewrite Hsource.
    destruct (getAuthInfoFromCookie denv request ≫= username) as [[|u0 u]|]; try done.
    destruct (param_id request) as [[|i0 i]|]; try done. simpl.
    destruct (openlistDetail_status denv env request (String i0 i) s)
      as (resp & s' & t & -> & [Hst | Hst]); unfold outcome_of; simpl;
      intros [= ->]; done.
  - intros user id Hauth Huser Hid Hid'. unfold GET. rewrite Hauth, Hid, Hsource.
    destruct user as [|u0 u]; [done|]. by destruct id as [|i0 i].
Qed.

(** * The properties at the worked runs *)

Lemma two_folder_scenario_witness :
  outcome_of two_folders_run = Ok tt
  ∧ completions (trace_of two_folders_run) = [mkScanResult 2 1 1 1]
  ∧ status (task_after "task-1" (trace_of two_folders_run)) = completed.
Proof.
  destruct (two_folder_scenario two_folders_env "task-1" "http://openlist" "token" "/" "key"
              None None None initial_state inception (TMDB.mkResponse 404 None))
    as (H1 & H2 & H3 & _); try reflexivity.
  repeat split; assumption.
Defined.

(** C1 as stated fails: the summary of the scenario does not have
    [existing = 0]. *)
Lemma scenario_existing_is_not_zero :
  completions (trace_of two_folders_run) ≠ [mkScanResult 2 1 0 1].
Proof. vm_compute. discriminate. Qed.

Lemma rescan_keeps_entries_witness :
  outcome_of two_folders_run = Ok tt
  ∧ lookups (trace_of two_folders_rescan) = []
  ∧ ∀ r, r ∈ completions (trace_of two_folders_rescan) → new r = 0 ∧ errors r = 0.
Proof.
  destruct (rescan_keeps_entries two_folders_env two_folders_env "task-1" "task-2"
              "http://openlist" "http://openlist" "token" "token" "/" "key" "key"
              None None None None None None initial_state)
    as (H1 & es & _ & _ & _ & _ & H2 & _); [vm_compute; reflexivity | reflexivity |].
  split; [vm_compute; reflexivity|]. split; [exact H1|].
  intros r Hr. destruct (H2 r Hr) as (Hn & He & _). by split.
Defined.

(** C2 as stated fails: the document stored by the second run is not the
    one stored by the first; their [last_refresh] differ. *)
Lemma rescan_renews_last_refresh :
  stored_document (state_of two_folders_rescan) ≠ stored_document (state_of two_folders_run).
Proof.
  intros H. apply (f_equal (fmap last_refresh)) in H. vm_compute in H. discriminate H.
Qed.




(** Nor does every listed folder get an entry: one named like a member of
    [Object.prototype] passes the already-exists test, and is skipped. *)
Example constructor_is_skipped :
  outcome_of constructor_run = Ok tt
  ∧ lookups (trace_of constructor_run) = ["Unknown Junk Folder"]
  ∧ stored_entry (state_of constructor_run) "constructor" = None
  ∧ total <$> completions (trace_of constructor_run) = [2].
Proof. vm_compute. done. Qed.

Lemma progress_is_monotone_witness :
  Sorted Z.le (progress_values (trace_of two_folders_run))
  ∧ last (progress_updates (trace_of two_folders_run)) = Some (2, 2).
Proof.
  destruct (progress_is_monotone two_folders_env "task-1" "http://openlist" "token" "/" "key"
              None None None initial_state) as [H1 H2].
  split; [exact H1|].
  apply (H2 (mkScanResult 2 1 1 1)). vm_compute. left.
Defined.

Lemma progress_strict_after_first_witness :
  Sorted Z.lt (tail (progress_values (trace_of two_folders_run)))
  ∧ progress_values (trace_of two_folders_run) = [0; 0; 1; 2].
Proof.
  destruct (progress_strict_after_first two_folders_env "task-1" "http://openlist" "token" "/"
              "key" None None None initial_state) as (H1 & H2 & _).
  split; [exact H1|].
  exact (H2 [OpenList.mkItem "Inception (2010)" true;
             OpenList.mkItem "Unknown Junk Folder" true] eq_refl eq_refl).
Defined.

(** C6 as stated fails: the first two updates of a run both report 0. *)
Lemma first_two_updates_equal :
  ¬ Sorted Z.lt (progress_values (trace_of two_folders_run)).
Proof.
  assert (progress_values (trace_of two_folders_run) = [0; 0; 1; 2]) as ->
    by (vm_compute; reflexivity).
  intros H. apply Sorted_inv in H as [_ H]. apply HdRel_inv in H. lia.
Qed.

Lemma listing_failure_is_fatal_witness :
  outcome_of gateway_down_run = Throw listing_failed
  ∧ status (task_after "task-3" (trace_of gateway_down_run)) = failed_
  ∧ store_writes (trace_of gateway_down_run) = []
  ∧ metainfo_db (state_of gateway_down_run) = metainfo_db (state_of two_folders_run).
Proof.
  assert (cached_without_folders (state_of two_folders_run) "/" = false) as Hcw
    by (vm_compute; reflexivity).
  destruct (listing_failure_is_fatal gateway_down_env "task-3" "http://openlist" "token" "/"
              "key" None None None (state_of two_folders_run) gateway_down_response)
    as (H1 & H2 & _ & _ & H3 & _ & H4); [reflexivity | vm_compute; discriminate |].
  rewrite Hcw in H1. unfold gateway_down_run.
  split; [exact H1|]. split; [exact H2|]. split; [exact H3 | exact H4].
Defined.

(** C7 as stated fails: the task does not fail with the gateway's message. *)
Lemma gateway_message_not_reported :
  errorMessage (task_after "task-3" (trace_of gateway_down_run))
  ≠ Some (OpenList.message gateway_down_response).
Proof. vm_compute. discriminate. Qed.

Lemma failure_after_store_write_witness :
  outcome_of config_locked_run = Throw "database is locked"
  ∧ status (task_after "task-4" (trace_of config_locked_run)) = failed_
  ∧ metainfo_db initial_state = None
  ∧ is_Some (stored_document (state_of config_locked_run))
  ∧ is_Some (cached_document (state_of config_locked_run) "/").
Proof.
  destruct (failure_after_store_write config_locked_env "task-4" "http://openlist" "token" "/"
              "key" None None None initial_state
              [OpenList.mkItem "Inception (2010)" true;
               OpenList.mkItem "Unknown Junk Folder" true]
              "database is locked" eq_refl eq_refl eq_refl eq_refl)
    as (H1 & H2 & _ & doc & es & _ & H3 & H4 & _).
  fold config_locked_run in H1, H2, H3, H4.
  split; [exact H1|]. split; [exact H2|]. split; [reflexivity|].
  split; [rewrite H3 | rewrite H4]; by eexists.
Defined.

Lemma detail_without_metadata_witness :
  ∃ r, outcome_of holiday_response = Ok (mkResponse 200 (DetailBody r) [])
       ∧ Detail.title r = "Holiday Videos/2024"
       ∧ Detail.poster r = EmptyString ∧ Detail.year r = EmptyString
       ∧ Detail.desc r = EmptyString.
Proof.
  assert (folderMeta_of
            (visible_metainfo two_folders_env
               (or_string (Some (RootPath (mkOpenListConfig "http://openlist" "token" "/" 0 0)))
                  "/")
               (state_of two_folders_run))
            "Holiday Videos/2024" = None) as Hunknown by (vm_compute; reflexivity).
  assert (fetch holiday_denv (detail_url holiday_request "Holiday Videos/2024")
            (or_string (header_cookie holiday_request) EmptyString)
          = Ok (mkFetchResponse true (Ok holiday_data))) as Hfetch by (vm_compute; reflexivity).
  destruct (detail_without_metadata holiday_denv two_folders_env holiday_request
              (state_of two_folders_run) "alice" "Holiday Videos/2024" some_config
              (mkOpenListConfig "http://openlist" "token" "/" 0 0)
              (mkFetchResponse true (Ok holiday_data)) holiday_data
              eq_refl ltac:(discriminate) eq_refl ltac:(discriminate) eq_refl eq_refl eq_refl
              ltac:(discriminate) ltac:(discriminate) Hfetch eq_refl eq_refl eq_refl Hunknown)
    as (r & H1 & _ & H2 & H3 & H4 & H5 & _).
  exists r. repeat split; assumption.
Defined.

Lemma openlist_skips_id_check_witness :
  valid_id "Holiday Videos/2024" = false
  ∧ outcome_of holiday_response ≠ Ok (mkResponse 400 (ErrorBody invalid_id_format) [])
  ∧ holiday_response
    = openlistDetail holiday_denv two_folders_env holiday_request "Holiday Videos/2024"
        (state_of two_folders_run).
Proof.
  destruct (openlist_skips_id_check holiday_denv two_folders_env holiday_request
              (state_of two_folders_run)) as [H1 H2]; [reflexivity|].
  split; [reflexivity|]. split; [exact H1|].
  apply (H2 "alice"); try reflexivity; discriminate.
Defined.

(** For other sources the id-format check is there. *)
Example other_source_checks_id :
  outcome_of
    (GET holiday_denv two_folders_env
       (mkRequest (Some "Holiday Videos/2024") (Some "dyttzy") None None None) initial_state)
  = Ok (mkResponse 400 (ErrorBody invalid_id_format) []).
Proof. reflexivity. Qed.

(** * Further properties *)

(** ** Escaping and splitting *)

Lemma char_code_bounds c : 0 ≤ char_code c < 256.
Proof.
  unfold char_code. pose proof (N_ascii_bounded c) as H. lia.
Qed.

Lemma char_code_inj c1 c2 : char_code c1 = char_code c2 → c1 = c2.
Proof.
  unfold char_code. intros H. apply N2Z.inj in H.
  rewrite <- (ascii_N_embedding c1), <- (ascii_N_embedding c2). by rewrite H.
Qed.

Lemma hex_digit_code n : 0 ≤ n < 16 →
  char_code (hex_digit n) = if n <? 10 then 48 + n else 55 + n.
Proof.
  intros Hn. unfold char_code, hex_digit.
  rewrite N_ascii_embedding; destruct (Z.ltb_spec n 10); lia.
Qed.

Lemma hex_digit_inj a b : 0 ≤ a < 16 → 0 ≤ b < 16 → hex_digit a = hex_digit b → a = b.
Proof.
  intros Ha Hb H. apply (f_equal char_code) in H.
  rewrite !hex_digit_code in H by done.
  destruct (Z.ltb_spec a 10), (Z.ltb_spec b 10); lia.
Qed.

Lemma hex_digit_unreserved n : 0 ≤ n < 16 → unreserved (hex_digit n) = true.
Proof.
  intros Hn. unfold unreserved, alphanumeric, in_range.
  rewrite hex_digit_code by done.
  destruct (Z.ltb_spec n 10).
  - replace ((48 <=? 48 + n) && (48 + n <=? 57)) with true; [done|].
    symmetry. apply andb_true_iff. split; apply Z.leb_le; lia.
  - replace ((65 <=? 55 + n) && (55 + n <=? 90)) with true; [by rewrite orb_true_r|].
    symmetry. apply andb_true_iff. split; apply Z.leb_le; lia.
Qed.

Lemma percent_reserved : unreserved "%" = false.
Proof. reflexivity. Qed.

Lemma nibbles c :
  0 ≤ char_code c / 16 < 16 ∧ 0 ≤ char_code c mod 16 < 16.
Proof.
  pose proof (char_code_bounds c) as H. split.
  - split; [apply Z.div_pos; lia | apply Z.div_lt_upper_bound; lia].
  - apply Z.mod_pos_bound. lia.
Qed.

(** X1. Whatever the text, [encodeURIComponent] yields only unreserved
    characters and [%]: nothing that could end or split a query parameter. *)
Theorem encodeURIComponent_url_safe s :
  all_chars url_safe (encodeURIComponent s) = true.
Proof.
  induction s as [|c s IH]; [done|]. simpl.
  destruct (unreserved c) eqn:Hc; simpl.
  - unfold url_safe at 1. by rewrite Hc.
  - destruct (nibbles c) as [Hhi Hlo]. rewrite IH.
    assert (∀ n, 0 ≤ n < 16 → url_safe (hex_digit n) = true) as Hsafe.
    { intros n Hn. unfold url_safe. by rewrite hex_digit_unreserved. }
    by rewrite !Hsafe.
Qed.

Lemma encodeURIComponent_inj s1 : ∀ s2,
  encodeURIComponent s1 = encodeURIComponent s2 → s1 = s2.
Proof.
  induction s1 as [|c1 s1 IH]; intros [|c2 s2]; simpl.
  - done.
  - by destruct (unreserved c2).
  - by destruct (unreserved c1).
  - destruct (unreserved c1) eqn:H1, (unreserved c2) eqn:H2.
    + intros [= -> H]. f_equal. by apply IH.
    + intros [= -> _]. by rewrite percent_reserved in H1.
    + intros [= <- _]. by rewrite percent_reserved in H2.
    + intros [= Hhi Hlo H].
      destruct (nibbles c1) as [Hhi1 Hlo1], (nibbles c2) as [Hhi2 Hlo2].
      apply hex_digit_inj in Hhi; [|done..]. apply hex_digit_inj in Hlo; [|done..].
      assert (c1 = c2) as ->.
      { apply char_code_inj.
        rewrite (Z.div_mod (char_code c1) 16), (Z.div_mod (char_code c2) 16) by lia.
        by rewrite Hhi, Hlo. }
      f_equal. by apply IH.
Qed.

Lemma append_cancel_l (p a b : string) : p +:+ a = p +:+ b → a = b.
Proof. induction p as [|c p IH]; simpl; [done|]. intros [= H]. by apply IH. Qed.

(** X2. [encodeURIComponent] loses nothing: different texts have different
    encodings, so the play URLs of two different files of a folder
    differ. *)
Theorem encodeURIComponent_injective s1 s2 :
  s1 ≠ s2 →
  encodeURIComponent s1 ≠ encodeURIComponent s2
  ∧ ∀ folderName ep1 ep2,
      fileName ep1 = s1 → fileName ep2 = s2 →
      episode_url folderName ep1 ≠ episode_url folderName ep2.
Proof.
  intros Hne. split.
  - intros H. by apply Hne, encodeURIComponent_inj.
  - intros folderName ep1 ep2 <- <- H. apply Hne, encodeURIComponent_inj. unfold episode_url in H.
    by do 3 apply append_cancel_l in H.
Qed.

Lemma encodeURIComponent_injective_witness :
  encodeURIComponent "a b" ≠ encodeURIComponent "a+b".
Proof. apply (encodeURIComponent_injective "a b" "a+b"). discriminate. Defined.

Lemma word_or_dash_unreserved c : word_or_dash c = true → unreserved c = true.
Proof.
  unfold word_or_dash, unreserved. simpl.
  destruct (alphanumeric c); [done|]. simpl.
  destruct (char_code c =? 95) eqn:H95.
  - apply Z.eqb_eq in H95. rewrite H95. done.
  - simpl. intros H45. apply Z.eqb_eq in H45. rewrite H45. done.
Qed.

(** X3. An id that passes the id-format check [/^[\w-]+$/] is left as it is
    by [encodeURIComponent]. *)
Theorem valid_id_needs_no_escaping id :
  valid_id id = true → encodeURIComponent id = id.
Proof.
  intros H. assert (all_chars word_or_dash id = true) as Hall by (by destruct id).
  clear H. induction id as [|c id IH]; [done|]. simpl in *.
  apply andb_true_iff in Hall as [Hc Hall].
  by rewrite (word_or_dash_unreserved c Hc), IH.
Qed.

Lemma valid_id_needs_no_escaping_witness :
  encodeURIComponent "tt-1375666_b" = "tt-1375666_b".
Proof. apply valid_id_needs_no_escaping. reflexivity. Defined.

(** X4. [split('-')[0]], used for the year: of a text without a dash it is
    the whole text, and of a dash-free text followed by a dash and anything
    it is that text. *)
Theorem before_dash_split y :
  all_chars not_dash y = true →
  before_dash y = y ∧ ∀ rest, before_dash (y +:+ String "-" rest) = y.
Proof.
  intros Hy. induction y as [|c y IH]; [done|]. simpl in *.
  apply andb_true_iff in Hy as [Hc Hy]. unfold not_dash in Hc.
  destruct (Ascii.eqb c "-"); [done|].
  destruct (IH Hy) as [IH1 IH2]. split; [by rewrite IH1|].
  intros rest. by rewrite IH2.
Qed.

Lemma before_dash_split_witness :
  before_dash "2010" = "2010" ∧ before_dash "2010-07-15" = "2010".
Proof.
  destruct (before_dash_split "2010") as [H1 H2]; [reflexivity|].
  split; [exact H1 | exact (H2 "07-15")].
Defined.
(** ** What a run looks up, and when it waits *)

(** X5. A run looks up exactly the listed directory names that do not pass
    the already-exists test, each of them once: never a file, never a name
    with an entry, were it a failed one, never a name under which an object
    inherits a member ([constructor], [toString], ...), and nothing at all if
    the run does not get to the loop, because the cached document has no
    [folders] or the listing fails. *)
Theorem lookups_exactly_the_unknown env taskId url token rootPath tmdbApiKey tmdbProxy
    user password s :
  let tr := trace_of
              (performScan env taskId url token rootPath tmdbApiKey tmdbProxy user password s) in
  NoDup (lookups tr)
  ∧ ∀ q, q ∈ lookups tr
         ↔ cached_without_folders s rootPath = false
           ∧ ∃ dirs, listing env rootPath = Ok dirs
                     ∧ q ∈ OpenList.name <$> dirs
                     ∧ existing_folders env rootPath s !! q = None
                     ∧ inherited q = false.
Proof.
  intros tr. subst tr.
  destruct (scan_listing env rootPath s) as [dirs|m] eqn:Hlist.
  - destruct (scanLoop env taskId tmdbApiKey tmdbProxy (Z.of_nat (length dirs)) 0 dirs
                (mkLoopState (existing_folders env rootPath s) 0 0 (loop_clock env rootPath s)))
      as [st tl] eqn:Hloop.
    destruct (performScan_loop_calls env taskId url token rootPath tmdbApiKey tmdbProxy
                user password s dirs st tl Hlist Hloop) as [-> _].
    destruct (scanLoop_lookups env taskId tmdbApiKey tmdbProxy (Z.of_nat (length dirs))
                dirs 0 (mkLoopState (existing_folders env rootPath s) 0 0
                          (loop_clock env rootPath s))) as [Hnd Hiff].
    rewrite Hloop in Hnd, Hiff. cbn [snd entries] in Hnd, Hiff.
    apply scan_listing_ok_inv in Hlist as [Hcw Hlist].
    split; [done|]. intros q. rewrite Hiff, has_entry_false. split.
    + intros (? & ? & ?). split; [done|]. by exists dirs.
    + intros (_ & dirs' & Hl' & ? & ? & ?). rewrite Hlist in Hl'. injection Hl' as <-. done.
  - destruct (performScan_early_calls env taskId url token rootPath tmdbApiKey tmdbProxy
                user password s m Hlist) as [-> _].
    split; [constructor|]. intros q. split; [by intros ?%elem_of_nil|].
    intros (Hcw & dirs & Hl & _). unfold scan_listing in Hlist. rewrite Hcw, Hl in Hlist. done.
Qed.

(** X6. The delays of a run are one of 300 ms per lookup that returned an
    answer, with or without a match; a lookup that throws is followed by
    none. *)
Theorem delays_follow_answers env taskId url token rootPath tmdbApiKey tmdbProxy
    user password s :
  let tr := trace_of
              (performScan env taskId url token rootPath tmdbApiKey tmdbProxy user password s) in
  delays tr
  = (fun _ => 300) <$> filter (fun q => answered env tmdbApiKey tmdbProxy q = true) (lookups tr).
Proof.
  intros tr. subst tr.
  destruct (scan_listing env rootPath s) as [dirs|m] eqn:Hlist.
  - destruct (scanLoop env taskId tmdbApiKey tmdbProxy (Z.of_nat (length dirs)) 0 dirs
                (mkLoopState (existing_folders env rootPath s) 0 0 (loop_clock env rootPath s)))
      as [st tl] eqn:Hloop.
    destruct (performScan_loop_calls env taskId url token rootPath tmdbApiKey tmdbProxy
                user password s dirs st tl Hlist Hloop) as [-> ->].
    pose proof (scanLoop_delays env taskId tmdbApiKey tmdbProxy (Z.of_nat (length dirs))
                  dirs 0 (mkLoopState (existing_folders env rootPath s) 0 0
                            (loop_clock env rootPath s))) as Hd.
    by rewrite Hloop in Hd.
  - by destruct (performScan_early_calls env taskId url token rootPath tmdbApiKey tmdbProxy
                   user password s m Hlist) as [-> ->].
Qed.

(** ** What a completed run leaves behind *)

(** X7. A run that completes only adds. Every entry there was is still
    there, unchanged; the names with an entry are those from before and the
    listed directories not named like a member of [Object.prototype]; and the
    entry of such a directory that had none is the one its lookup gives (the
    match, or the failure entry), stamped with the clock reading of its
    write, the [j]-th of the loop for the [j]-th lookup. The database and the
    cache hold these entries. *)
Theorem scan_merges_entries env taskId url token rootPath tmdbApiKey tmdbProxy
    user password s dirs :
  cached_without_folders s rootPath = false →
  listing env rootPath = Ok dirs →
  persist_outcome env = Ok tt →
  let scan := performScan env taskId url token rootPath tmdbApiKey tmdbProxy user password s in
  ∃ es,
    stored_document (state_of scan) ≫= folders = Some es
    ∧ cached_document (state_of scan) rootPath ≫= folders = Some es
    ∧ dom es
      = dom (existing_folders env rootPath s)
        ∪ list_to_set (filter (fun q => inherited q = false) (OpenList.name <$> dirs))
    ∧ (∀ q e, existing_folders env rootPath s !! q = Some e → es !! q = Some e)
    ∧ (∀ q, q ∈ OpenList.name <$> dirs →
            existing_folders env rootPath s !! q = None →
            inherited q = false →
            ∃ j, lookups (trace_of scan) !! j = Some q
                 ∧ es !! q
                   = Some (written_entry env tmdbApiKey tmdbProxy q
                             (now env (loop_clock env rootPath s + j)%nat))).
Proof.
  intros Hcw Hlist' Hout scan. subst scan.
  pose proof (scan_listing_ok _ _ _ _ Hcw Hlist') as Hlist.
  destruct (performScan_completes env taskId url token rootPath tmdbApiKey tmdbProxy
              user password s dirs Hlist Hout)
    as (st & tl & Hloop & _ & Hstored & Hcached & _ & _ & Hlook & _).
  set (st0 := mkLoopState (existing_folders env rootPath s) 0 0 (loop_clock env rootPath s))
    in *.
  destruct (scanLoop_lookups env taskId tmdbApiKey tmdbProxy (Z.of_nat (length dirs))
              dirs 0 st0) as [_ Hiff].
  destruct (scanLoop_merge env taskId tmdbApiKey tmdbProxy (Z.of_nat (length dirs))
              dirs 0 st0) as (Hmono & Hdom & Hwritten).
  rewrite Hloop in Hiff, Hmono, Hdom, Hwritten.
  subst st0. cbn [fst snd entries readings] in Hiff, Hmono, Hdom, Hwritten.
  exists (entries st). rewrite Hstored, Hcached, Hlook.
  split; [done|]. split; [done|]. split; [done|]. split; [done|].
  intros q Hq Hnone Hinh.
  assert (q ∈ lookups tl) as [j Hj]%list_elem_of_lookup.
  { apply Hiff. split; [done|]. by apply has_entry_false. }
  exists j. split; [done|]. by apply Hwritten.
Qed.

Lemma scan_merges_entries_witness :
  ∃ es,
    stored_document (state_of two_folders_run) ≫= folders = Some es
    ∧ dom es = {["Inception (2010)"; "Unknown Junk Folder"]}.
Proof.
  destruct (scan_merges_entries two_folders_env "task-1" "http://openlist" "token" "/" "key"
              None None None initial_state
              [OpenList.mkItem "Inception (2010)" true;
               OpenList.mkItem "Unknown Junk Folder" true] eq_refl eq_refl eq_refl)
    as (es & H1 & _ & H2 & _).
  exists es. split; [exact H1|]. rewrite H2. vm_compute. reflexivity.
Defined.

(** X8. The summary of a completed run: [total] is the number of listed
    directories, [new] the number of lookups with a match, [errors] the
    number of the other lookups, and [existing] the number of entries there
    were before plus [errors]. *)
Theorem scan_summary env taskId url token rootPath tmdbApiKey tmdbProxy
    user password s dirs :
  cached_without_folders s rootPath = false →
  listing env rootPath = Ok dirs →
  persist_outcome env = Ok tt →
  let tr := trace_of
              (performScan env taskId url token rootPath tmdbApiKey tmdbProxy user password s) in
  ∃ r,
    completions tr = [r]
    ∧ total r = Z.of_nat (length dirs)
    ∧ new r = Z.of_nat (length (filter (fun q => lookup_fails env tmdbApiKey tmdbProxy q = false)
                                  (lookups tr)))
    ∧ errors r = Z.of_nat (length (filter (fun q => lookup_fails env tmdbApiKey tmdbProxy q = true)
                                     (lookups tr)))
    ∧ new r + errors r = Z.of_nat (length (lookups tr))
    ∧ existing r = Z.of_nat (size (existing_folders env rootPath s)) + errors r.
Proof.
  intros Hcw Hlist' Hout tr. subst tr.
  pose proof (scan_listing_ok _ _ _ _ Hcw Hlist') as Hlist.
  destruct (performScan_completes env taskId url token rootPath tmdbApiKey tmdbProxy
              user password s dirs Hlist Hout)
    as (st & tl & Hloop & _ & _ & _ & Hcompl & _ & Hlook & _).
  destruct (scanLoop_counts env taskId tmdbApiKey tmdbProxy (Z.of_nat (length dirs))
              dirs 0 (mkLoopState (existing_folders env rootPath s) 0 0
                        (loop_clock env rootPath s))) as (Hn & He & Hs & _).
  rewrite Hloop in Hn, He, Hs. cbn [fst snd newCount errorCount entries] in Hn, He, Hs.
  eexists. split; [exact Hcompl|]. rewrite Hlook. cbn [total new errors existing].
  pose proof (filter_split_length (lookup_fails env tmdbApiKey tmdbProxy) (lookups tl)) as Hsplit.
  repeat split; lia.
Qed.

Lemma scan_summary_witness :
  ∃ r, completions (trace_of two_folders_run) = [r] ∧ existing r = 0 + errors r.
Proof.
  destruct (scan_summary two_folders_env "task-1" "http://openlist" "token" "/" "key"
              None None None initial_state
              [OpenList.mkItem "Inception (2010)" true;
               OpenList.mkItem "Unknown Junk Folder" true] eq_refl eq_refl eq_refl)
    as (r & H1 & _ & _ & _ & _ & H2).
  exists r. split; [exact H1 | exact H2].
Defined.

(** X9. A run that completes closes in this order: it writes the document to
    the database, reads it back, invalidates the cache entry of the root,
    sets it, saves the configuration, and only then completes the task.
    Afterwards the database and the cache hold that same document. *)
Theorem closing_order env taskId url token rootPath tmdbApiKey tmdbProxy
    user password s dirs :
  cached_without_folders s rootPath = false →
  listing env rootPath = Ok dirs →
  persist_outcome env = Ok tt →
  let scan := performScan env taskId url token rootPath tmdbApiKey tmdbProxy user password s in
  ∃ before doc config' r,
    trace_of scan
    = before ++ [ESetGlobalValue metainfo_key (Json doc); EGetGlobalValue metainfo_key;
                 EInvalidateCache rootPath; ESetCache rootPath; ESaveAdminConfig config';
                 ECompleteTask taskId r]
    ∧ store_writes before = [] ∧ completions before = [] ∧ failures before = []
    ∧ stored_document (state_of scan) = Some doc
    ∧ cached_document (state_of scan) rootPath = Some doc.
Proof.
  intros Hcw Hlist' Hout scan. subst scan.
  pose proof (scan_listing_ok _ _ _ _ Hcw Hlist') as Hlist.
  destruct (persist_outcome_ok_config env Hout) as (config & c & Hset & Hconfig & Hc & Hsave).
  destruct (performScan_completed_exact env taskId url token rootPath tmdbApiKey tmdbProxy
              user password s dirs config c Hlist Hset Hconfig Hc Hsave)
    as (l & h & st & tl & Hloop & Hrun).
  cbn zeta in Hrun. rewrite Hrun. unfold trace_of, state_of. cbn [fst snd].
  destruct (resolve_trace_silent s rootPath) as [(_ & Hrc & Hrf & _) Hrw].
  destruct (scanLoop_calls env taskId tmdbApiKey tmdbProxy (Z.of_nat (length dirs))
              dirs 0 (mkLoopState (existing_folders env rootPath s) 0 0
                        (loop_clock env rootPath s))) as (Hlc & Hlf & Hlw).
  rewrite Hloop in Hlc, Hlf, Hlw. cbn [snd] in Hlc, Hlf, Hlw.
  eexists _, _, _, _. split; [reflexivity|].
  split. { observe. by rewrite Hrw, Hlw. }
  split. { observe. by rewrite Hrc, Hlc. }
  split. { observe. by rewrite Hrf, Hlf. }
  split; [done|].
  unfold cached_document. cbn [cache heap]. by rewrite !lookup_insert_eq.
Qed.

Lemma closing_order_witness :
  ∃ doc, stored_document (state_of two_folders_run) = Some doc
         ∧ cached_document (state_of two_folders_run) "/" = Some doc.
Proof.
  destruct (closing_order two_folders_env "task-1" "http://openlist" "token" "/" "key"
              None None None initial_state
              [OpenList.mkItem "Inception (2010)" true;
               OpenList.mkItem "Unknown Junk Folder" true] eq_refl eq_refl eq_refl)
    as (before & doc & config' & r & _ & _ & _ & _ & H1 & H2).
  exists doc. split; [exact H1 | exact H2].
Defined.

(** X10. A run that completes saves the configuration it read with two
    fields renewed: [ResourceCount] is the number of entries of the document,
    failed ones included, and [LastRefreshTime] the clock reading that follows
    the one stored as [last_refresh], which itself follows those of the
    lookups; the URL, token, root path and the site settings are saved as
    read. *)
Theorem config_updated env taskId url token rootPath tmdbApiKey tmdbProxy
    user password s dirs config c :
  cached_without_folders s rootPath = false →
  listing env rootPath = Ok dirs →
  setGlobalValue_error env = None →
  getConfig env = Ok config →
  OpenListConfig_ config = Some c →
  saveAdminConfig_error env = None →
  let scan := performScan env taskId url token rootPath tmdbApiKey tmdbProxy user password s in
  ∃ es k,
    k = (loop_clock env rootPath s + length (lookups (trace_of scan)))%nat
    ∧ stored_document (state_of scan) = Some (mkMetaInfo (Some es) (now env k))
    ∧ admin_config (state_of scan)
      = Some (mkAdminConfig
                (Some (mkOpenListConfig (URL c) (Token c) (RootPath c) (now env (S k))
                         (Z.of_nat (size es))))
                (TMDBApiKey config) (TMDBProxy config)).
Proof.
  intros Hcw Hlist' Hset Hconfig Hc Hsave scan. subst scan.
  pose proof (scan_listing_ok _ _ _ _ Hcw Hlist') as Hlist.
  destruct (performScan_completed_exact env taskId url token rootPath tmdbApiKey tmdbProxy
              user password s dirs config c Hlist Hset Hconfig Hc Hsave)
    as (l & h & st & tl & Hloop & Hrun).
  destruct (performScan_loop_calls env taskId url token rootPath tmdbApiKey tmdbProxy
              user password s dirs st tl Hlist Hloop) as [Hlook _].
  rewrite Hlook. clear Hlook.
  destruct (scanLoop_counts env taskId tmdbApiKey tmdbProxy (Z.of_nat (length dirs))
              dirs 0 (mkLoopState (existing_folders env rootPath s) 0 0
                        (loop_clock env rootPath s))) as (_ & _ & _ & Hr).
  rewrite Hloop in Hr. cbn [fst snd readings] in Hr.
  cbn zeta in Hrun. rewrite Hrun. unfold state_of. cbn [fst snd].
  exists (entries st), (readings st). split; [done|]. by split.
Qed.

Lemma config_updated_witness :
  ∃ es k,
    stored_document (state_of two_folders_run)
    = Some (mkMetaInfo (Some es) (1000 + Z.of_nat k))
    ∧ admin_config (state_of two_folders_run)
      = Some (mkAdminConfig
                (Some (mkOpenListConfig "http://openlist" "token" "/" (1000 + Z.of_nat (S k))
                         (Z.of_nat (size es))))
                "key" None).
Proof.
  destruct (config_updated two_folders_env "task-1" "http://openlist" "token" "/" "key"
              None None None initial_state
              [OpenList.mkItem "Inception (2010)" true;
               OpenList.mkItem "Unknown Junk Folder" true]
              some_config (mkOpenListConfig "http://openlist" "token" "/" 0 0)
              eq_refl eq_refl eq_refl eq_refl eq_refl eq_refl)
    as (es & k & _ & H1 & H2).
  exists es, k. split; [exact H1 | exact H2].
Defined.

(** ** Runs that fail *)



(** X12. When the run gets to the listing and [listDirectory] itself throws,
    the run throws the same error: the task is failed once, with the message
    of the gateway's error, nothing is looked up, [db.setGlobalValue] is never
    called, and the stored value and the cache map are as before. *)
Theorem listing_throws env taskId url token rootPath tmdbApiKey tmdbProxy
    user password s m :
  cached_without_folders s rootPath = false →
  listDirectory env rootPath = Throw m →
  let scan := performScan env taskId url token rootPath tmdbApiKey tmdbProxy user password s in
  outcome_of scan = Throw m
  ∧ failures (trace_of scan) = [m]
  ∧ completions (trace_of scan) = []
  ∧ lookups (trace_of scan) = []
  ∧ store_writes (trace_of scan) = []
  ∧ metainfo_db (state_of scan) = metainfo_db s
  ∧ cache (state_of scan) = cache s.
Proof.
  intros Hcw Hthrow scan. subst scan.
  assert (scan_listing env rootPath s = Throw m) as Hlist.
  { unfold scan_listing, listing. by rewrite Hcw, Hthrow. }
  destruct (performScan_fails_early env taskId url token rootPath tmdbApiKey tmdbProxy
              user password s m Hlist)
    as (s1 & pre & -> & (_ & Hc & Hf & Hl & _) & Hw & Hdb & Hcache).
  unfold outcome_of, state_of, trace_of. cbn [fst snd].
  repeat split; try done; observe; by rewrite ?Hc, ?Hf, ?Hl, ?Hw.
Qed.

Lemma listing_throws_witness :
  failures
    (trace_of (performScan gateway_throws_env "task-7" "http://openlist" "token" "/" "key"
                 None None None initial_state))
  = ["OpenList API 错误: 502"].
Proof.
  destruct (listing_throws gateway_throws_env "task-7" "http://openlist" "token" "/" "key"
              None None None initial_state "OpenList API 错误: 502" eq_refl eq_refl)
    as (_ & H & _).
  exact H.
Defined.

(** X13. A stored value that cannot be used is no obstacle. With nothing
    cached for the root, if the database read throws, or the value is
    missing, does not parse, or parses to a document without [folders], the
    run starts from no entries: when it completes, the stored document has
    an entry for exactly the listed directories that are not named like a
    member of [Object.prototype]. *)
Theorem unusable_store_is_rebuilt env taskId url token rootPath tmdbApiKey tmdbProxy
    user password s dirs :
  cache s !! rootPath = None →
  is_Some (getGlobalValue_error env) ∨ stored_document s ≫= folders = None →
  listing env rootPath = Ok dirs →
  persist_outcome env = Ok tt →
  let scan := performScan env taskId url token rootPath tmdbApiKey tmdbProxy user password s in
  outcome_of scan = Ok tt
  ∧ ∃ es,
      stored_document (state_of scan) ≫= folders = Some es
      ∧ dom es
        = list_to_set (filter (fun q => inherited q = false) (OpenList.name <$> dirs)).
Proof.
  intros Hcache Hbad Hlist' Hout scan. subst scan.
  pose proof (scan_listing_ok _ _ _ _ (cache_miss_usable s rootPath Hcache) Hlist') as Hlist.
  assert (existing_folders env rootPath s = ∅) as Hexisting.
  { unfold existing_folders. rewrite Hcache.
    destruct Hbad as [[e ->] | Hbad]; [done|].
    destruct (getGlobalValue_error env); [done|].
    unfold stored_document in Hbad.
    destruct (metainfo_db s) as [[d|]|]; try done. simpl in Hbad. by rewrite Hbad. }
  destruct (performScan_completes env taskId url token rootPath tmdbApiKey tmdbProxy
              user password s dirs Hlist Hout)
    as (st & tl & Hloop & Hok & Hstored & _).
  split; [done|]. exists (entries st). rewrite Hstored. split; [done|].
  pose proof (scanLoop_dom env taskId tmdbApiKey tmdbProxy (Z.of_nat (length dirs))
                dirs 0 (mkLoopState (existing_folders env rootPath s) 0 0
                          (loop_clock env rootPath s))) as H.
  rewrite Hloop, Hexisting in H. cbn [fst entries] in H. rewrite H, dom_empty_L.
  set_solver.
Qed.

Lemma unusable_store_is_rebuilt_witness :
  outcome_of
    (performScan two_folders_env "task-8" "http://openlist" "token" "/" "key"
       None None None malformed_state) = Ok tt.
Proof.
  destruct (unusable_store_is_rebuilt two_folders_env "task-8" "http://openlist" "token" "/"
              "key" None None None malformed_state
              [OpenList.mkItem "Inception (2010)" true;
               OpenList.mkItem "Unknown Junk Folder" true])
    as (H & _); [reflexivity | right; reflexivity | reflexivity | reflexivity |].
  exact H.
Defined.

(** X14. Every run ends with exactly one terminal call to the registry: a
    run that returns completed the task once and never failed it; a run that
    throws failed the task once, with the message it throws, and never
    completed it. *)
Theorem one_terminal_call env taskId url token rootPath tmdbApiKey tmdbProxy
    user password s :
  let scan := performScan env taskId url token rootPath tmdbApiKey tmdbProxy user password s in
  match outcome_of scan with
  | Ok _ => length (completions (trace_of scan)) = 1%nat ∧ failures (trace_of scan) = []
  | Throw m => failures (trace_of scan) = [m] ∧ completions (trace_of scan) = []
  end.
Proof. apply performScan_terminal. Qed.

(** ** The refresh endpoint *)

Lemma silent_task_ids t : silent t → task_ids t = [].
Proof.
  intros (Hp & Hc & Hf & _). unfold task_ids, progress_updates, completions, failures in *.
  induction t as [|e t IH]; [done|].
  rewrite omap_cons_app in Hp. rewrite omap_cons_app in Hc. rewrite omap_cons_app in Hf.
  rewrite omap_cons_app.
  apply app_eq_nil in Hp as [Hp1 Hp]. apply app_eq_nil in Hc as [Hc1 Hc].
  apply app_eq_nil in Hf as [Hf1 Hf]. rewrite IH by done. by destruct e.
Qed.

(** A run reports to no task but its own. *)
Lemma performScan_task_ids env taskId url token rootPath tmdbApiKey tmdbProxy
    user password s id :
  id ∈ task_ids
         (trace_of (performScan env taskId url token rootPath tmdbApiKey tmdbProxy
                      user password s)) →
  id = taskId.
Proof.
  destruct (resolve_trace_silent s rootPath) as [Hrs _].
  apply silent_task_ids in Hrs.
  destruct (scan_listing env rootPath s) as [dirs|m] eqn:Hlist.
  - destruct (performScan_listed env taskId url token rootPath tmdbApiKey tmdbProxy
                user password s dirs Hlist)
      as (l & st & tl & s3 & t3 & Hloop & _ & Hrun & _ & _ & _ & _ & Hpost).
    cbn zeta in Hrun. rewrite Hrun. unfold trace_of. cbn [snd].
    pose proof (scanLoop_task_ids env taskId tmdbApiKey tmdbProxy (Z.of_nat (length dirs))
                  dirs 0 (mkLoopState (existing_folders env rootPath s) 0 0
                            (loop_clock env rootPath s))) as Hl.
    rewrite Hloop in Hl. cbn [snd] in Hl.
    unfold task_ids in *.
    repeat (rewrite omap_app || rewrite omap_cons_app). rewrite Hrs. cbn [from_option app].
    rewrite !elem_of_cons, !elem_of_app.
    intros [-> | [-> | [Hid | [Hid | [Hid | Hid]]]]]; try done.
    + by apply elem_of_nil in Hid.
    + by eapply Hl.
    + destruct (persist_outcome env).
      * destruct Hpost as (t' & -> & Ht'). apply silent_task_ids in Ht'.
        unfold task_ids in Ht'. rewrite omap_app, Ht' in Hid. simpl in Hid.
        by apply list_elem_of_singleton in Hid.
      * apply silent_task_ids in Hpost. unfold task_ids in Hpost. rewrite Hpost in Hid.
        by apply elem_of_nil in Hid.
    + destruct (persist_outcome env); simpl in Hid.
      * by apply elem_of_nil in Hid.
      * by apply list_elem_of_singleton in Hid.
  - destruct (performScan_fails_early env taskId url token rootPath tmdbApiKey tmdbProxy
                user password s m Hlist) as (s1 & pre & -> & Hpre & _).
    apply silent_task_ids in Hpre.
    unfold trace_of. cbn [snd]. unfold task_ids in *.
    repeat (rewrite omap_app || rewrite omap_cons_app). rewrite Hpre. simpl.
    rewrite !elem_of_cons. intros [-> | [-> | ?%elem_of_nil]]; done.
Qed.

Lemma startScan_run env taskId url token rootPath tmdbApiKey tmdbProxy user password s :
  startScan env taskId url token rootPath tmdbApiKey tmdbProxy user password s
  = match performScan env taskId url token rootPath tmdbApiKey tmdbProxy user password s with
    | (Ok a, s', t) => (Ok a, s', t)
    | (Throw m, s', t) => (Ok tt, s', t ++ [EFailTask taskId m])
    end.
Proof.
  unfold startScan, try_catch, emit.
  by destruct (performScan _ _ _ _ _ _ _ _ _ s) as [[[a|m] s'] t].
Qed.

Lemma background_started id t :
  background (CCleanupOldTasks :: CCreateScanTask id :: (CBackground <$> t)) = t
  ∧ created_tasks (CCleanupOldTasks :: CCreateScanTask id :: (CBackground <$> t)) = [id].
Proof.
  unfold background, created_tasks. rewrite !omap_cons_app. cbn [from_option app]. split.
  - induction t as [|e t IH]; [done|]. rewrite fmap_cons, omap_cons_app, IH. done.
  - f_equal. induction t as [|e t IH]; [done|]. rewrite fmap_cons, omap_cons_app, IH. done.
Qed.

(** [POST] when the request is accepted. *)
Lemma POST_accepted renv env s user config c :
  authInfo renv ≫= username = Some user →
  user ≠ EmptyString →
  getConfig env = Ok config →
  OpenListConfig_ config = Some c →
  URL c ≠ EmptyString →
  Token c ≠ EmptyString →
  TMDBApiKey config ≠ EmptyString →
  let started :=
    startScan env (createScanTask_id renv) (URL c) (Token c)
      (or_string (Some (RootPath c)) "/") (TMDBApiKey config) (TMDBProxy config)
      (openlist_username renv) (openlist_password renv) s in
  POST renv env s
  = (mkRefreshResponse 200 (RefreshStarted (createScanTask_id renv) "扫描任务已启动"),
     state_of started,
     CCleanupOldTasks :: CCreateScanTask (createScanTask_id renv)
       :: (CBackground <$> trace_of started)).
Proof.
  intros Hauth Huser Hconfig Hc Hurl Htoken Hkey started. subst started.
  unfold POST. rewrite Hauth, Hconfig, Hc.
  destruct user as [|u0 u]; [done|].
  destruct (URL c) as [|a1 a2] eqn:HU; [done|]. destruct (Token c) as [|b1 b2] eqn:HT; [done|].
  destruct (TMDBApiKey config) as [|k1 k2] eqn:HK; [done|].
  cbn [truthy andb].
  by destruct (startScan _ _ _ _ _ _ _ _ _ s) as [[o s'] t].
Qed.

(** X15. A refresh request that is not accepted has no effect: whenever
    [POST] answers with a status other than 200 (401 without a user name, 400
    without the OpenList or TMDB settings, 500 if the configuration cannot be
    read), the state is as before, no task was created and no scan was
    started. *)
Theorem post_rejects_without_effect renv env s :
  refresh_status (POST renv env s).1.1 ≠ 200 →
  (POST renv env s).1.2 = s
  ∧ (POST renv env s).2 = []
  ∧ (refresh_status (POST renv env s).1.1 = 401
     ∨ refresh_status (POST renv env s).1.1 = 400
     ∨ refresh_status (POST renv env s).1.1 = 500).
Proof.
  unfold POST.
  destruct (authInfo renv ≫= username) as [[|u0 u]|];
    try (intros _; cbn [fst snd refresh_status]; by auto).
  destruct (getConfig env) as [config|m];
    [|intros _; cbn [fst snd refresh_status]; by auto].
  destruct (OpenListConfig_ config) as [c|];
    [|intros _; cbn [fst snd refresh_status]; by auto].
  destruct (truthy (Some (URL c)) && truthy (Some (Token c)));
    [|intros _; cbn [fst snd refresh_status]; by auto].
  destruct (truthy (Some (TMDBApiKey config)));
    [|intros _; cbn [fst snd refresh_status]; by auto].
  destruct (startScan _ _ _ _ _ _ _ _ _ s) as [[o s'] t]. cbn [fst snd refresh_status]. done.
Qed.

Lemma post_rejects_without_effect_witness :
  POST anonymous_renv two_folders_env initial_state
  = (mkRefreshResponse 401 (RefreshError "未授权"), initial_state, []).
Proof.
  destruct (post_rejects_without_effect anonymous_renv two_folders_env initial_state)
    as (H1 & H2 & _); [simpl; lia|].
  reflexivity.
Defined.

(** X16. A refresh request of a user, with the OpenList URL and token and the
    TMDB key configured, is answered with status 200 and the id of the task
    it created, whatever becomes of the scan. [POST] cleans up old tasks,
    creates the task, and starts the scan, whose first call reports progress
    (0, 0) for that task and whose registry calls all go to that task. *)
Theorem post_starts_scan renv env s user config c :
  authInfo renv ≫= username = Some user →
  user ≠ EmptyString →
  getConfig env = Ok config →
  OpenListConfig_ config = Some c →
  URL c ≠ EmptyString →
  Token c ≠ EmptyString →
  TMDBApiKey config ≠ EmptyString →
  let id := createScanTask_id renv in
  (POST renv env s).1.1 = mkRefreshResponse 200 (RefreshStarted id "扫描任务已启动")
  ∧ take 2 (POST renv env s).2 = [CCleanupOldTasks; CCreateScanTask id]
  ∧ created_tasks (POST renv env s).2 = [id]
  ∧ head (background (POST renv env s).2) = Some (EUpdateProgress id 0 0 None)
  ∧ ∀ id', id' ∈ task_ids (background (POST renv env s).2) → id' = id.
Proof.
  intros Hauth Huser Hconfig Hc Hurl Htoken Hkey id. subst id.
  rewrite (POST_accepted renv env s user config c) by done.
  cbn [fst snd].
  destruct (background_started (createScanTask_id renv)
              (trace_of (startScan env (createScanTask_id renv) (URL c) (Token c)
                           (or_string (Some (RootPath c)) "/") (TMDBApiKey config)
                           (TMDBProxy config) (openlist_username renv)
                           (openlist_password renv) s))) as [-> ->].
  split; [done|]. split; [done|]. split; [done|].
  rewrite startScan_run.
  pose proof (performScan_task_ids env (createScanTask_id renv) (URL c) (Token c)
                (or_string (Some (RootPath c)) "/") (TMDBApiKey config) (TMDBProxy config)
                (openlist_username renv) (openlist_password renv) s) as Hids.
  assert (∃ rest,
            trace_of (performScan env (createScanTask_id renv) (URL c) (Token c)
                        (or_string (Some (RootPath c)) "/") (TMDBApiKey config)
                        (TMDBProxy config) (openlist_username renv)
                        (openlist_password renv) s)
            = EUpdateProgress (createScanTask_id renv) 0 0 None :: rest) as [rest Hhead].
  { unfold performScan, bind, try_catch, emit, trace_of. cbn [fst snd].
    match goal with |- context [match ?x with _ => _ end] => destruct x as [[[a|m] s1] t1] end;
      [by eexists|].
    cbn [fst snd]. by eexists. }
  destruct (performScan _ _ _ _ _ _ _ _ _ s) as [[[a|m] s'] t];
    unfold trace_of in *; cbn [fst snd] in *; subst t; (split; [done|]).
  - done.
  - intros id'. unfold task_ids in *. rewrite omap_app, elem_of_app.
    intros [Hid | Hid]; [by apply Hids|]. simpl in Hid.
    by apply list_elem_of_singleton in Hid.
Qed.

Lemma post_starts_scan_witness :
  (POST admin_renv two_folders_env initial_state).1.1
  = mkRefreshResponse 200 (RefreshStarted "task-9" "扫描任务已启动")
  ∧ created_tasks (POST admin_renv two_folders_env initial_state).2 = ["task-9"].
Proof.
  destruct (post_starts_scan admin_renv two_folders_env initial_state "admin" some_config
              (mkOpenListConfig "http://openlist" "token" "/" 0 0)
              eq_refl ltac:(discriminate) eq_refl eq_refl ltac:(discriminate)
              ltac:(discriminate) ltac:(discriminate))
    as (H1 & _ & H2 & _).
  split; [exact H1 | exact H2].
Defined.

(** X17. A scan that fails does so behind a successful answer, and is
    reported twice: when the scan a request started throws, [POST] has still
    answered 200 with the task id, and [failScanTask] is called two times with
    the same message, once by the scan itself and once by the handler [POST]
    attached to it; the task is never completed. *)
Theorem scan_failure_behind_success renv env s user config c m :
  authInfo renv ≫= username = Some user →
  user ≠ EmptyString →
  getConfig env = Ok config →
  OpenListConfig_ config = Some c →
  URL c ≠ EmptyString →
  Token c ≠ EmptyString →
  TMDBApiKey config ≠ EmptyString →
  outcome_of
    (performScan env (createScanTask_id renv) (URL c) (Token c)
       (or_string (Some (RootPath c)) "/") (TMDBApiKey config) (TMDBProxy config)
       (openlist_username renv) (openlist_password renv) s) = Throw m →
  refresh_status (POST renv env s).1.1 = 200
  ∧ refresh_body (POST renv env s).1.1
    = RefreshStarted (createScanTask_id renv) "扫描任务已启动"
  ∧ failures (background (POST renv env s).2) = [m; m]
  ∧ completions (background (POST renv env s).2) = [].
Proof.
  intros Hauth Huser Hconfig Hc Hurl Htoken Hkey Hthrow.
  rewrite (POST_accepted renv env s user config c) by done.
  cbn [fst snd refresh_status refresh_body].
  destruct (background_started (createScanTask_id renv)
              (trace_of (startScan env (createScanTask_id renv) (URL c) (Token c)
                           (or_string (Some (RootPath c)) "/") (TMDBApiKey config)
                           (TMDBProxy config) (openlist_username renv)
                           (openlist_password renv) s))) as [-> _].
  split; [done|]. split; [done|].
  rewrite startScan_run.
  pose proof (performScan_terminal env (createScanTask_id renv) (URL c) (Token c)
                (or_string (Some (RootPath c)) "/") (TMDBApiKey config) (TMDBProxy config)
                (openlist_username renv) (openlist_password renv) s) as Hterm.
  cbn zeta in Hterm. rewrite Hthrow in Hterm. destruct Hterm as [Hf Hc'].
  destruct (performScan _ _ _ _ _ _ _ _ _ s) as [[[a|m'] s'] t];
    unfold outcome_of, trace_of in *; cbn [fst snd] in *; [done|].
  injection Hthrow as ->.
  unfold failures, completions in *. rewrite !omap_app, Hf, Hc'. done.
Qed.

Lemma scan_failure_behind_success_witness :
  refresh_status (POST admin_renv gateway_down_env initial_state).1.1 = 200
  ∧ failures (background (POST admin_renv gateway_down_env initial_state).2)
    = [listing_failed; listing_failed].
Proof.
  destruct (scan_failure_behind_success admin_renv gateway_down_env initial_state "admin"
              some_config (mkOpenListConfig "http://openlist" "token" "/" 0 0) listing_failed
              eq_refl ltac:(discriminate) eq_refl eq_refl ltac:(discriminate)
              ltac:(discriminate) ltac:(discriminate) eq_refl)
    as (H1 & _ & H2 & _).
  split; [exact H1 | exact H2].
Defined.

(** ** The detail endpoint, further *)

(** Step 1 of the [openlist] branch, with everything it does. *)
Lemma readMetaInfo_full env rootPath s :
  ∃ o s' t,
    readMetaInfo env rootPath s = (Ok o, s', t)
    ∧ o ≫= (fun l => heap s' !! l) = visible_metainfo env rootPath s
    ∧ metainfo_db s' = metainfo_db s
    ∧ admin_config s' = admin_config s
    ∧ silent t ∧ store_writes t = [] ∧ fetches t = []
    ∧ store_reads t = match cache s !! rootPath with Some _ => [] | None => [metainfo_key] end
    ∧ (is_Some (cache s !! rootPath) → s' = s)
    ∧ (∀ d, cache s !! rootPath = None → visible_metainfo env rootPath s = Some d →
            cached_document s' rootPath = Some d).
Proof.
  unfold readMetaInfo, visible_metainfo, try_catch, bind, getCachedMetaInfo. simpl.
  destruct (cache s !! rootPath) as [l|] eqn:Hc; simpl.
  { eexists _, _, _. split; [done|]. repeat split; try done; try (by intros []). }
  unfold db_getGlobalValue. destruct (getGlobalValue_error env); simpl.
  { eexists _, _, _. split; [done|]. repeat split; try done; try (by intros []). }
  destruct (metainfo_db s) as [[d|]|] eqn:Hdb; simpl; eexists _, _, _; (split; [done|]);
    simpl; repeat split; try done; try (by intros []).
  - apply lookup_insert_eq.
  - intros d' _ [= <-]. unfold cached_document. simpl. by rewrite !lookup_insert_eq.
Qed.

(** The [openlist] branch when the configuration is complete and the folder
    listing is fetched. *)
Lemma openlistDetail_ok denv env request id s config c fr data :
  getConfig env = Ok config →
  OpenListConfig_ config = Some c →
  URL c ≠ EmptyString →
  Token c ≠ EmptyString →
  fetch denv (detail_url request id) (or_string (header_cookie request) EmptyString) = Ok fr →
  ok fr = true →
  json fr = Ok data →
  success data = true →
  ∃ o s' t,
    readMetaInfo env (or_string (Some (RootPath c)) "/") s = (Ok o, s', t)
    ∧ openlistDetail denv env request id s
      = (Ok (mkResponse 200
               (DetailBody (assemble denv (folderMeta_of (o ≫= (fun l => heap s' !! l)) id) data))
               []),
         s', t ++ [EFetch (detail_url request id)]).
Proof.
  intros Hconfig Hc Hurl Htoken Hfetch Hok Hjson Hsuccess.
  destruct (readMetaInfo_full env (or_string (Some (RootPath c)) "/") s)
    as (o & s' & t & Hread & _).
  exists o, s', t. split; [done|].
  unfold openlistDetail, try_catch, bind, lift, emit, get_state, throw, ret.
  rewrite Hconfig. cbn beta iota. rewrite Hc. cbn beta iota.
  destruct (URL c) as [|u1 u2]; [done|]. destruct (Token c) as [|t1 t2]; [done|].
  cbn [truthy andb]. cbn beta iota. rewrite Hread. cbn beta iota.
  rewrite Hfetch. cbn beta iota. rewrite Hok. cbn beta iota. rewrite Hjson. cbn beta iota.
  rewrite Hsuccess. cbn beta iota. unfold json_response. by rewrite !app_nil_r.
Qed.

Lemma GET_openlist denv env request s user id :
  getAuthInfoFromCookie denv request ≫= username = Some user →
  user ≠ EmptyString →
  param_id request = Some id →
  id ≠ EmptyString →
  param_source request = Some "openlist" →
  GET denv env request s = openlistDetail denv env request id s.
Proof.
  intros Hauth Huser Hid Hid' Hsource. unfold GET. rewrite Hauth, Hid, Hsource.
  destruct user as [|u0 u]; [done|]. by destruct id as [|i0 i].
Qed.

Lemma or_string_nonempty a b : a ≠ EmptyString → or_string (Some a) b = a.
Proof. by destruct a. Qed.

Lemma or_string_empty_default a : or_string (Some a) EmptyString = a.
Proof. by destruct a. Qed.

(** The record of a folder whose entry the endpoint sees. *)
Lemma detail_of_entry denv env request s user id config c fr data d es e :
  getAuthInfoFromCookie denv request ≫= username = Some user →
  user ≠ EmptyString →
  param_id request = Some id →
  id ≠ EmptyString →
  param_source request = Some "openlist" →
  getConfig env = Ok config →
  OpenListConfig_ config = Some c →
  URL c ≠ EmptyString →
  Token c ≠ EmptyString →
  fetch denv (detail_url request id) (or_string (header_cookie request) EmptyString) = Ok fr →
  ok fr = true →
  json fr = Ok data →
  success data = true →
  visible_metainfo env (or_string (Some (RootPath c)) "/") s = Some d →
  folders d = Some es →
  es !! id = Some e →
  ∃ r,
    outcome_of (GET denv env request s) = Ok (mkResponse 200 (DetailBody r) [])
    ∧ Detail.title r = or_string (Some (title e)) (folder data)
    ∧ Detail.poster r
      = match poster_path e with
        | Some (String a b) => getTMDBImageUrl denv (String a b)
        | _ => EmptyString
        end
    ∧ Detail.year r = before_dash (release_date e)
    ∧ Detail.desc r = overview e
    ∧ store_reads (trace_of (GET denv env request s))
      = match cache s !! or_string (Some (RootPath c)) "/" with
        | Some _ => []
        | None => [metainfo_key]
        end.
Proof.
  intros Hauth Huser Hid Hid' Hsource Hconfig Hc Hurl Htoken Hfetch Hok Hjson Hsuccess
    Hvisible Hfolders Hentry.
  rewrite (GET_openlist denv env request s user id) by done.
  destruct (openlistDetail_ok denv env request id s config c fr data)
    as (o & s' & t & Hread & ->); try done.
  destruct (readMetaInfo_full env (or_string (Some (RootPath c)) "/") s)
    as (o' & s'' & t' & Hread' & Hsees & _ & _ & _ & _ & _ & Hreads & _).
  rewrite Hread in Hread'. injection Hread' as <- <- <-.
  rewrite Hsees, Hvisible. unfold folderMeta_of. rewrite Hfolders, Hentry.
  unfold outcome_of, trace_of. cbn [fst snd].
  eexists. split; [reflexivity|]. cbn [assemble Detail.title Detail.poster Detail.year
    Detail.desc fmap option_fmap option_map mbind option_bind].
  split; [done|]. split; [done|].
  split. { by destruct (release_date e). }
  split. { apply or_string_empty_default. }
  unfold store_reads in *. rewrite omap_app, Hreads. simpl. by rewrite app_nil_r.
Qed.

(** The [openlist] branch with a complete configuration: the metadata is
    read first, and whatever follows does not read the database. *)
Lemma openlistDetail_configured denv env request id s config c :
  getConfig env = Ok config →
  OpenListConfig_ config = Some c →
  URL c ≠ EmptyString →
  Token c ≠ EmptyString →
  ∃ resp o s' t1 t2,
    readMetaInfo env (or_string (Some (RootPath c)) "/") s = (Ok o, s', t1)
    ∧ openlistDetail denv env request id s = (Ok resp, s', t1 ++ t2)
    ∧ store_reads t2 = [].
Proof.
  intros Hconfig Hc Hurl Htoken.
  destruct (readMetaInfo_full env (or_string (Some (RootPath c)) "/") s)
    as (o & s' & t & Hread & _).
  unfold openlistDetail, try_catch, bind, lift, emit, get_state, throw, ret.
  rewrite Hconfig. cbn beta iota. rewrite Hc. cbn beta iota.
  destruct (URL c) as [|u1 u2]; [done|]. destruct (Token c) as [|t1 t2]; [done|].
  cbn [truthy andb]. cbn beta iota. rewrite Hread. cbn beta iota.
  destruct (fetch denv _ _) as [fr|m]; cbn beta iota.
  2: { rewrite ?app_nil_r. eexists _, _, _, _, _. split; [done|]. split; [reflexivity|done]. }
  destruct (ok fr); cbn beta iota.
  2: { rewrite ?app_nil_r. eexists _, _, _, _, _. split; [done|]. split; [reflexivity|done]. }
  destruct (json fr) as [data|m]; cbn beta iota.
  2: { rewrite ?app_nil_r. eexists _, _, _, _, _. split; [done|]. split; [reflexivity|done]. }
  destruct (success data); cbn beta iota;
    rewrite ?app_nil_r; eexists _, _, _, _, _; (split; [done|]); (split; [reflexivity|done]).
Qed.

(** The [openlist] branch never throws, writes nothing to the database and
    calls neither the registry nor the catalog. *)
Lemma openlistDetail_frame denv env request id s :
  ∃ resp s' t,
    openlistDetail denv env request id s = (Ok resp, s', t)
    ∧ (status_code resp = 200 ∨ status_code resp = 500)
    ∧ metainfo_db s' = metainfo_db s
    ∧ admin_config s' = admin_config s
    ∧ silent t ∧ store_writes t = [].
Proof.
  destruct (getConfig env) as [config|m] eqn:Hconfig.
  2: { unfold openlistDetail, try_catch, bind, lift. rewrite Hconfig. cbn beta iota.
       eexists _, _, _. split; [reflexivity|]. repeat split; auto. }
  destruct (OpenListConfig_ config) as [c|] eqn:Hc.
  2: { unfold openlistDetail, try_catch, bind, lift, throw. rewrite Hconfig. cbn beta iota.
       rewrite Hc. cbn beta iota.
       eexists _, _, _. split; [reflexivity|]. repeat split; auto. }
  destruct (URL c) as [|u1 u2] eqn:Hurl.
  { unfold openlistDetail, try_catch, bind, lift, throw. rewrite Hconfig. cbn beta iota.
    rewrite Hc, Hurl. cbn beta iota. cbn [truthy andb]. cbn beta iota.
    eexists _, _, _. split; [reflexivity|]. repeat split; auto. }
  destruct (Token c) as [|t1 t2] eqn:Htoken.
  { unfold openlistDetail, try_catch, bind, lift, throw. rewrite Hconfig. cbn beta iota.
    rewrite Hc, Hurl, Htoken. cbn beta iota. cbn [truthy andb]. cbn beta iota.
    eexists _, _, _. split; [reflexivity|]. repeat split; auto. }
  destruct (readMetaInfo_full env (or_string (Some (RootPath c)) "/") s)
    as (o & s' & t & Hread & _ & Hdb & Hadmin & Hsilent & Hwrites & _).
  unfold openlistDetail, try_catch, bind, lift, emit, get_state, throw, ret.
  rewrite Hconfig. cbn beta iota. rewrite Hc, Hurl, Htoken. cbn beta iota.
  cbn [truthy andb]. cbn beta iota. rewrite Hread. cbn beta iota.
  assert (∀ extra, silent extra → store_writes extra = [] →
            silent (t ++ extra) ∧ store_writes (t ++ extra) = []) as Happ.
  { intros extra He Hw. unfold_observers. rewrite !omap_app.
    destruct Hsilent as (-> & -> & -> & -> & ->), He as (-> & -> & -> & -> & ->).
    by rewrite Hwrites, Hw. }
  destruct (fetch denv _ _) as [fr|m]; cbn beta iota.
  2: { rewrite ?app_nil_r. eexists _, _, _. split; [reflexivity|].
       destruct (Happ [EFetch (detail_url request id)]) as [? ?]; [by repeat split|done|].
       split; [auto|]. split; [done|]. split; [done|]. split; assumption. }
  destruct (ok fr); cbn beta iota.
  2: { rewrite ?app_nil_r. eexists _, _, _. split; [reflexivity|].
       destruct (Happ [EFetch (detail_url request id)]) as [? ?]; [by repeat split|done|].
       split; [auto|]. split; [done|]. split; [done|]. split; assumption. }
  destruct (json fr) as [data|m]; cbn beta iota.
  2: { rewrite ?app_nil_r. eexists _, _, _. split; [reflexivity|].
       destruct (Happ [EFetch (detail_url request id)]) as [? ?]; [by repeat split|done|].
       split; [auto|]. split; [done|]. split; [done|]. split; assumption. }
  destruct (success data); cbn beta iota; rewrite ?app_nil_r;
    eexists _, _, _; (split; [reflexivity|]);
    (destruct (Happ [EFetch (detail_url request id)]) as [? ?]; [by repeat split|done|]);
    (split; [auto|]); (split; [done|]); (split; [done|]); split; assumption.
Qed.

(** The ordinary sources never throw, and touch neither the state nor the
    trace. *)
Lemma apiDetail_frame denv user sourceCode id s :
  ∃ resp,
    apiDetail denv user sourceCode id s = (Ok resp, s, [])
    ∧ (status_code resp = 200 ∨ status_code resp = 400 ∨ status_code resp = 500).
Proof.
  unfold apiDetail, try_catch, bind, lift, ret.
  destruct (getAvailableApiSites denv user) as [sites|m]; cbn beta iota;
    [|eexists; split; [reflexivity|auto]].
  destruct (find _ sites) as [site|]; cbn beta iota; [|eexists; split; [reflexivity|auto]].
  destruct (getDetailFromApi denv site id) as [payload|m]; cbn beta iota;
    [|eexists; split; [reflexivity|auto]].
  destruct (getCacheTime denv) as [t|m]; cbn beta iota; eexists; (split; [reflexivity|auto]).
Qed.

(** X18. The detail of a folder with an entry. When the document the
    endpoint sees has an entry for the folder, the record takes its title
    from the entry (from the folder name only if the entry's title is empty),
    its year as the release date up to the first dash, its description as the
    overview, and its poster through [getTMDBImageUrl] if the entry has a
    poster path; the database is read only if nothing was cached for the
    root. *)
Theorem detail_with_metadata denv env request s user id config c fr data d es e :
  getAuthInfoFromCookie denv request ≫= username = Some user →
  user ≠ EmptyString →
  param_id request = Some id →
  id ≠ EmptyString →
  param_source request = Some "openlist" →
  getConfig env = Ok config →
  OpenListConfig_ config = Some c →
  URL c ≠ EmptyString →
  Token c ≠ EmptyString →
  fetch denv (detail_url request id) (or_string (header_cookie request) EmptyString) = Ok fr →
  ok fr = true →
  json fr = Ok data →
  success data = true →
  visible_metainfo env (or_string (Some (RootPath c)) "/") s = Some d →
  folders d = Some es →
  es !! id = Some e →
  ∃ r,
    outcome_of (GET denv env request s) = Ok (mkResponse 200 (DetailBody r) [])
    ∧ Detail.title r = or_string (Some (title e)) (folder data)
    ∧ Detail.poster r
      = match poster_path e with
        | Some (String a b) => getTMDBImageUrl denv (String a b)
        | _ => EmptyString
        end
    ∧ Detail.year r = before_dash (release_date e)
    ∧ Detail.desc r = overview e
    ∧ store_reads (trace_of (GET denv env request s))
      = match cache s !! or_string (Some (RootPath c)) "/" with
        | Some _ => []
        | None => [metainfo_key]
        end.
Proof. apply detail_of_entry. Qed.

Lemma detail_with_metadata_witness :
  ∃ r,
    outcome_of (GET inception_denv two_folders_env inception_request restarted_state)
    = Ok (mkResponse 200 (DetailBody r) [])
    ∧ Detail.title r = "盗梦空间"
    ∧ Detail.year r = "2010".
Proof.
  assert (∃ d es e,
            visible_metainfo two_folders_env "/" restarted_state = Some d
            ∧ folders d = Some es ∧ es !! "Inception (2010)" = Some e
            ∧ title e = "盗梦空间" ∧ release_date e = "2010-07-15")
    as (d & es & e & Hd & Hes & He & Htitle & Hdate).
  { vm_compute. eexists _, _, _. repeat split; reflexivity. }
  destruct (detail_with_metadata inception_denv two_folders_env inception_request
              restarted_state "alice" "Inception (2010)" some_config
              (mkOpenListConfig "http://openlist" "token" "/" 0 0)
              (mkFetchResponse true (Ok inception_data)) inception_data d es e
              eq_refl ltac:(discriminate) eq_refl ltac:(discriminate) eq_refl eq_refl eq_refl
              ltac:(discriminate) ltac:(discriminate) eq_refl eq_refl eq_refl eq_refl
              Hd Hes He)
    as (r & H1 & H2 & _ & H3 & _).
  exists r. split; [exact H1|]. rewrite H2, H3, Htitle, Hdate. split; reflexivity.
Defined.

Lemma cached_is_visible env rootPath s d :
  cached_document s rootPath = Some d →
  visible_metainfo env rootPath s = Some d ∧ is_Some (cache s !! rootPath).
Proof.
  unfold cached_document, visible_metainfo.
  destruct (cache s !! rootPath) as [l|]; [|done]. intros ->. split; [done | by eexists].
Qed.

(** X19. Scan, then detail. After a run that completed, a detail request
    for a listed folder that did not pass the already-exists test (it had no
    entry, and is not named like a member of [Object.prototype]) and for which
    the catalog had a match is served from the cache, without reading the
    database, and shows the match: the catalog's title (else its name, else
    the folder name), its overview, and the year of its release date (else of
    its first air date). *)
Theorem scan_then_detail env taskId url token rootPath tmdbApiKey tmdbProxy user password s
    dirs q searchResult found denv env' request reader config c fr data :
  cached_without_folders s rootPath = false →
  listing env rootPath = Ok dirs →
  persist_outcome env = Ok tt →
  q ∈ OpenList.name <$> dirs →
  q ≠ EmptyString →
  existing_folders env rootPath s !! q = None →
  inherited q = false →
  searchTMDB env tmdbApiKey q tmdbProxy = Ok searchResult →
  matched searchResult = Some found →
  getAuthInfoFromCookie denv request ≫= username = Some reader →
  reader ≠ EmptyString →
  param_id request = Some q →
  param_source request = Some "openlist" →
  getConfig env' = Ok config →
  OpenListConfig_ config = Some c →
  URL c ≠ EmptyString →
  Token c ≠ EmptyString →
  or_string (Some (RootPath c)) "/" = rootPath →
  fetch denv (detail_url request q) (or_string (header_cookie request) EmptyString) = Ok fr →
  ok fr = true →
  json fr = Ok data →
  success data = true →
  let scanned :=
    state_of (performScan env taskId url token rootPath tmdbApiKey tmdbProxy user password s) in
  ∃ r,
    outcome_of (GET denv env' request scanned) = Ok (mkResponse 200 (DetailBody r) [])
    ∧ Detail.title r = or_string (TMDB.title found) (or_string (TMDB.name found) q)
    ∧ Detail.desc r = TMDB.overview found
    ∧ Detail.year r
      = before_dash (or_string (TMDB.release_date found)
                       (or_string (TMDB.first_air_date found) EmptyString))
    ∧ store_reads (trace_of (GET denv env' request scanned)) = [].
Proof.
  intros Hcw Hlist' Hout Hq Hq' Hnew Hinh Hsearch Hmatch Hauth Hreader Hid Hsource Hconfig Hc
    Hurl Htoken Hroot Hfetch Hok Hjson Hsuccess scanned. subst scanned rootPath.
  set (rootPath := or_string (Some (RootPath c)) "/") in *.
  pose proof (scan_listing_ok _ _ _ _ Hcw Hlist') as Hlist.
  destruct (performScan_completes env taskId url token rootPath tmdbApiKey tmdbProxy
              user password s dirs Hlist Hout)
    as (st & tl & Hloop & _ & _ & Hcached & _).
  destruct (scanLoop_lookups env taskId tmdbApiKey tmdbProxy (Z.of_nat (length dirs))
              dirs 0 (mkLoopState (existing_folders env rootPath s) 0 0
                        (loop_clock env rootPath s))) as [_ Hiff].
  destruct (scanLoop_merge env taskId tmdbApiKey tmdbProxy (Z.of_nat (length dirs))
              dirs 0 (mkLoopState (existing_folders env rootPath s) 0 0
                        (loop_clock env rootPath s))) as (_ & _ & Hwritten).
  rewrite Hloop in Hiff, Hwritten. cbn [fst snd entries readings] in Hiff, Hwritten.
  assert (q ∈ lookups tl) as [j Hentry%Hwritten]%list_elem_of_lookup.
  { apply Hiff. split; [done|]. by apply has_entry_false. }
  unfold written_entry in Hentry. rewrite Hsearch, Hmatch in Hentry.
  destruct (cached_is_visible env' rootPath _ _ Hcached) as [Hvisible [l Hhit]].
  destruct (detail_of_entry denv env' request _ reader q config c fr data _ _ _
              Hauth Hreader Hid Hq' Hsource Hconfig Hc Hurl Htoken Hfetch Hok Hjson Hsuccess
              Hvisible eq_refl Hentry)
    as (r & H1 & H2 & _ & H3 & H4 & H5).
  exists r. split; [exact H1|]. fold rootPath in H5. rewrite H2, H3, H4, H5, Hhit.
  cbn [resolved_entry title release_date overview].
  split; [|done]. apply or_string_nonempty.
  destruct (TMDB.title found) as [[|a b]|]; try done;
    destruct (TMDB.name found) as [[|a' b']|]; done.
Qed.

Lemma scan_then_detail_witness :
  ∃ r,
    outcome_of (GET inception_denv two_folders_env inception_request (state_of two_folders_run))
    = Ok (mkResponse 200 (DetailBody r) [])
    ∧ Detail.title r = "盗梦空间"
    ∧ store_reads
        (trace_of (GET inception_denv two_folders_env inception_request
                     (state_of two_folders_run))) = [].
Proof.
  destruct (scan_then_detail two_folders_env "task-1" "http://openlist" "token" "/" "key"
              None None None initial_state
              [OpenList.mkItem "Inception (2010)" true;
               OpenList.mkItem "Unknown Junk Folder" true]
              "Inception (2010)" (TMDB.mkResponse 200 (Some inception)) inception
              inception_denv two_folders_env inception_request "alice" some_config
              (mkOpenListConfig "http://openlist" "token" "/" 0 0)
              (mkFetchResponse true (Ok inception_data)) inception_data
              eq_refl eq_refl eq_refl ltac:(left) ltac:(discriminate) eq_refl eq_refl
              eq_refl eq_refl
              eq_refl ltac:(discriminate) eq_refl eq_refl eq_refl eq_refl
              ltac:(discriminate) ltac:(discriminate) eq_refl eq_refl eq_refl eq_refl eq_refl)
    as (r & H1 & H2 & _ & _ & H3).
  exists r. split; [exact H1|]. split; [exact H2 | exact H3].
Defined.

(** X20. The first detail request after a restart warms the cache. With
    nothing cached for the root and a readable stored document, an [openlist]
    request with a complete configuration reads the database once and leaves
    the stored document in the cache, whatever becomes of the rest of the
    request; the same request made again does not read the database. *)
Theorem detail_warms_cache denv env request s user id config c d :
  getAuthInfoFromCookie denv request ≫= username = Some user →
  user ≠ EmptyString →
  param_id request = Some id →
  id ≠ EmptyString →
  param_source request = Some "openlist" →
  getConfig env = Ok config →
  OpenListConfig_ config = Some c →
  URL c ≠ EmptyString →
  Token c ≠ EmptyString →
  cache s !! or_string (Some (RootPath c)) "/" = None →
  getGlobalValue_error env = None →
  metainfo_db s = Some (Json d) →
  let first := GET denv env request s in
  store_reads (trace_of first) = [metainfo_key]
  ∧ cached_document (state_of first) (or_string (Some (RootPath c)) "/") = Some d
  ∧ metainfo_db (state_of first) = metainfo_db s
  ∧ store_reads (trace_of (GET denv env request (state_of first))) = [].
Proof.
  intros Hauth Huser Hid Hid' Hsource Hconfig Hc Hurl Htoken Hmiss Hread Hdb first.
  subst first. set (rootPath := or_string (Some (RootPath c)) "/") in *.
  rewrite !(GET_openlist denv env request _ user id) by done.
  destruct (openlistDetail_configured denv env request id s config c Hconfig Hc Hurl Htoken)
    as (resp & o & s' & t1 & t2 & Hr1 & -> & Ht2).
  destruct (readMetaInfo_full env rootPath s)
    as (o' & s'' & t' & Hr1' & _ & Hdb' & _ & _ & _ & _ & Hreads & _ & Hwarm).
  fold rootPath in Hr1. rewrite Hr1 in Hr1'. injection Hr1' as <- <- <-.
  rewrite Hmiss in Hreads.
  assert (cached_document s' rootPath = Some d) as Hcached.
  { apply Hwarm; [done|]. unfold visible_metainfo. by rewrite Hmiss, Hread, Hdb. }
  unfold trace_of, state_of. cbn [fst snd].
  split. { unfold store_reads in *. by rewrite omap_app, Hreads, Ht2. }
  split; [done|]. split; [done|].
  destruct (openlistDetail_configured denv env request id s' config c Hconfig Hc Hurl Htoken)
    as (resp2 & o2 & s2 & u1 & u2 & Hr2 & -> & Hu2).
  destruct (readMetaInfo_full env rootPath s')
    as (o2' & s2' & u' & Hr2' & _ & _ & _ & _ & _ & _ & Hreads2 & _).
  fold rootPath in Hr2. rewrite Hr2 in Hr2'. injection Hr2' as <- <- <-.
  destruct (cached_is_visible env rootPath s' d Hcached) as [_ [l Hhit]].
  rewrite Hhit in Hreads2. cbn [snd].
  unfold store_reads in *. by rewrite omap_app, Hreads2, Hu2.
Qed.

Lemma detail_warms_cache_witness :
  store_reads (trace_of (GET inception_denv two_folders_env inception_request restarted_state))
  = [metainfo_key]
  ∧ store_reads
      (trace_of
         (GET inception_denv two_folders_env inception_request
            (state_of (GET inception_denv two_folders_env inception_request restarted_state))))
    = [].
Proof.
  assert (∃ d, metainfo_db restarted_state = Some (Json d)) as [d Hd].
  { vm_compute. by eexists. }
  destruct (detail_warms_cache inception_denv two_folders_env inception_request
              restarted_state "alice" "Inception (2010)" some_config
              (mkOpenListConfig "http://openlist" "token" "/" 0 0) d
              eq_refl ltac:(discriminate) eq_refl ltac:(discriminate) eq_refl eq_refl eq_refl
              ltac:(discriminate) ltac:(discriminate) eq_refl eq_refl Hd)
    as (H1 & _ & _ & H2).
  split; [exact H1 | exact H2].
Defined.

(** X21. The detail endpoint always answers: [GET] never throws, its status
    is 200, 400, 401 or 500, and 401 exactly when the request carries no user
    name. It never writes the stored document or the configuration, and
    calls neither the scan-task registry nor the catalog. *)
Theorem detail_always_answers denv env request s :
  ∃ resp,
    outcome_of (GET denv env request s) = Ok resp
    ∧ status_code resp ∈ [200; 400; 401; 500]
    ∧ (status_code resp = 401
       ↔ truthy (getAuthInfoFromCookie denv request ≫= username) = false)
    ∧ metainfo_db (state_of (GET denv env request s)) = metainfo_db s
    ∧ admin_config (state_of (GET denv env request s)) = admin_config s
    ∧ silent (trace_of (GET denv env request s))
    ∧ store_writes (trace_of (GET denv env request s)) = [].
Proof.
  unfold GET.
  destruct (getAuthInfoFromCookie denv request ≫= username) as [[|u0 u]|]; cbn [truthy].
  1, 3: (eexists; split; [reflexivity|]; cbn [status_code json_response];
         split; [set_solver|]; by repeat split).
  destruct (param_id request) as [[|i0 i]|], (param_source request) as [[|c0 c]|];
    try (eexists; split; [reflexivity|]; cbn [status_code json_response];
         split; [set_solver|]; by repeat split).
  destruct (String.eqb (String c0 c) "openlist").
  - destruct (openlistDetail_frame denv env request (String i0 i) s)
      as (resp & s' & t & -> & Hst & Hdb & Hadmin & Hsilent & Hwrites).
    exists resp. unfold outcome_of, state_of, trace_of. cbn [fst snd].
    split; [done|]. split; [destruct Hst as [-> | ->]; set_solver|].
    split; [destruct Hst as [-> | ->]; done|]. done.
  - destruct (negb (valid_id (String i0 i))).
    + eexists; split; [reflexivity|]; cbn [status_code json_response];
        split; [set_solver|]; by repeat split.
    + destruct (apiDetail_frame denv (String u0 u) (String c0 c) (String i0 i) s)
        as (resp & -> & Hst).
      exists resp. unfold outcome_of, state_of, trace_of. cbn [fst snd].
      split; [done|]. split; [destruct Hst as [-> | [-> | ->]]; set_solver|].
      split; [destruct Hst as [-> | [-> | ->]]; done|]. by repeat split.
Qed.

Lemma find_none_by_key sourceCode sites :
  (∀ site, site ∈ sites → key site ≠ sourceCode) →
  find (fun site => String.eqb (key site) sourceCode) sites = None.
Proof.
  induction sites as [|site sites IH]; intros H; [done|]. simpl.
  destruct (String.eqb_spec (key site) sourceCode) as [Heq | Hne].
  - exfalso. apply (H site); [left | done].
  - apply IH. intros site' Hin. apply H. by right.
Qed.

(** X22. Detail requests for the ordinary sources. For a user's request with
    a non-empty id and a source other than [openlist], [GET] changes no
    state; an id that is not of the form [[\w-]+] is answered 400 before the
    user's sites are consulted; a source that is not among the user's sites
    is answered 400; a thrown error is answered 500 with its message; and a
    detail that is found is answered 200 with the four cache headers made
    from the cache time. *)
Theorem ordinary_source_detail denv env request s user id sourceCode :
  getAuthInfoFromCookie denv request ≫= username = Some user →
  user ≠ EmptyString →
  param_id request = Some id →
  id ≠ EmptyString →
  param_source request = Some sourceCode →
  sourceCode ≠ EmptyString →
  sourceCode ≠ "openlist" →
  let answer := outcome_of (GET denv env request s) in
  state_of (GET denv env request s) = s
  ∧ trace_of (GET denv env request s) = []
  ∧ (valid_id id = false → answer = Ok (mkResponse 400 (ErrorBody invalid_id_format) []))
  ∧ (valid_id id = true →
     (∀ m, getAvailableApiSites denv user = Throw m →
           answer = Ok (mkResponse 500 (ErrorBody m) []))
     ∧ (∀ sites, getAvailableApiSites denv user = Ok sites →
           (∀ site, site ∈ sites → key site ≠ sourceCode) →
           answer = Ok (mkResponse 400 (ErrorBody "无效的API来源") []))
     ∧ (∀ sites site payload cacheTime,
           getAvailableApiSites denv user = Ok sites →
           find (fun site => String.eqb (key site) sourceCode) sites = Some site →
           getDetailFromApi denv site id = Ok payload →
           getCacheTime denv = Ok cacheTime →
           answer
           = Ok (mkResponse 200 (ApiBody payload)
                   [("Cache-Control",
                     "public, max-age=" +:+ pretty cacheTime +:+ ", s-maxage="
                       +:+ pretty cacheTime);
                    ("CDN-Cache-Control", "public, s-maxage=" +:+ pretty cacheTime);
                    ("Vercel-CDN-Cache-Control", "public, s-maxage=" +:+ pretty cacheTime);
                    ("Netlify-Vary", "query")]))).
Proof.
  intros Hauth Huser Hid Hid' Hsource Hsrc Hsrc' answer. subst answer.
  unfold GET. rewrite Hauth, Hid, Hsource.
  destruct user as [|u0 u]; [done|]. destruct id as [|i0 i]; [done|].
  destruct sourceCode as [|c0 c]; [done|].
  destruct (String.eqb_spec (String c0 c) "openlist") as [Heq | _]; [done|].
  destruct (valid_id (String i0 i)); cbn [negb].
  - destruct (apiDetail_frame denv (String u0 u) (String c0 c) (String i0 i) s)
      as (resp & Hrun & _).
    rewrite Hrun. unfold outcome_of, state_of, trace_of. cbn [fst snd].
    split; [done|]. split; [done|]. split; [done|]. intros _.
    revert Hrun. unfold apiDetail, try_catch, bind, lift, ret, json_response, cache_headers.
    split; [|split].
    + intros m Hm. rewrite Hm in Hrun. cbn beta iota in Hrun. by injection Hrun as <-.
    + intros sites Hsites Hnone. rewrite Hsites in Hrun. cbn beta iota in Hrun.
      rewrite (find_none_by_key _ _ Hnone) in Hrun. cbn beta iota in Hrun.
      by injection Hrun as <-.
    + intros sites site payload cacheTime Hsites Hfind Hdetail Htime.
      rewrite Hsites in Hrun. cbn beta iota in Hrun. rewrite Hfind in Hrun.
      cbn beta iota in Hrun. rewrite Hdetail in Hrun. cbn beta iota in Hrun.
      rewrite Htime in Hrun. cbn beta iota in Hrun. by injection Hrun as <-.
  - unfold outcome_of, state_of, trace_of, ret. cbn [fst snd]. by repeat split.
Qed.

Lemma ordinary_source_detail_witness :
  outcome_of
    (GET inception_denv two_folders_env
       (mkRequest (Some "12345") (Some "dyttzy") None None None) initial_state)
  = Ok (mkResponse 200 (ApiBody "http://dyttzy.example/api?ids=12345")
          [("Cache-Control", "public, max-age=7200, s-maxage=7200");
           ("CDN-Cache-Control", "public, s-maxage=7200");
           ("Vercel-CDN-Cache-Control", "public, s-maxage=7200");
           ("Netlify-Vary", "query")]).
Proof.
  destruct (ordinary_source_detail inception_denv two_folders_env
              (mkRequest (Some "12345") (Some "dyttzy") None None None) initial_state
              "alice" "12345" "dyttzy"
              eq_refl ltac:(discriminate) eq_refl ltac:(discriminate) eq_refl
              ltac:(discriminate) ltac:(discriminate))
    as (_ & _ & _ & H).
  destruct (H eq_refl) as (_ & _ & H').
  exact (H' [mkApiSite "dyttzy" "http://dyttzy.example/api"]
           (mkApiSite "dyttzy" "http://dyttzy.example/api")
           "http://dyttzy.example/api?ids=12345" 7200 eq_refl eq_refl eq_refl eq_refl).
Defined.

(** X23. A detail request can break the scans of a root. With nothing cached
    and a stored document that parses but has no [folders], a scan starts
    from no entries and completes if its listing and closing steps succeed.
    But once an [openlist] detail request with a complete configuration has
    been served, that document is in the cache, and a scan of the root throws
    the [TypeError] of [Object.keys] at once: it reports progress (0, 0),
    fails its task, asks neither the gateway nor the catalog, writes nothing,
    and leaves the state as the request left it. *)
Theorem detail_breaks_scans denv env' request s user id config c d
    env taskId url token rootPath tmdbApiKey tmdbProxy scanUser password :
  getAuthInfoFromCookie denv request ≫= username = Some user →
  user ≠ EmptyString →
  param_id request = Some id →
  id ≠ EmptyString →
  param_source request = Some "openlist" →
  getConfig env' = Ok config →
  OpenListConfig_ config = Some c →
  URL c ≠ EmptyString →
  Token c ≠ EmptyString →
  or_string (Some (RootPath c)) "/" = rootPath →
  cache s !! rootPath = None →
  getGlobalValue_error env' = None →
  metainfo_db s = Some (Json d) →
  folders d = None →
  let visited := state_of (GET denv env' request s) in
  let scan :=
    performScan env taskId url token rootPath tmdbApiKey tmdbProxy scanUser password visited in
  (∀ dirs, listing env rootPath = Ok dirs → persist_outcome env = Ok tt →
           outcome_of
             (performScan env taskId url token rootPath tmdbApiKey tmdbProxy scanUser password s)
           = Ok tt)
  ∧ outcome_of scan = Throw keys_of_undefined
  ∧ trace_of scan = [EUpdateProgress taskId 0 0 None; EFailTask taskId keys_of_undefined]
  ∧ state_of scan = visited.
Proof.
  intros Hauth Huser Hid Hid' Hsource Hconfig Hc Hurl Htoken Hroot Hmiss Hread Hdb Hfolders
    visited scan.
  subst scan visited rootPath. set (rootPath := or_string (Some (RootPath c)) "/") in *.
  split.
  { intros dirs Hlist Hout.
    destruct (performScan_completes env taskId url token rootPath tmdbApiKey tmdbProxy
                scanUser password s dirs
                (scan_listing_ok _ _ _ _ (cache_miss_usable _ _ Hmiss) Hlist) Hout)
      as (st & tl & _ & Hok & _).
    exact Hok. }
  rewrite (GET_openlist denv env' request s user id) by done.
  destruct (openlistDetail_configured denv env' request id s config c Hconfig Hc Hurl Htoken)
    as (resp & o & s1 & t1 & t2 & Hr1 & -> & _).
  destruct (readMetaInfo_full env' rootPath s)
    as (o' & s1' & t' & Hr1' & _ & _ & _ & _ & _ & _ & _ & _ & Hwarm).
  fold rootPath in Hr1. rewrite Hr1 in Hr1'. injection Hr1' as <- <- <-.
  assert (cached_document s1 rootPath = Some d) as Hcached.
  { apply Hwarm; [done|]. unfold visible_metainfo. by rewrite Hmiss, Hread, Hdb. }
  assert (cached_without_folders s1 rootPath = true) as Hcw.
  { unfold cached_document in Hcached. unfold cached_without_folders.
    destruct (cache s1 !! rootPath) as [l|]; [|done].
    by rewrite (lookup_total_correct _ _ _ Hcached), Hfolders. }
  change (state_of (Ok resp, s1, t1 ++ t2)) with s1.
  by rewrite (performScan_on_folderless_cache env taskId url token rootPath tmdbApiKey
                tmdbProxy scanUser password s1 Hcw).
Qed.

Lemma detail_breaks_scans_witness :
  outcome_of
    (performScan two_folders_env "task-11" "http://openlist" "token" "/" "key" None None None
       folderless_store_state) = Ok tt
  ∧ outcome_of
      (performScan two_folders_env "task-11" "http://openlist" "token" "/" "key" None None None
         (state_of (GET inception_denv two_folders_env inception_request
                      folderless_store_state)))
    = Throw keys_of_undefined.
Proof.
  destruct (detail_breaks_scans inception_denv two_folders_env inception_request
              folderless_store_state "alice" "Inception (2010)" some_config
              (mkOpenListConfig "http://openlist" "token" "/" 0 0) (mkMetaInfo None 0)
              two_folders_env "task-11" "http://openlist" "token" "/" "key" None None None
              eq_refl ltac:(discriminate) eq_refl ltac:(discriminate) eq_refl eq_refl eq_refl
              ltac:(discriminate) ltac:(discriminate) eq_refl eq_refl eq_refl eq_refl eq_refl)
    as (H1 & H2 & _).
  split; [|exact H2].
  exact (H1 [OpenList.mkItem "Inception (2010)" true;
             OpenList.mkItem "Unknown Junk Folder" true] eq_refl eq_refl).
Defined.
